(** * Salling Group food-waste finder: the formatting and rendering pipeline

    A shallow embedding of [src/food_waste_search.py]: the unit formatter
    ([format_stock], [format_datetime]), the image URL normaliser
    ([get_optimized_image_url]), the clearance ranker ([get_sort_key]), the
    three output generators ([generate_outputs], [export_to_markdown],
    [print_clearances]), the client of the service ([FoodWasteAPI]) and the
    menu ([main]).

    Conventions of the embedding.
    - A Python [str] is a [string]: a sequence of bytes, text being UTF-8.
      [str.lower] is modelled on the ASCII letters, which is what it does on
      ASCII text (unit codes, URLs and timestamps are ASCII).
    - A JSON number is a rational [Q]: an [int] or a finite [float] taken at
      its exact value.
    - A raised exception is the [Raise] branch of [result]; [try]/[except]
      is a match on it.
    - JSON objects are records whose fields are [option]s: [None] is an
      absent key, so that [d['k']] raises [KeyError] and [d.get('k')] does
      not. *)

From Stdlib Require Import ZArith QArith Bool List String Ascii Lia.
From Stdlib Require Import Permutation Sorted DecimalString.
Import ListNotations.
Local Open Scope string_scope.

(* ================================================================== *)
(** * Exceptions *)

(** The exceptions of the program; the last two stand for what jinja2 and
    weasyprint raise. *)
Inductive exn : Type :=
| KeyError (key : string)
| IndexError
| ValueError (msg : string)
| OverflowError
| FileNotFoundError (path : string)
| TemplateFailure
| PdfFailure.

Inductive result (A : Type) : Type :=
| Ok (a : A)
| Raise (e : exn).

Arguments Ok {A} a.
Arguments Raise {A} e.

Definition bind {A B : Type} (m : result A) (k : A -> result B) : result B :=
  match m with
  | Ok a => k a
  | Raise e => Raise e
  end.

Notation "x <- m ;; k" := (bind m (fun x => k))
  (at level 61, m at next level, right associativity).

(** [l[i]] on a Python list. *)
Definition getitem {A : Type} (l : list A) (i : nat) : result A :=
  match nth_error l i with
  | Some a => Ok a
  | None => Raise IndexError
  end.

(** [d['k']] on a Python dict, the field being [None] when the key is absent. *)
Definition getkey {A : Type} (key : string) (field : option A) : result A :=
  match field with
  | Some a => Ok a
  | None => Raise (KeyError key)
  end.

(* ================================================================== *)
(** * Python string operations *)

Definition lower_ascii (c : ascii) : ascii :=
  let n := nat_of_ascii c in
  if (65 <=? n)%nat && (n <=? 90)%nat then ascii_of_nat (n + 32) else c.

(** [s.lower()] *)
Fixpoint str_lower (s : string) : string :=
  match s with
  | EmptyString => EmptyString
  | String c s' => String (lower_ascii c) (str_lower s')
  end.

(** [sub in s] *)
Fixpoint str_contains (sub s : string) {struct s} : bool :=
  if prefix sub s then true
  else match s with
       | EmptyString => false
       | String _ s' => str_contains sub s'
       end.

Fixpoint str_drop (n : nat) (s : string) : string :=
  match n, s with
  | O, _ => s
  | S n', String _ s' => str_drop n' s'
  | S _, EmptyString => EmptyString
  end.

(** The first occurrence of [sep] in [s]: what is before it and what is
    after it ([s.partition(sep)] when [sep] occurs). *)
Fixpoint str_partition (sep s : string) {struct s} : option (string * string) :=
  if prefix sep s then Some (EmptyString, str_drop (length sep) s)
  else match s with
       | EmptyString => None
       | String c s' =>
           match str_partition sep s' with
           | Some (b, a) => Some (String c b, a)
           | None => None
           end
       end.

Fixpoint split_fuel (fuel : nat) (sep s : string) : list string :=
  match fuel with
  | O => [s]
  | S f =>
      match str_partition sep s with
      | None => [s]
      | Some (b, a) => b :: split_fuel f sep a
      end
  end.

(** [s.split(sep)] for a non-empty [sep] (both separators of the program are
    literals): occurrences are found left to right and do not overlap.  Each
    of them consumes a character at least, so [length s] rounds suffice. *)
Definition str_split (sep s : string) : list string :=
  split_fuel (length s) sep s.

(* ================================================================== *)
(** * Image URL normaliser *)

Definition canonical_domain : string := "digitalassets.sallinggroup.com".

Definition optimized_prefix : string :=
  "https://digitalassets.sallinggroup.com/image/upload/e_trim/c_limit,e_sharpen:80,f_auto,q_auto,w_400,h_400/".

(** Python truthiness of a [str]. *)
Definition truthy (s : string) : bool :=
  match s with
  | EmptyString => false
  | String _ _ => true
  end.

(** The tail of [get_optimized_image_url], from [if asset_id:] on. *)
Definition finish_url (original_url : string) (asset_id : option string) : result string :=
  match asset_id with
  | Some id => if truthy id then Ok (optimized_prefix ++ id) else Ok original_url
  | None => Ok original_url
  end.

Definition get_optimized_image_url (original_url : option string) : result string :=
  match original_url with
  | None => Ok ""
  | Some url =>
      if negb (truthy url) then Ok ""
      else if str_contains canonical_domain url then Ok url
      else if str_contains "dam.dsg.dk" url then
        match (after <- getitem (str_split "/id/" url) 1 ;;
               getitem (str_split "/" after) 0) with
        | Ok id => finish_url url (Some id)
        | Raise IndexError => Ok url
        | Raise e => Raise e
        end
      else finish_url url None
  end.

(* ================================================================== *)
(** * Numbers and their formatting *)

Definition digit_char (d : Z) : ascii := ascii_of_nat (48 + Z.to_nat d).

(** The last [width] decimal digits of [n], zero-padded: ["%02d"], ["%04d"]
    and the like on a natural number below [10 ^ width]. *)
Fixpoint fixed_digits (width : nat) (n : Z) : string :=
  match width with
  | O => EmptyString
  | S w => fixed_digits w (n / 10) ++ String (digit_char (n mod 10)) EmptyString
  end.

(** [str(n)] for an [int]. *)
Definition Z_to_string (z : Z) : string := NilZero.string_of_int (Z.to_int z).

(** [int(x)]: truncation towards zero. *)
Definition py_int (q : Q) : Z := Z.quot (Qnum q) (Z.pos (Qden q)).

(** Rounding of [num / den] (with [0 <= num]) to the nearest integer, ties
    to even: the rounding of Python's fixed-point formatting. *)
Definition round_half_even (num : Z) (den : positive) : Z :=
  let d := (num / Z.pos den)%Z in
  let r := (num mod Z.pos den)%Z in
  match (2 * r ?= Z.pos den)%Z with
  | Lt => d
  | Gt => (d + 1)%Z
  | Eq => if Z.even d then d else (d + 1)%Z
  end.

(** [f"{x:.Nf}"] for [N = digits > 0]: the sign of [x], the integer part and
    exactly [digits] decimals of [|x|] rounded at that place. *)
Definition format_fixed (digits : nat) (q : Q) : string :=
  let scale := (10 ^ Z.of_nat digits)%Z in
  let n := round_half_even (Z.abs (Qnum q) * scale) (Qden q) in
  (if (Qnum q <? 0)%Z then "-" else "")
    ++ Z_to_string (n / scale) ++ "." ++ fixed_digits digits (n mod scale).

(* ================================================================== *)
(** * Unit formatter: stock *)

Definition unit_translations : list (string * string) :=
  [("each", "stk."); ("kg", "kg"); ("g", "g")].

(** [d.get(key, default)] *)
Fixpoint dict_get (d : list (string * string)) (key default : string) : string :=
  match d with
  | [] => default
  | (k, v) :: d' => if String.eqb k key then v else dict_get d' key default
  end.

(** The values [format_stock] tells apart with [isinstance]: a number, or
    anything else, which it prints with [str]. *)
Inductive stock_value : Type :=
| Number (q : Q)
| Other (text : string).

Definition format_stock (stock : stock_value) (unit : string) : string :=
  let danish_unit := dict_get unit_translations (str_lower unit) unit in
  match stock with
  | Number q =>
      if String.eqb (str_lower danish_unit) "kg"
      then format_fixed 2 q ++ " " ++ danish_unit
      else Z_to_string (py_int q) ++ " " ++ danish_unit
  | Other text => text ++ " " ++ danish_unit
  end.

(* ================================================================== *)
(** * Data model: the JSON records of the API

    The generators index the decoded JSON, so the fields bear the keys of
    the API; the dataclasses of the source are not used by them.  A field
    is [None] when its key is absent. *)

Record Offer : Type := {
  currency : option string;
  discount : option Q;
  ean : option string;
  endTime : option string;
  lastUpdate : option string;
  newPrice : option Q;
  originalPrice : option Q;
  percentDiscount : option Q;
  startTime : option string;
  stock : option Q;
  stockUnit : option string
}.

Record Product : Type := {
  description : option string;
  product_ean : option string;
  image : option string
}.

Record Clearance : Type := {
  offer : option Offer;
  product : option Product
}.

Record Address : Type := {
  street : option string;
  zip : option string;
  city : option string
}.

Record StoreInfo : Type := {
  name : option string;
  address : option Address
}.

Record Store : Type := {
  store : option StoreInfo;
  clearances : option (list Clearance)
}.

(** What the generators receive: one store ([isinstance(data, dict)]) or a
    list of stores. *)
Inductive Batch : Type :=
| OneStore (data : Store)
| StoreList (data : list Store).

(* ================================================================== *)
(** * Clearance ranker *)

Definition get_sort_key (clearance : Clearance) : result Q :=
  o <- getkey "offer" (offer clearance) ;;
  stock_ <- getkey "stock" (stock o) ;;
  unit_ <- getkey "stockUnit" (stockUnit o) ;;
  let unit := str_lower unit_ in
  if String.eqb unit "kg" then Ok (stock_ * inject_Z 1000)%Q else Ok stock_.

Fixpoint mapM {A B : Type} (f : A -> result B) (l : list A) : result (list B) :=
  match l with
  | [] => Ok []
  | x :: l' => y <- f x ;; ys <- mapM f l' ;; Ok (y :: ys)
  end.

(** Stable insertion into a list that is in descending order of keys: the
    new element, which precedes the others in the input, goes before the
    first element whose key is not greater than its own. *)
Fixpoint insert_desc {A : Type} (k : Q) (x : A) (l : list (Q * A)) : list (Q * A) :=
  match l with
  | [] => [(k, x)]
  | (k', y) :: l' =>
      if Qle_bool k' k then (k, x) :: l else (k', y) :: insert_desc k x l'
  end.

Fixpoint sort_desc {A : Type} (l : list (Q * A)) : list (Q * A) :=
  match l with
  | [] => []
  | (k, x) :: l' => insert_desc k x (sort_desc l')
  end.

(** [sorted(l, key=key, reverse=True)]: the keys are computed first, once
    per element and in order, then the elements are sorted on them in
    descending order, equal keys keeping their input order. *)
Definition sorted_reverse {A : Type} (key : A -> result Q) (l : list A) : result (list A) :=
  keys <- mapM key l ;;
  Ok (map snd (sort_desc (combine keys l))).

(* ================================================================== *)
(** * Calendar arithmetic *)

Local Open Scope Z_scope.

(** A naive [datetime]. *)
Record datetime : Type := {
  year : Z; month : Z; day : Z;
  hour : Z; minute : Z; second : Z; microsecond : Z
}.

Definition is_leap (y : Z) : bool :=
  (y mod 4 =? 0) && (negb (y mod 100 =? 0) || (y mod 400 =? 0)).

Definition days_in_month (y m : Z) : Z :=
  if m =? 2 then (if is_leap y then 29 else 28)
  else if (m =? 4) || (m =? 6) || (m =? 9) || (m =? 11) then 30
  else 31.

(** Days from 1970-01-01 to the given day of the proleptic Gregorian
    calendar. *)
Definition days_from_civil (y m d : Z) : Z :=
  let y' := if m <=? 2 then y - 1 else y in
  let era := y' / 400 in
  let yoe := y' - era * 400 in
  let mp := (m + 9) mod 12 in
  let doy := (153 * mp + 2) / 5 + d - 1 in
  let doe := yoe * 365 + yoe / 4 - yoe / 100 + doy in
  era * 146097 + doe - 719468.

Definition civil_from_days (z : Z) : Z * Z * Z :=
  let z := z + 719468 in
  let era := z / 146097 in
  let doe := z - era * 146097 in
  let yoe := (doe - doe / 1460 + doe / 36524 - doe / 146096) / 365 in
  let y := yoe + era * 400 in
  let doy := doe - (365 * yoe + yoe / 4 - yoe / 100) in
  let mp := (5 * doy + 2) / 153 in
  let d := doy - (153 * mp + 2) / 5 + 1 in
  let m := if mp <? 10 then mp + 3 else mp - 9 in
  (if m <=? 2 then y + 1 else y, m, d).

(** Seconds from 1970-01-01T00:00:00 to [dt], read as UTC. *)
Definition utc_seconds (dt : datetime) : Z :=
  days_from_civil (year dt) (month dt) (day dt) * 86400
  + hour dt * 3600 + minute dt * 60 + second dt.

(** [dt + timedelta(seconds=offset)] as a civil date and time. *)
Definition shift_seconds (dt : datetime) (offset : Z) : datetime :=
  let t := utc_seconds dt + offset in
  let '(y, m, d) := civil_from_days (t / 86400) in
  let sod := t mod 86400 in
  {| year := y; month := m; day := d;
     hour := sod / 3600; minute := sod mod 3600 / 60; second := sod mod 60;
     microsecond := microsecond dt |}.

(** [dt.strftime("%d/%m/%Y kl. %H:%M")], the year on four digits as the
    Python documentation has it. *)
Definition strftime_danish (dt : datetime) : string :=
  (fixed_digits 2 (day dt) ++ "/" ++ fixed_digits 2 (month dt) ++ "/"
   ++ fixed_digits 4 (year dt) ++ " kl. "
   ++ fixed_digits 2 (hour dt) ++ ":" ++ fixed_digits 2 (minute dt))%string.

(** [dt.strftime("%Y%m%d_%H%M")] *)
Definition strftime_compact (dt : datetime) : string :=
  (fixed_digits 4 (year dt) ++ fixed_digits 2 (month dt) ++ fixed_digits 2 (day dt)
   ++ "_" ++ fixed_digits 2 (hour dt) ++ fixed_digits 2 (minute dt))%string.

(* ================================================================== *)
(** * [datetime.strptime(s, "%Y-%m-%dT%H:%M:%S.%fZ")]

    CPython turns the format into a regular expression, one group per
    directive, compiled with [IGNORECASE], and matches it at the start of the
    string.  A group is modelled by the list of its ways to match, in the
    order in which the backtracking matcher tries them; the match that is
    found is the first way through the whole expression. *)

Definition is_digit (c : ascii) : bool :=
  let n := nat_of_ascii c in (48 <=? n)%nat && (n <=? 57)%nat.

Definition digit_val (c : ascii) : Z := Z.of_nat (nat_of_ascii c) - 48.

Definition in_range (lo hi c : ascii) : bool :=
  (nat_of_ascii lo <=? nat_of_ascii c)%nat && (nat_of_ascii c <=? nat_of_ascii hi)%nat.

(** [[lo1-hi1][lo2-hi2]] *)
Definition two_chars (lo1 hi1 lo2 hi2 : ascii) (s : string) : list (Z * string) :=
  match s with
  | String a (String b r) =>
      if in_range lo1 hi1 a && in_range lo2 hi2 b
      then [(10 * digit_val a + digit_val b, r)] else []
  | _ => []
  end.

(** [[lo-hi]] *)
Definition one_char (lo hi : ascii) (s : string) : list (Z * string) :=
  match s with
  | String a r => if in_range lo hi a then [(digit_val a, r)] else []
  | _ => []
  end.

(** A space, then [[lo-hi]]. *)
Definition space_char (lo hi : ascii) (s : string) : list (Z * string) :=
  match s with
  | String a r => if Ascii.eqb a " " then one_char lo hi r else []
  | _ => []
  end.

(** [%Y] is [\d\d\d\d]. *)
Definition re_Y (s : string) : list (Z * string) :=
  match s with
  | String a (String b (String c (String d r))) =>
      if is_digit a && is_digit b && is_digit c && is_digit d
      then [(1000 * digit_val a + 100 * digit_val b + 10 * digit_val c + digit_val d, r)]
      else []
  | _ => []
  end.

(** [%m] is [1[0-2]|0[1-9]|[1-9]]. *)
Definition re_m (s : string) : list (Z * string) :=
  two_chars "1" "1" "0" "2" s ++ two_chars "0" "0" "1" "9" s ++ one_char "1" "9" s.

(** [%d] is [3[0-1]|[1-2]\d|0[1-9]|[1-9]| [1-9]]. *)
Definition re_d (s : string) : list (Z * string) :=
  two_chars "3" "3" "0" "1" s ++ two_chars "1" "2" "0" "9" s
  ++ two_chars "0" "0" "1" "9" s ++ one_char "1" "9" s ++ space_char "1" "9" s.

(** [%H] is [2[0-3]|[0-1]\d|\d]. *)
Definition re_H (s : string) : list (Z * string) :=
  two_chars "2" "2" "0" "3" s ++ two_chars "0" "1" "0" "9" s ++ one_char "0" "9" s.

(** [%M] is [[0-5]\d|\d]. *)
Definition re_M (s : string) : list (Z * string) :=
  two_chars "0" "5" "0" "9" s ++ one_char "0" "9" s.

(** [%S] is [6[0-1]|[0-5]\d|\d]. *)
Definition re_S (s : string) : list (Z * string) :=
  two_chars "6" "6" "0" "1" s ++ two_chars "0" "5" "0" "9" s ++ one_char "0" "9" s.

(** The prefixes of [s] made of one to [max] digits, the longest first. *)
Fixpoint digit_prefixes (max : nat) (s : string) : list (string * string) :=
  match max, s with
  | S m, String c r =>
      if is_digit c
      then map (fun pr => (String c (fst pr), snd pr)) (digit_prefixes m r)
           ++ [(String c EmptyString, r)]
      else []
  | _, _ => []
  end.

(** [int(s)] on a string of digits. *)
Fixpoint int_of_digits (acc : Z) (s : string) : Z :=
  match s with
  | EmptyString => acc
  | String c r => int_of_digits (10 * acc + digit_val c) r
  end.

Fixpoint zeros (n : nat) : string :=
  match n with
  | O => EmptyString
  | S n' => String "0" (zeros n')
  end.

(** [%f] is [[0-9]{1,6}]; the digits are padded with zeros on the right to
    six before they are read as microseconds. *)
Definition re_f (s : string) : list (Z * string) :=
  map (fun pr => (int_of_digits 0 (fst pr ++ zeros (6 - length (fst pr))), snd pr))
      (digit_prefixes 6 s).

(** A literal character of the format. *)
Definition lit (c : ascii) (s : string) : list (unit * string) :=
  match s with
  | String a r => if Ascii.eqb a c then [(tt, r)] else []
  | _ => []
  end.

(** A literal letter of the format: under [IGNORECASE] it matches in either
    case. *)
Definition lit_nocase (c : ascii) (s : string) : list (unit * string) :=
  match s with
  | String a r => if Ascii.eqb (lower_ascii a) (lower_ascii c) then [(tt, r)] else []
  | _ => []
  end.

Definition then_ {A B : Type} (p : list (A * string)) (k : A -> string -> list (B * string))
  : list (B * string) :=
  flat_map (fun ar => k (fst ar) (snd ar)) p.

Notation "x <~ p @ s ;; k" := (then_ p (fun x s => k))
  (at level 61, p at next level, s name, right associativity).

(** All the ways the expression of ["%Y-%m-%dT%H:%M:%S.%fZ"] matches at the
    start of [s], in the matcher's order, with what each leaves unread. *)
Definition format_matches (s : string) : list (datetime * string) :=
  Y <~ re_Y s @ s ;; _ <~ lit "-" s @ s ;;
  m <~ re_m s @ s ;; _ <~ lit "-" s @ s ;;
  d <~ re_d s @ s ;; _ <~ lit_nocase "T" s @ s ;;
  H <~ re_H s @ s ;; _ <~ lit ":" s @ s ;;
  M <~ re_M s @ s ;; _ <~ lit ":" s @ s ;;
  S <~ re_S s @ s ;; _ <~ lit "." s @ s ;;
  f <~ re_f s @ s ;; _ <~ lit_nocase "Z" s @ s ;;
  [({| year := Y; month := m; day := d;
       hour := H; minute := M; second := S; microsecond := f |}, s)].

(** [datetime.strptime]: the match found must reach the end of the string,
    and its fields must make a [datetime]. *)
Definition strptime (s : string) : result datetime :=
  match format_matches s with
  | [] => Raise (ValueError "time data does not match format")
  | (dt, rest) :: _ =>
      if truthy rest then Raise (ValueError "unconverted data remains")
      else if year dt <? 1 then Raise (ValueError "year 0 is out of range")
      else if days_in_month (year dt) (month dt) <? day dt
           then Raise (ValueError "day is out of range for month")
      else if 59 <? second dt then Raise (ValueError "second must be in 0..59")
      else Ok dt
  end.

Local Close Scope Z_scope.

(* ================================================================== *)
(** * The program against its environment

    What the program takes from outside is a parameter here:
    - [danish_tz], the table of [pytz.timezone('Europe/Copenhagen')]: the
      offset from UTC, in seconds, in force at an instant given in seconds
      from 1970-01-01T00:00:00 UTC;
    - [str_of_number], Python's [str] on a JSON number (the shortest
      representation of a [float]);
    - [render_template], jinja2's [Template(text).render(content=html)];
    - [write_pdf], weasyprint's conversion of a page to PDF. *)

Definition nl : string := String (ascii_of_nat 10) EmptyString.
Definition dq : string := String (ascii_of_nat 34) EmptyString.

(** The file system, the clock and the console.  Creating a directory and
    writing a file always succeed. *)
Record world : Type := {
  clock : datetime;
  dirs : list string;
  files : list (string * string);
  stdout : string
}.

Definition io (A : Type) : Type := world -> result A * world.

Definition io_ret {A : Type} (a : A) : io A := fun w => (Ok a, w).

Definition io_bind {A B : Type} (m : io A) (k : A -> io B) : io B :=
  fun w =>
    match m w with
    | (Ok a, w') => k a w'
    | (Raise e, w') => (Raise e, w')
    end.

Notation "x <<- m ;; k" := (io_bind m (fun x => k))
  (at level 61, m at next level, right associativity).

(** A computation that touches nothing. *)
Definition lift {A : Type} (r : result A) : io A := fun w => (r, w).

Fixpoint io_for {A : Type} (l : list A) (body : A -> io unit) : io unit :=
  match l with
  | [] => io_ret tt
  | x :: l' => _ <<- body x ;; io_for l' body
  end.

(** [datetime.now()] *)
Definition now : io datetime := fun w => (Ok (clock w), w).

(** [Path(path).mkdir(exist_ok=True)] *)
Definition mkdir (path : string) : io unit :=
  fun w =>
    (Ok tt,
     {| clock := clock w;
        dirs := if existsb (String.eqb path) (dirs w) then dirs w else path :: dirs w;
        files := files w;
        stdout := stdout w |}).

Definition lookup_file (path : string) (fs : list (string * string)) : option string :=
  match find (fun f => String.eqb (fst f) path) fs with
  | Some f => Some (snd f)
  | None => None
  end.

(** [open(path, 'r').read()] *)
Definition read_file (path : string) : io string :=
  fun w =>
    match lookup_file path (files w) with
    | Some text => (Ok text, w)
    | None => (Raise (FileNotFoundError path), w)
    end.

(** [open(path, 'w').write(text)] *)
Definition write_file (path text : string) : io unit :=
  fun w =>
    (Ok tt,
     {| clock := clock w;
        dirs := dirs w;
        files := (path, text) :: filter (fun f => negb (String.eqb (fst f) path)) (files w);
        stdout := stdout w |}).

(** [print(line)] *)
Definition print (line : string) : io unit :=
  fun w =>
    (Ok tt,
     {| clock := clock w; dirs := dirs w; files := files w;
        stdout := stdout w ++ line ++ nl |}).

(** [isinstance(data, dict)]: one store becomes a list of one. *)
Definition stores_of (data : Batch) : list Store :=
  match data with
  | OneStore d => [d]
  | StoreList l => l
  end.

(** [store['store']['name']] *)
Definition store_name (s : Store) : result string :=
  info <- getkey "store" (store s) ;;
  getkey "name" (name info).

(** [store['store']['address'][key]] *)
Definition store_address (key : string) (field : Address -> option string) (s : Store)
  : result string :=
  info <- getkey "store" (store s) ;;
  addr <- getkey "address" (address info) ;;
  getkey key (field addr).

(** [{street}, {zip} {city}] *)
Definition address_line (s : Store) : result string :=
  street_ <- store_address "street" street s ;;
  zip_ <- store_address "zip" zip s ;;
  city_ <- store_address "city" city s ;;
  Ok (street_ ++ ", " ++ zip_ ++ " " ++ city_).

(** [sorted(store['clearances'], key=get_sort_key, reverse=True)] *)
Definition sorted_clearances (s : Store) : result (list Clearance) :=
  cs <- getkey "clearances" (clearances s) ;;
  sorted_reverse get_sort_key cs.

Section Program.

Variable danish_tz : Z -> Z.
Variable str_of_number : Q -> string.
Variable render_template : string -> string -> result string.
Variable write_pdf : string -> result string.

(** [utc.localize(dt).astimezone(danish_tz)], which overflows out of the
    years of a [datetime]. *)
Definition astimezone (dt : datetime) : result datetime :=
  let local := shift_seconds dt (danish_tz (utc_seconds dt)) in
  if ((year local <? 1) || (9999 <? year local))%Z then Raise OverflowError
  else Ok local.

Definition format_datetime (timestamp_str : string) : result string :=
  dt <- strptime timestamp_str ;;
  danish_time <- astimezone dt ;;
  Ok (strftime_danish danish_time).

(** [{offer[key]} {offer['currency']}] *)
Definition price_text (key : string) (field : Offer -> option Q) (o : Offer) : result string :=
  amount <- getkey key (field o) ;;
  cur <- getkey "currency" (currency o) ;;
  Ok (str_of_number amount ++ " " ++ cur).

(** [format_stock(offer['stock'], offer['stockUnit'])] *)
Definition stock_text (o : Offer) : result string :=
  stock_ <- getkey "stock" (stock o) ;;
  unit_ <- getkey "stockUnit" (stockUnit o) ;;
  Ok (format_stock (Number stock_) unit_).

(** [format_datetime(offer['endTime'])] *)
Definition valid_until_text (o : Offer) : result string :=
  end_ <- getkey "endTime" (endTime o) ;;
  format_datetime end_.

(** [f"{offer['percentDiscount']:.1f}"] *)
Definition discount_text (o : Offer) : result string :=
  pd <- getkey "percentDiscount" (percentDiscount o) ;;
  Ok (format_fixed 1 pd).

(** The image of [generate_outputs]: the normaliser is called only when
    [product.get('image')] is truthy. *)
Definition html_image_url (p : Product) : result string :=
  match image p with
  | Some url => if truthy url then get_optimized_image_url (Some url) else Ok ""
  | None => Ok ""
  end.

Definition html_placeholder : string :=
  "<div style=" ++ dq ++ "width:100px;height:100px;background:#eee;" ++ dq ++ "></div>" ++ nl.

(** The body of the loop over the clearances in [generate_outputs]. *)
Definition html_item (clearance : Clearance) : result string :=
  p <- getkey "product" (product clearance) ;;
  o <- getkey "offer" (offer clearance) ;;
  image_url <- html_image_url p ;;
  picture <- (if truthy image_url
              then alt <- getkey "description" (description p) ;;
                   Ok ("<img src=" ++ dq ++ image_url ++ dq ++ " alt=" ++ dq ++ alt ++ dq
                       ++ " loading=" ++ dq ++ "lazy" ++ dq ++ ">" ++ nl)
              else Ok html_placeholder) ;;
  title <- getkey "description" (description p) ;;
  original <- price_text "originalPrice" originalPrice o ;;
  new_ <- price_text "newPrice" newPrice o ;;
  pd <- discount_text o ;;
  stock_ <- stock_text o ;;
  until <- valid_until_text o ;;
  Ok ("<div class=" ++ dq ++ "item" ++ dq ++ ">" ++ nl
      ++ picture
      ++ "<div class=" ++ dq ++ "item-details" ++ dq ++ ">" ++ nl
      ++ "<h3>" ++ title ++ "</h3>" ++ nl
      ++ "<p class=" ++ dq ++ "price" ++ dq ++ "><span class=" ++ dq ++ "original-price" ++ dq ++ ">"
      ++ original ++ "</span> ‚Üí <strong>" ++ new_ ++ "</strong></p>" ++ nl
      ++ "<p><span class=" ++ dq ++ "discount" ++ dq ++ ">-" ++ pd ++ "%</span></p>" ++ nl
      ++ "<p class=" ++ dq ++ "stock" ++ dq ++ ">üì¶ Beholdning: " ++ stock_ ++ "</p>" ++ nl
      ++ "<p class=" ++ dq ++ "valid-until" ++ dq ++ ">‚è∞ Gyldig indtil: " ++ until ++ "</p>" ++ nl
      ++ "</div>" ++ nl
      ++ "</div>" ++ nl).

(** The body of the loop over the stores in [generate_outputs]. *)
Definition html_store (s : Store) : result string :=
  name_ <- store_name s ;;
  addr <- address_line s ;;
  sorted <- sorted_clearances s ;;
  items <- mapM html_item sorted ;;
  Ok ("<div class=" ++ dq ++ "store" ++ dq ++ ">" ++ nl
      ++ "<h2>" ++ name_ ++ "</h2>" ++ nl
      ++ "<p><strong>Adresse:</strong> " ++ addr ++ "</p>" ++ nl
      ++ String.concat "" items
      ++ "</div>" ++ nl).

Definition html_header (t : datetime) : string :=
  nl ++ "    <h1>Tilbud med kort holdbarhed</h1>" ++ nl
  ++ "    <p class=" ++ dq ++ "updated" ++ dq ++ ">Opdateret: " ++ strftime_danish t ++ "</p>" ++ nl
  ++ "    ".

Definition html_content (t : datetime) (data : Batch) : result string :=
  sections <- mapM html_store (stores_of data) ;;
  Ok (html_header t ++ String.concat "" sections).

Definition generate_outputs (data : Batch) : io (string * string) :=
  let output_dir := "output" in
  _ <<- mkdir output_dir ;;
  let images_dir := output_dir ++ "/" ++ "images" in
  _ <<- mkdir images_dir ;;
  t <<- now ;;
  let base_filename := "tilbud_" ++ strftime_compact t in
  t' <<- now ;;
  content <<- lift (html_content t' data) ;;
  template <<- read_file "template.html" ;;
  final_html <<- lift (render_template template content) ;;
  let html_file := output_dir ++ "/" ++ base_filename ++ ".html" in
  _ <<- write_file html_file final_html ;;
  let pdf_file := output_dir ++ "/" ++ base_filename ++ ".pdf" in
  pdf <<- lift (write_pdf final_html) ;;
  _ <<- write_file pdf_file pdf ;;
  io_ret (html_file, pdf_file).

Definition markdown_image_mark : string := "- üñºÔ∏è [Se billede](".

(** The image line of [export_to_markdown]: the URL of the product as it
    is, when [product.get('image')] is truthy. *)
Definition markdown_image_line (p : Product) : string :=
  match image p with
  | Some url => if truthy url then markdown_image_mark ++ url ++ ")" ++ nl else ""
  | None => ""
  end.

(** The body of the loop over the clearances in [export_to_markdown]. *)
Definition markdown_item (clearance : Clearance) : result string :=
  p <- getkey "product" (product clearance) ;;
  o <- getkey "offer" (offer clearance) ;;
  title <- getkey "description" (description p) ;;
  original <- price_text "originalPrice" originalPrice o ;;
  new_ <- price_text "newPrice" newPrice o ;;
  pd <- discount_text o ;;
  stock_ <- stock_text o ;;
  until <- valid_until_text o ;;
  Ok ("### " ++ title ++ nl
      ++ "- üí∞ ~~" ++ original ++ "~~ ‚Üí **" ++ new_ ++ "**" ++ nl
      ++ "- üè∑Ô∏è Rabat: **" ++ pd ++ "%**" ++ nl
      ++ "- üì¶ Beholdning: " ++ stock_ ++ nl
      ++ "- ‚è∞ Gyldig indtil: " ++ until ++ nl
      ++ markdown_image_line p
      ++ nl ++ "---" ++ nl ++ nl).

(** The body of the loop over the stores in [export_to_markdown]. *)
Definition markdown_store (s : Store) : result string :=
  name_ <- store_name s ;;
  addr <- address_line s ;;
  sorted <- sorted_clearances s ;;
  items <- mapM markdown_item sorted ;;
  Ok ("## " ++ name_ ++ nl
      ++ "**Adresse:** " ++ addr ++ nl ++ nl
      ++ String.concat "" items).

Definition markdown_header (t : datetime) : string :=
  "# Tilbud med kort holdbarhed" ++ nl ++ nl
  ++ "*Opdateret: " ++ strftime_danish t ++ "*" ++ nl ++ nl.

Definition markdown_content (t : datetime) (data : Batch) : result string :=
  sections <- mapM markdown_store (stores_of data) ;;
  Ok (markdown_header t ++ String.concat "" sections).

Definition export_to_markdown (data : Batch) (filename : option string) : io string :=
  filename <<- match filename with
               | None => t <<- now ;; io_ret ("tilbud_" ++ strftime_compact t ++ ".md")
               | Some f => io_ret f
               end ;;
  t' <<- now ;;
  content <<- lift (markdown_content t' data) ;;
  _ <<- write_file filename content ;;
  io_ret filename.

(** The body of the loop over the clearances in [print_clearances]. *)
Definition print_item (clearance : Clearance) : io unit :=
  p <<- lift (getkey "product" (product clearance)) ;;
  o <<- lift (getkey "offer" (offer clearance)) ;;
  title <<- lift (getkey "description" (description p)) ;;
  _ <<- print (nl ++ "- " ++ title) ;;
  original <<- lift (price_text "originalPrice" originalPrice o) ;;
  _ <<- print ("  Oprindelig pris: " ++ original) ;;
  new_ <<- lift (price_text "newPrice" newPrice o) ;;
  _ <<- print ("  Ny pris: " ++ new_) ;;
  pd <<- lift (discount_text o) ;;
  _ <<- print ("  Rabat: " ++ pd ++ "%") ;;
  stock_ <<- lift (stock_text o) ;;
  _ <<- print ("  Beholdning: " ++ stock_) ;;
  until <<- lift (valid_until_text o) ;;
  print ("  Gyldig indtil: " ++ until).

(** The body of the loop over the stores in [print_clearances]. *)
Definition print_store (s : Store) : io unit :=
  name_ <<- lift (store_name s) ;;
  _ <<- print (nl ++ "Butik: " ++ name_) ;;
  addr <<- lift (address_line s) ;;
  _ <<- print ("Adresse: " ++ addr) ;;
  _ <<- print (nl ++ "Tilbud (sorteret efter st√∏rst beholdning):") ;;
  sorted <<- lift (sorted_clearances s) ;;
  io_for sorted print_item.

Definition print_clearances (data : Batch) : io unit :=
  paths <<- generate_outputs data ;;
  _ <<- print (nl ++ "Output filer genereret:") ;;
  _ <<- print ("- HTML: " ++ fst paths) ;;
  _ <<- print ("- PDF: " ++ snd paths) ;;
  io_for (stores_of data) print_store.

End Program.

(* ================================================================== *)
(** * Specification-side predicates *)

(** [first_occurrence sep pre s]: no occurrence of [sep] in [s] starts
    before position [length pre]. *)
Definition first_occurrence (sep pre s : string) : Prop :=
  forall p q, s = p ++ sep ++ q -> (length pre <= length p)%nat.


(** The first path segment of [s]: its characters up to the first ["/"]. *)
Fixpoint first_segment (s : string) : string :=
  match s with
  | EmptyString => EmptyString
  | String c s' => if Ascii.eqb c "/" then EmptyString else String c (first_segment s')
  end.

(** [legacy_segment url id]: the first ["/id/"] of [url] is followed by the
    path segment [id], which runs to the next ["/"] or to the end of [url]. *)
Definition legacy_segment (url id : string) : Prop :=
  exists pre rest,
    url = pre ++ "/id/" ++ id ++ rest /\
    first_occurrence "/id/" pre url /\
    str_contains "/" id = false /\
    (rest = "" \/ exists r, rest = "/" ++ r).

(** The legacy asset-service pattern of the normaliser: a URL of
    [dam.dsg.dk] with a non-empty segment after its first ["/id/"]. *)
Definition legacy_pattern (url id : string) : Prop :=
  str_contains "dam.dsg.dk" url = true /\ legacy_segment url id /\ id <> "".

(** The unit table as the specification words it: on the lower-cased code,
    ["each"] is ["stk."], ["kg"] and ["g"] are themselves, and any other
    code passes through unchanged. *)
Definition resolved_unit (unitCode : string) : string :=
  let u := str_lower unitCode in
  if String.eqb u "each" then "stk."
  else if String.eqb u "kg" then "kg"
  else if String.eqb u "g" then "g"
  else unitCode.

(** [s] is a number written with exactly two decimals. *)
Definition two_decimals (s : string) : Prop :=
  exists ip d1 d2,
    s = ip ++ "." ++ String d1 (String d2 "") /\
    str_contains "." ip = false /\
    is_digit d1 = true /\ is_digit d2 = true.

(** [t] is [q] truncated towards zero. *)
Definition truncation_of (q : Q) (t : Z) : Prop :=
  (0 <= q -> inject_Z t <= q /\ q < inject_Z t + 1)%Q /\
  (q <= 0 -> q <= inject_Z t /\ inject_Z t - 1 < q)%Q.

(* ================================================================== *)
(** * Timestamps: the specification side *)

Local Open Scope Z_scope.

(** Days from 1970-01-01 (a Thursday) to the last Sunday of a month of 31
    days. *)
Definition last_sunday (y m : Z) : Z :=
  let last := days_from_civil y m 31 in
  last - (last + 4) mod 7.

(** The rule of the tz database for Europe/Copenhagen since 1996: UTC+1,
    and UTC+2 from 01:00 UTC on the last Sunday of March to 01:00 UTC on
    the last Sunday of October.  An instance of [danish_tz]. *)
Definition central_european (t : Z) : Z :=
  let '(y, _, _) := civil_from_days (t / 86400) in
  let start := last_sunday y 3 * 86400 + 3600 in
  let stop := last_sunday y 10 * 86400 + 3600 in
  if (start <=? t) && (t <? stop) then 7200 else 3600.

(** The first of the ways of a matcher. *)
Definition head_is {X : Type} (l : list X) (x : X) : Prop := exists tl, l = x :: tl.

Fixpoint all_digits (s : string) : bool :=
  match s with
  | EmptyString => true
  | String c r => is_digit c && all_digits r
  end.

(** The calendar by eras of 400 years, the year of an era starting in
    March, as [days_from_civil] and [civil_from_days] count. *)

(** The year after the year [yoe] of an era is a leap year: its February
    ends the year [yoe]. *)
Definition era_leap (yoe : Z) : Prop :=
  (yoe + 1) mod 4 = 0 /\ ((yoe + 1) mod 100 <> 0 \/ (yoe + 1) mod 400 = 0).

(** The day [d] of the month [mp] (March is 0) of the year [yoe] of an era
    of 400 years exists. *)
Definition era_date (yoe mp d : Z) : Prop :=
  0 <= yoe < 400 /\ 0 <= mp <= 11 /\ 1 <= d <= 31 /\
  (mp = 1 \/ mp = 3 \/ mp = 6 \/ mp = 8 -> d <= 30) /\
  (mp = 11 -> d <= 29) /\
  (mp = 11 -> d = 29 -> era_leap yoe).

Definition month_of (mp : Z) : Z := if mp <? 10 then mp + 3 else mp - 9.

Definition doe_of (yoe mp d : Z) : Z :=
  yoe * 365 + yoe / 4 - yoe / 100 + ((153 * mp + 2) / 5 + d - 1).

(** A date and a time of day that exist. *)
Definition valid_datetime (dt : datetime) : Prop :=
  1 <= year dt <= 9999 /\
  1 <= month dt <= 12 /\
  1 <= day dt <= days_in_month (year dt) (month dt) /\
  0 <= hour dt < 24 /\
  0 <= minute dt < 60 /\
  0 <= second dt < 60 /\
  0 <= microsecond dt < 1000000.

(** [dt] written [YYYY-MM-DDTHH:MM:SS.ffffffZ]. *)
Definition exact_form_of (dt : datetime) : string :=
  (fixed_digits 4 (year dt) ++ "-" ++ fixed_digits 2 (month dt) ++ "-"
   ++ fixed_digits 2 (day dt) ++ "T" ++ fixed_digits 2 (hour dt) ++ ":"
   ++ fixed_digits 2 (minute dt) ++ ":" ++ fixed_digits 2 (second dt) ++ "."
   ++ fixed_digits 6 (microsecond dt) ++ "Z")%string.

Local Close Scope Z_scope.

(** [s] has the form [YYYY-MM-DDTHH:MM:SS.ffffffZ]: 27 characters, digits
    but for the six marks. *)
Definition exact_form (s : string) : bool :=
  match list_ascii_of_string s with
  | [y1; y2; y3; y4; a; m1; m2; b; d1; d2; t; h1; h2; c; n1; n2; d; s1; s2; e;
     f1; f2; f3; f4; f5; f6; z] =>
      forallb is_digit [y1; y2; y3; y4; m1; m2; d1; d2; h1; h2; n1; n2; s1; s2;
                        f1; f2; f3; f4; f5; f6]
      && forallb (fun p => Ascii.eqb (fst p) (snd p))
           [(a, "-"); (b, "-"); (t, "T"); (c, ":"); (d, ":"); (e, "."); (z, "Z")]%char
  | _ => false
  end.

(** [s] has the form [DD/MM/YYYY kl. HH:MM]. *)
Definition danish_form (s : string) : bool :=
  match list_ascii_of_string s with
  | [d1; d2; a; m1; m2; b; y1; y2; y3; y4; c; k; l; p; d; h1; h2; e; n1; n2] =>
      forallb is_digit [d1; d2; m1; m2; y1; y2; y3; y4; h1; h2; n1; n2]
      && forallb (fun p => Ascii.eqb (fst p) (snd p))
           [(a, "/"); (b, "/"); (c, " "); (k, "k"); (l, "l"); (p, "."); (d, " "); (e, ":")]%char
  | _ => false
  end.

(** Stand-ins for the libraries, to run the program on examples. *)
Definition sample_str_of_number (q : Q) : string := format_fixed 2 q.

Definition sample_render_template (template content : string) : result string :=
  match str_partition "{{ content }}" template with
  | Some (before, after) => Ok (before ++ content ++ after)
  | None => Ok template
  end.

Definition sample_write_pdf (page : string) : result string := Ok ("%PDF-1.7 " ++ page).

(* ================================================================== *)
(** * Ordering: the specification side *)

(** Of two elements with their keys, the second has no greater key. *)
Definition keys_descend {A : Type} (p q : Q * A) : Prop := (fst q <= fst p)%Q.

(** [a] may stand before [b] in descending order of keys. *)
Definition ranks_before {A : Type} (key : A -> result Q) (a b : A) : Prop :=
  exists ka kb, key a = Ok ka /\ key b = Ok kb /\ (kb <= ka)%Q.

Definition descending {A : Type} (key : A -> result Q) (l : list A) : Prop :=
  StronglySorted (ranks_before key) l.

Definition has_key {A : Type} (key : A -> result Q) (k0 : Q) (a : A) : bool :=
  match key a with
  | Ok k => Qeq_bool k k0
  | Raise _ => false
  end.

(** [out] keeps the elements of equal keys in the order they have in [l]. *)
Definition stable {A : Type} (key : A -> result Q) (l out : list A) : Prop :=
  forall k0, filter (has_key key k0) out = filter (has_key key k0) l.

(* ================================================================== *)
(** * Rendering: the specification side

    The three generators read the same fields of a clearance, in the same
    order, and differ in what they write around them. *)

(** The formatted fields of a clearance. *)
Record item_text : Type := {
  it_title : string;
  it_original : string;
  it_new : string;
  it_discount : string;
  it_stock : string;
  it_until : string
}.

Section Rendered.

Variable danish_tz : Z -> Z.
Variable str_of_number : Q -> string.

Definition item_texts (c : Clearance) : result (Product * item_text) :=
  p <- getkey "product" (product c) ;;
  o <- getkey "offer" (offer c) ;;
  title <- getkey "description" (description p) ;;
  original <- price_text str_of_number "originalPrice" originalPrice o ;;
  new_ <- price_text str_of_number "newPrice" newPrice o ;;
  pd <- discount_text o ;;
  stock_ <- stock_text o ;;
  until <- valid_until_text danish_tz o ;;
  Ok (p, {| it_title := title; it_original := original; it_new := new_;
            it_discount := pd; it_stock := stock_; it_until := until |}).

(** The source of the picture in the HTML: the normaliser's result on the
    image of the product, or nothing. *)
Definition image_src (p : Product) : string :=
  match html_image_url p with
  | Ok r => r
  | Raise _ => ""
  end.

Definition html_picture (p : Product) (title : string) : string :=
  if truthy (image_src p)
  then "<img src=" ++ dq ++ image_src p ++ dq ++ " alt=" ++ dq ++ title ++ dq
       ++ " loading=" ++ dq ++ "lazy" ++ dq ++ ">" ++ nl
  else html_placeholder.

Definition html_details (f : item_text) : string :=
  "<div class=" ++ dq ++ "item-details" ++ dq ++ ">" ++ nl
  ++ "<h3>" ++ it_title f ++ "</h3>" ++ nl
  ++ "<p class=" ++ dq ++ "price" ++ dq ++ "><span class=" ++ dq ++ "original-price" ++ dq ++ ">"
  ++ it_original f ++ "</span> ‚Üí <strong>" ++ it_new f ++ "</strong></p>" ++ nl
  ++ "<p><span class=" ++ dq ++ "discount" ++ dq ++ ">-" ++ it_discount f ++ "%</span></p>" ++ nl
  ++ "<p class=" ++ dq ++ "stock" ++ dq ++ ">üì¶ Beholdning: " ++ it_stock f ++ "</p>" ++ nl
  ++ "<p class=" ++ dq ++ "valid-until" ++ dq ++ ">‚è∞ Gyldig indtil: " ++ it_until f ++ "</p>" ++ nl
  ++ "</div>" ++ nl
  ++ "</div>" ++ nl.

Definition html_of_item (pf : Product * item_text) : string :=
  "<div class=" ++ dq ++ "item" ++ dq ++ ">" ++ nl
  ++ html_picture (fst pf) (it_title (snd pf))
  ++ html_details (snd pf).

Definition markdown_fields (f : item_text) : string :=
  "### " ++ it_title f ++ nl
  ++ "- üí∞ ~~" ++ it_original f ++ "~~ ‚Üí **" ++ it_new f ++ "**" ++ nl
  ++ "- üè∑Ô∏è Rabat: **" ++ it_discount f ++ "%**" ++ nl
  ++ "- üì¶ Beholdning: " ++ it_stock f ++ nl
  ++ "- ‚è∞ Gyldig indtil: " ++ it_until f ++ nl.

Definition markdown_of_item (pf : Product * item_text) : string :=
  markdown_fields (snd pf)
  ++ markdown_image_line (fst pf)
  ++ nl ++ "---" ++ nl ++ nl.

(** What [print_clearances] prints for a clearance. *)
Definition text_of_item (pf : Product * item_text) : string :=
  let f := snd pf in
  (nl ++ "- " ++ it_title f) ++ nl
  ++ ("  Oprindelig pris: " ++ it_original f) ++ nl
  ++ ("  Ny pris: " ++ it_new f) ++ nl
  ++ ("  Rabat: " ++ it_discount f ++ "%") ++ nl
  ++ ("  Beholdning: " ++ it_stock f) ++ nl
  ++ ("  Gyldig indtil: " ++ it_until f) ++ nl.

(** The name, the address and the formatted clearances of a store, in the
    order in which they are rendered. *)
Definition store_texts (s : Store) : result (string * string * list (Product * item_text)) :=
  name_ <- store_name s ;;
  addr <- address_line s ;;
  sorted <- sorted_clearances s ;;
  items <- mapM item_texts sorted ;;
  Ok (name_, addr, items).

Definition html_of_store (sf : string * string * list (Product * item_text)) : string :=
  "<div class=" ++ dq ++ "store" ++ dq ++ ">" ++ nl
  ++ "<h2>" ++ fst (fst sf) ++ "</h2>" ++ nl
  ++ "<p><strong>Adresse:</strong> " ++ snd (fst sf) ++ "</p>" ++ nl
  ++ String.concat "" (map html_of_item (snd sf))
  ++ "</div>" ++ nl.

Definition markdown_of_store (sf : string * string * list (Product * item_text)) : string :=
  "## " ++ fst (fst sf) ++ nl
  ++ "**Adresse:** " ++ snd (fst sf) ++ nl ++ nl
  ++ String.concat "" (map markdown_of_item (snd sf)).

Definition text_of_store (sf : string * string * list (Product * item_text)) : string :=
  (nl ++ "Butik: " ++ fst (fst sf)) ++ nl
  ++ ("Adresse: " ++ snd (fst sf)) ++ nl
  ++ (nl ++ "Tilbud (sorteret efter st√∏rst beholdning):") ++ nl
  ++ String.concat "" (map text_of_item (snd sf)).

Definition batch_texts (data : Batch)
  : result (list (string * string * list (Product * item_text))) :=
  mapM store_texts (stores_of data).

End Rendered.

(** The worlds that differ from [w] in their console only. *)
Definition with_stdout (w : world) (out : string) : world :=
  {| clock := clock w; dirs := dirs w; files := files w; stdout := out |}.

(** A clearance lacks a field that the generators read. *)
Definition lacks_read_field (c : Clearance) : bool :=
  match product c, offer c with
  | Some p, Some o =>
      match description p, originalPrice o, currency o, newPrice o,
            percentDiscount o, stock o, stockUnit o, endTime o with
      | Some _, Some _, Some _, Some _, Some _, Some _, Some _, Some _ => false
      | _, _, _, _, _, _, _, _ => true
      end
  | _, _ => true
  end.

Definition is_KeyError (e : exn) : bool :=
  match e with
  | KeyError _ => true
  | _ => false
  end.

(** The clearances of a batch, store after store, in input order. *)
Definition batch_clearances (data : Batch) : list Clearance :=
  flat_map (fun s => match clearances s with Some cs => cs | None => [] end)
           (stores_of data).

(* ================================================================== *)
(** * Sample data *)

Definition sample_offer (stock_ : Q) (unit_ end_ : string) : Offer :=
  {| currency := Some "DKK"; discount := Some (10 # 1); ean := Some "5700000000017";
     endTime := Some end_; lastUpdate := Some "2024-05-31T08:00:00.000000Z";
     newPrice := Some (15 # 1); originalPrice := Some (25 # 1);
     percentDiscount := Some (40 # 1);
     startTime := Some "2024-05-31T08:00:00.000000Z";
     stock := Some stock_; stockUnit := Some unit_ |}.

Definition sample_clearance (title : option string) (img : option string)
           (stock_ : Q) (unit_ end_ : string) : Clearance :=
  {| offer := Some (sample_offer stock_ unit_ end_);
     product := Some {| description := title; product_ean := Some "5700000000017";
                        image := img |} |}.

Definition each_clearance : Clearance :=
  sample_clearance (Some "Rugbrod") None (500 # 1) "each" "2024-06-01T10:00:00.000000Z".

Definition kg_clearance : Clearance :=
  sample_clearance (Some "Hakket oksekod")
    (Some "https://dam.dsg.dk/services/assets.img/id/ABC123/foo")
    (2 # 1) "kg" "2024-06-01T10:00:00.000000Z".

Definition sample_store_of (cs : list Clearance) : Store :=
  {| store := Some {| name := Some "Netto Aarhus";
                      address := Some {| street := Some "Storegade 1";
                                         zip := Some "8000";
                                         city := Some "Aarhus C" |} |};
     clearances := Some cs |}.

(** One store with two clearances, the one by count first in the input. *)
Definition sample_store : Store := sample_store_of [each_clearance; kg_clearance].

Definition sample_world : world :=
  {| clock := {| year := 2024; month := 5; day := 31; hour := 9; minute := 30;
                 second := 0; microsecond := 0 |};
     dirs := [];
     files := [("template.html", "<html><body>{{ content }}</body></html>")];
     stdout := "" |}.

(** A clearance whose timestamp cannot be read, then one without a
    description. *)
Definition unreadable_then_untitled : Store :=
  sample_store_of
    [sample_clearance (Some "Maelk") None (5 # 1) "each" "soon";
     sample_clearance None None (1 # 1) "each" "2024-06-01T10:00:00.000000Z"].

(** An offer without [ean], and a clearance with it. *)
Definition sample_offer_without_ean : Offer :=
  {| currency := Some "DKK"; discount := Some (10 # 1); ean := None;
     endTime := Some "2024-06-01T10:00:00.000000Z";
     lastUpdate := Some "2024-05-31T08:00:00.000000Z"; newPrice := Some (15 # 1);
     originalPrice := Some (25 # 1); percentDiscount := Some (40 # 1);
     startTime := Some "2024-05-31T08:00:00.000000Z"; stock := Some (3 # 1);
     stockUnit := Some "each" |}.

Definition no_ean_clearance : Clearance :=
  {| offer := Some sample_offer_without_ean;
     product := Some {| description := Some "Rugbrod";
                        product_ean := Some "5700000000017"; image := None |} |}.

(** [clearance['product']['description']], when it is there. *)
Definition description_of (c : Clearance) : option string :=
  match product c with
  | Some p => description p
  | None => None
  end.

(* ================================================================== *)
(** * The generators: the specification side *)

Definition html_path (t : datetime) : string :=
  "output/tilbud_" ++ strftime_compact t ++ ".html".

Definition pdf_path (t : datetime) : string :=
  "output/tilbud_" ++ strftime_compact t ++ ".pdf".

Definition markdown_path (t : datetime) : string :=
  "tilbud_" ++ strftime_compact t ++ ".md".

(** The world once the two output directories are there. *)
Definition with_output_dirs (w : world) : world :=
  snd (mkdir "output/images" (snd (mkdir "output" w))).

(** The world once [text] is written at [path]. *)
Definition with_file (path text : string) (w : world) : world :=
  snd (write_file path text w).

(** The first lines that [print_clearances] prints. *)
Definition text_listing (t : datetime) : string :=
  (nl ++ "Output filer genereret:") ++ nl
  ++ ("- HTML: " ++ html_path t) ++ nl
  ++ ("- PDF: " ++ pdf_path t) ++ nl.

(** [s.count(sub)] for a non-empty [sub]: the occurrences found left to
    right, without overlap. *)
Definition str_count (sub s : string) : nat := Nat.pred (List.length (str_split sub s)).

(** The program on the stand-ins of the libraries. *)
Definition run_generate_outputs : Batch -> io (string * string) :=
  generate_outputs central_european sample_str_of_number sample_render_template
                   sample_write_pdf.

Definition run_export_to_markdown : Batch -> option string -> io string :=
  export_to_markdown central_european sample_str_of_number.

Definition run_print_clearances : Batch -> io unit :=
  print_clearances central_european sample_str_of_number sample_render_template
                   sample_write_pdf.

Definition untitled_clearance : Clearance :=
  sample_clearance None None (1 # 1) "each" "2024-06-01T10:00:00.000000Z".

Definition or_nil {X : Type} (r : result (list X)) : list X :=
  match r with
  | Ok l => l
  | Raise _ => []
  end.

Definition or_empty (r : result string) : string :=
  match r with
  | Ok s => s
  | Raise _ => ""
  end.

(** A clearance has the fields that the generators read, and its timestamp
    is converted. *)
Definition readable_clearance (danish_tz : Z -> Z) (c : Clearance) : Prop :=
  lacks_read_field c = false /\
  forall o ts, offer c = Some o -> endTime o = Some ts ->
               exists out, format_datetime danish_tz ts = Ok out.

(** A store has its name, its address and its clearances, all readable. *)
Definition readable_store (danish_tz : Z -> Z) (s : Store) : Prop :=
  (exists n, store_name s = Ok n) /\
  (exists a, address_line s = Ok a) /\
  exists cs, clearances s = Some cs /\ Forall (readable_clearance danish_tz) cs.

(* ================================================================== *)
(** * More of the generators: the specification side *)

(** The sections of a list of stores, one after the other. *)
Definition sections_of {X : Type} (section : X -> result string) (l : list X)
  : result string :=
  parts <- mapM section l ;;
  Ok (String.concat "" parts).

(** A unit code that the table of [format_stock] knows, in any case. *)
Definition known_unit (unit : string) : Prop :=
  In (str_lower unit) ["each"; "kg"; "g"].

(** A conversion to PDF that fails, and the world it leaves behind on the
    sample store. *)
Definition failing_write_pdf (page : string) : result string := Raise PdfFailure.

Definition world_after_failed_pdf : world :=
  snd (generate_outputs central_european sample_str_of_number sample_render_template
         failing_write_pdf (OneStore sample_store) sample_world).

(** What a matcher reads: each of its ways leaves a suffix of the string
    unread, what is before it having [lo] to [hi] characters. *)
Definition consumes {V : Type} (lo hi : nat) (p : string -> list (V * string)) : Prop :=
  forall s v r, In (v, r) (p s) ->
                exists pre, s = pre ++ r /\ (lo <= length pre <= hi)%nat.

(** [s] ends with the character [z]. *)
Definition ends_in (z : ascii) (s : string) : Prop :=
  exists body, s = body ++ String z "".

(* ================================================================== *)
(** * The client of the API and the menu

    [FoodWasteAPI] and [main] talk to the user and to the service.  Their
    environment is a parameter:
    - [http_get], what [requests.get] answers to a call, from the calls made
      before it and the call itself: a response, or what it raises;
    - [float_of_string] and [int_of_string], Python's [float] and [int] on a
      [str], and [str_of_float], [str] on a [float];
    - [str_of_exn], [str] on an exception;
    - the lines typed by the user, each with the time at which it is
      entered, and the time at which an answer of the service arrives. *)

Definition BASE_URL : string := "https://api.sallinggroup.com/v1/food-waste".

(** A value of the [params] of a call. *)
Inductive param_value : Type :=
| StrValue (s : string)
| IntValue (z : Z).

(** A call of [requests.get]. *)
Record request : Type := {
  req_url : string;
  req_headers : list (string * string);
  req_params : list (string * param_value)
}.

(** What is raised in [main]: a [requests.exceptions.RequestException],
    with its text, [EOFError] at the end of the input, or one of the
    exceptions of the generators. *)
Inductive raised : Type :=
| RequestException (text : string)
| EOFError
| Builtin (e : exn).

Inductive outcome (A : Type) : Type :=
| Returned (a : A)
| Raised (r : raised).

Arguments Returned {A} a.
Arguments Raised {A} r.

(** A response: its status, the text of the [HTTPError] that the status
    makes, and what [response.json()] returns or raises. *)
Record response : Type := {
  status_code : Z;
  http_error_msg : string;
  json : outcome Batch
}.

(** An answer of the service and the time at which it arrives. *)
Record reply : Type := {
  arrival : datetime;
  answer : outcome response
}.

(** The state of a run of [main]: the file system, the clock and the
    console, the lines that the user has still to type, and the calls of
    [requests.get] made so far, the latest last. *)
Record session : Type := {
  os : world;
  stdin : list (datetime * string);
  calls : list request
}.

Definition cli (A : Type) : Type := session -> outcome A * session.

Definition cli_ret {A : Type} (a : A) : cli A := fun s => (Returned a, s).

Definition cli_bind {A B : Type} (m : cli A) (k : A -> cli B) : cli B :=
  fun s =>
    match m s with
    | (Returned a, s') => k a s'
    | (Raised r, s') => (Raised r, s')
    end.

Notation "x <<= m ;; k" := (cli_bind m (fun x => k))
  (at level 61, m at next level, right associativity).

(** A computation on the file system and the console, within a session. *)
Definition run_io {A : Type} (m : io A) : cli A :=
  fun s =>
    match m (os s) with
    | (Ok a, w) => (Returned a, {| os := w; stdin := stdin s; calls := calls s |})
    | (Raise e, w) => (Raised (Builtin e), {| os := w; stdin := stdin s; calls := calls s |})
    end.

Definition of_outcome {A : Type} (o : outcome A) : cli A := fun s => (o, s).

(** The world at a later time. *)
Definition at_time (t : datetime) (w : world) : world :=
  {| clock := t; dirs := dirs w; files := files w; stdout := stdout w |}.

(** [input(prompt)]: the prompt is written without a newline, and the next
    line is read; at the end of the input it raises [EOFError]. *)
Definition input (prompt : string) : cli string :=
  fun s =>
    let w := with_stdout (os s) (stdout (os s) ++ prompt) in
    match stdin s with
    | [] => (Raised EOFError, {| os := w; stdin := []; calls := calls s |})
    | (t, line) :: rest =>
        (Returned line, {| os := at_time t w; stdin := rest; calls := calls s |})
    end.

(** [try: body except caught as e: handler(e)] *)
Definition try_except {A : Type} (body : cli A) (caught : raised -> bool)
           (handler : raised -> cli A) : cli A :=
  fun s =>
    match body s with
    | (Returned a, s') => (Returned a, s')
    | (Raised r, s') => if caught r then handler r s' else (Raised r, s')
    end.

(** [except requests.exceptions.RequestException] *)
Definition is_RequestException (r : raised) : bool :=
  match r with
  | RequestException _ => true
  | _ => false
  end.

(** [except (ValueError, requests.exceptions.RequestException)] *)
Definition is_ValueError_or_RequestException (r : raised) : bool :=
  match r with
  | RequestException _ => true
  | Builtin (ValueError _) => true
  | _ => false
  end.

(** [response.raise_for_status()]: an [HTTPError], which is a
    [RequestException], on the statuses from 400 to 599. *)
Definition raise_for_status (r : response) : outcome unit :=
  if ((400 <=? status_code r) && (status_code r <? 600))%Z
  then Raised (RequestException (http_error_msg r))
  else Returned tt.

(** [while True: body], the body telling whether the loop goes on
    ([break] is [false]); [None] when the fuel runs out. *)
Fixpoint while_true (fuel : nat) (body : cli bool) (s : session)
  : option (outcome unit * session) :=
  match fuel with
  | O => None
  | S fuel' =>
      match body s with
      | (Returned true, s') => while_true fuel' body s'
      | (Returned false, s') => Some (Returned tt, s')
      | (Raised r, s') => Some (Raised r, s')
      end
  end.

(** An instance of the class. *)
Record FoodWasteAPI : Type := {
  api_token : string;
  headers : list (string * string)
}.

(** [FoodWasteAPI.__init__] *)
Definition FoodWasteAPI_init (api_token : string) : FoodWasteAPI :=
  {| api_token := api_token;
     headers := [("Authorization", "Bearer " ++ api_token)] |}.

Section Client.

Variable danish_tz : Z -> Z.
Variable str_of_number : Q -> string.
Variable render_template : string -> string -> result string.
Variable write_pdf : string -> result string.
Variable http_get : list request -> request -> reply.
Variable float : Type.
Variable float_of_string : string -> result float.
Variable str_of_float : float -> string.
Variable int_of_string : string -> result Z.
Variable str_of_exn : exn -> string.

(** [requests.get(url, headers=headers, params=params)] *)
Definition requests_get (r : request) : cli response :=
  fun s =>
    let a := http_get (calls s) r in
    (answer a,
     {| os := at_time (arrival a) (os s); stdin := stdin s; calls := calls s ++ [r] |}).

Definition _make_request (self : FoodWasteAPI) (params : list (string * param_value))
  : cli Batch :=
  response <<= requests_get {| req_url := BASE_URL; req_headers := headers self;
                               req_params := params |} ;;
  _ <<= of_outcome (raise_for_status response) ;;
  of_outcome (json response).

Definition search_by_zip (self : FoodWasteAPI) (zip_code : string) : cli Batch :=
  let params := [("zip", StrValue zip_code)] in
  _make_request self params.

Definition search_by_coordinates (self : FoodWasteAPI) (latitude longitude : float)
           (radius : Z) : cli Batch :=
  let params := [("geo", StrValue (str_of_float latitude ++ "," ++ str_of_float longitude));
                 ("radius", IntValue radius)] in
  _make_request self params.

Definition get_store_clearances (self : FoodWasteAPI) (store_id : string) : cli Batch :=
  let url := BASE_URL ++ "/" ++ store_id in
  response <<= requests_get {| req_url := url; req_headers := headers self;
                               req_params := [] |} ;;
  _ <<= of_outcome (raise_for_status response) ;;
  of_outcome (json response).

(** [print(line)] in [main] *)
Definition say (line : string) : cli unit := run_io (print line).

(** [str(e)] *)
Definition str_of_raised (r : raised) : string :=
  match r with
  | RequestException text => text
  | EOFError => "EOF when reading a line"
  | Builtin e => str_of_exn e
  end.

(** [print(f"Error: {e}")] *)
Definition report (e : raised) : cli unit := say ("Error: " ++ str_of_raised e).

Definition show (results : Batch) : cli unit :=
  run_io (print_clearances danish_tz str_of_number render_template write_pdf results).

(** The branch of [choice == "1"]. *)
Definition by_zip (api : FoodWasteAPI) : cli unit :=
  zip_code <<= input "Enter ZIP code: " ;;
  try_except (results <<= search_by_zip api zip_code ;;
              show results)
             is_RequestException report.

(** The branch of [choice == "2"]. *)
Definition by_coordinates (api : FoodWasteAPI) : cli unit :=
  try_except (lat_ <<= input "Enter latitude (e.g., 56.154459): " ;;
              lat <<= run_io (lift (float_of_string lat_)) ;;
              lon_ <<= input "Enter longitude (e.g., 10.206777): " ;;
              lon <<= run_io (lift (float_of_string lon_)) ;;
              radius_ <<= input "Enter radius in km (default 5): " ;;
              radius <<= run_io (lift (int_of_string
                                         (if truthy radius_ then radius_ else "5"))) ;;
              results <<= search_by_coordinates api lat lon radius ;;
              show results)
             is_ValueError_or_RequestException report.

(** The branch of [choice == "3"]. *)
Definition by_store (api : FoodWasteAPI) : cli unit :=
  store_id <<= input "Enter store ID: " ;;
  try_except (results <<= get_store_clearances api store_id ;;
              show results)
             is_RequestException report.

(** The body of the loop of [main]; it returns [false] on [break]. *)
Definition menu_round (api : FoodWasteAPI) : cli bool :=
  _ <<= say (nl ++ "Food Waste Search Options:") ;;
  _ <<= say "1. Search by ZIP code" ;;
  _ <<= say "2. Search by coordinates" ;;
  _ <<= say "3. Search by store ID" ;;
  _ <<= say "4. Exit" ;;
  choice <<= input (nl ++ "Enter your choice (1-4): ") ;;
  if String.eqb choice "1" then _ <<= by_zip api ;; cli_ret true
  else if String.eqb choice "2" then _ <<= by_coordinates api ;; cli_ret true
  else if String.eqb choice "3" then _ <<= by_store api ;; cli_ret true
  else if String.eqb choice "4" then cli_ret false
  else _ <<= say "Invalid choice. Please try again." ;; cli_ret true.

(** [main], [SALLING_API_TOKEN] being what [os.getenv] returns once
    [load_dotenv] has run.  Every round of the loop reads a line, so that
    one round more than there are lines is enough. *)
Definition main (SALLING_API_TOKEN : option string) (s : session)
  : option (outcome unit * session) :=
  match SALLING_API_TOKEN with
  | Some (String c token) =>
      let api := FoodWasteAPI_init (String c token) in
      while_true (S (List.length (stdin s))) (menu_round api) s
  | _ =>
      Some ((_ <<= say "Error: Please set your API token in the .env file" ;;
             say "Create a .env file and add: SALLING_API_TOKEN=your_token_here") s)
  end.

End Client.

(** [m] leads from a session to one that [R] relates to it, whatever its
    outcome. *)
Definition leads {A : Type} (R : session -> session -> Prop) (m : cli A) : Prop :=
  forall s, R s (snd (m s)).

(** The three calls that the client makes. *)
Definition client_call (api : FoodWasteAPI) (r : request) : Prop :=
  req_headers r = headers api /\
  ((req_url r = BASE_URL /\ exists zip_code, req_params r = [("zip", StrValue zip_code)]) \/
   (req_url r = BASE_URL /\
    exists geo radius, req_params r = [("geo", StrValue geo); ("radius", IntValue radius)]) \/
   (exists store_id, req_url r = BASE_URL ++ "/" ++ store_id) /\ req_params r = []).

(** What a run of the menu may change from a session [s] to a later
    session [s']: lines are read and calls are made, the console grows, and
    on the file system nothing but the outputs and their directories. *)
Definition progress (api : FoodWasteAPI) (s s' : session) : Prop :=
  (exists read, stdin s = read ++ stdin s')%list /\
  (exists made, calls s' = (calls s ++ made)%list /\ Forall (client_call api) made) /\
  (exists printed, stdout (os s') = stdout (os s) ++ printed) /\
  (forall path, prefix "output/tilbud_" path = false ->
                lookup_file path (files (os s')) = lookup_file path (files (os s))) /\
  (forall d, In d (dirs (os s')) ->
             In d (dirs (os s)) \/ d = "output" \/ d = "output/images").

(** What a round of the menu prints before it reads the choice. *)
Definition menu_text : string :=
  (nl ++ "Food Waste Search Options:") ++ nl
  ++ "1. Search by ZIP code" ++ nl
  ++ "2. Search by coordinates" ++ nl
  ++ "3. Search by store ID" ++ nl
  ++ "4. Exit" ++ nl
  ++ (nl ++ "Enter your choice (1-4): ").

(** The session once the menu is printed and a choice is typed at [t],
    [rest] being the lines that follow it. *)
Definition chosen (s : session) (t : datetime) (rest : list (datetime * string)) : session :=
  {| os := at_time t (with_stdout (os s) (stdout (os s) ++ menu_text));
     stdin := rest;
     calls := calls s |}.

(** Stand-ins for the service and for the conversions of Python, to run
    [main] on examples: numbers are written with digits only, and the
    service answers every call alike. *)
Definition sample_float_of_string (s : string) : result Z :=
  if truthy s && all_digits s then Ok (int_of_digits 0 s)
  else Raise (ValueError "could not convert string to float").

Definition sample_str_of_float (z : Z) : string := Z_to_string z ++ ".0".

Definition sample_int_of_string (s : string) : result Z :=
  if truthy s && all_digits s then Ok (int_of_digits 0 s)
  else Raise (ValueError "invalid literal for int() with base 10").

Definition sample_str_of_exn (e : exn) : string :=
  match e with
  | KeyError key => "'" ++ key ++ "'"
  | IndexError => "list index out of range"
  | ValueError msg => msg
  | OverflowError => "date value out of range"
  | FileNotFoundError path => "No such file or directory: '" ++ path ++ "'"
  | TemplateFailure => "template"
  | PdfFailure => "pdf"
  end.

(** A service that answers every call with the status [status] and the
    decoded body [data]. *)
Definition service_of (status : Z) (data : Batch) (before : list request) (r : request)
  : reply :=
  {| arrival := clock sample_world;
     answer := Returned {| status_code := status;
                           http_error_msg := "error status for url: " ++ req_url r;
                           json := Returned data |} |}.

(** The session of a user who types [lines]. *)
Definition session_of (lines : list string) : session :=
  {| os := sample_world;
     stdin := map (fun line => (clock sample_world, line)) lines;
     calls := [] |}.

Definition run_main (status : Z) (data : Batch) (token : option string)
           (lines : list string) : option (outcome unit * session) :=
  main central_european sample_str_of_number sample_render_template sample_write_pdf
       (service_of status data) Z sample_float_of_string sample_str_of_float
       sample_int_of_string sample_str_of_exn token (session_of lines).

Definition run_menu_round (status : Z) (data : Batch) (lines : list string)
  : outcome bool * session :=
  menu_round central_european sample_str_of_number sample_render_template
             sample_write_pdf (service_of status data) Z sample_float_of_string
             sample_str_of_float sample_int_of_string sample_str_of_exn
             (FoodWasteAPI_init "secret") (session_of lines).

(** A store whose only clearance has a timestamp that is not read. *)
Definition unreadable_store : Store :=
  sample_store_of [sample_clearance (Some "Maelk") None (5 # 1) "each" "soon"].

(** The outcome of a run, and the session it ends in. *)
Definition outcome_of {A : Type} (x : option (outcome A * session)) : option (outcome A) :=
  match x with
  | Some (o, _) => Some o
  | None => None
  end.

Definition session_after {A : Type} (x : option (outcome A * session)) : session :=
  match x with
  | Some (_, s) => s
  | None => session_of []
  end.

(** The session once the service has answered the call [r] with [a]. *)
Definition answered (a : reply) (r : request) (s : session) : session :=
  {| os := at_time (arrival a) (os s); stdin := stdin s; calls := (calls s ++ [r])%list |}.

(** [m] makes the one call [r], whatever the answer, and touches nothing
    else; it raises what the call raises, the [HTTPError] of an error
    status whatever the body, and otherwise returns or raises what the
    decoding of the body does. *)
Definition one_call (http_get : list request -> request -> reply)
           (m : cli Batch) (r : request) : Prop :=
  forall s,
    let a := http_get (calls s) r in
    snd (m s) = answered a r s /\
    (forall x, answer a = Raised x -> fst (m s) = Raised x) /\
    (forall resp, answer a = Returned resp ->
                  (400 <= status_code resp < 600)%Z ->
                  fst (m s) = Raised (RequestException (http_error_msg resp))) /\
    (forall resp, answer a = Returned resp ->
                  ~ (400 <= status_code resp < 600)%Z ->
                  fst (m s) = json resp).

(** The session once the three questions of the search by coordinates are
    answered, the last at [t]. *)
Definition coordinates_asked (s : session) (t : datetime)
           (rest : list (datetime * string)) : session :=
  {| os := at_time t
             (with_stdout (os s)
                (stdout (os s) ++ menu_text
                 ++ "Enter latitude (e.g., 56.154459): "
                 ++ "Enter longitude (e.g., 10.206777): "
                 ++ "Enter radius in km (default 5): "));
     stdin := rest;
     calls := calls s |}.
(* ================================================================== *)
(* THEOREMS *)
(* ================================================================== *)

(** * Facts on strings *)

Lemma append_assoc (a b c : string) : (a ++ b) ++ c = a ++ (b ++ c).
Proof. induction a as [|x a IH]; simpl; [reflexivity | now rewrite IH]. Qed.

Lemma append_nil_r (a : string) : a ++ "" = a.
Proof. induction a as [|x a IH]; simpl; [reflexivity | now rewrite IH]. Qed.

Lemma length_append (a b : string) : length (a ++ b) = (length a + length b)%nat.
Proof. induction a as [|x a IH]; simpl; [reflexivity | now rewrite IH]. Qed.

Lemma append_inj_length (a b x y : string) :
  a ++ x = b ++ y -> length a = length b -> a = b /\ x = y.
Proof.
  revert b; induction a as [|c a IH]; intros [|d b] H L; simpl in *; try discriminate.
  - now split.
  - injection H as -> H. destruct (IH b H) as [-> ->]; [lia | now split].
Qed.

Lemma prefix_iff (p s : string) : prefix p s = true <-> exists r, s = p ++ r.
Proof.
  revert s; induction p as [|c p IH]; intros s; simpl.
  - destruct s; split; eauto.
  - destruct s as [|d s]; simpl.
    + split; [discriminate | intros [r H]; discriminate].
    + destruct (ascii_dec c d) as [->|N].
      * rewrite IH. split; intros [r H]; exists r; [now rewrite H | now injection H].
      * split; [discriminate | intros [r H]; injection H as E _; congruence].
Qed.

Lemma prefix_append (p r : string) : prefix p (p ++ r) = true.
Proof. apply prefix_iff; eauto. Qed.

Lemma str_drop_append (p r : string) : str_drop (length p) (p ++ r) = r.
Proof. induction p as [|c p IH]; simpl; [now destruct r | exact IH]. Qed.

Lemma str_contains_eq (sub s : string) :
  str_contains sub s =
  if prefix sub s then true
  else match s with
       | EmptyString => false
       | String _ s' => str_contains sub s'
       end.
Proof. destruct s; reflexivity. Qed.

Lemma str_partition_eq (sep s : string) :
  str_partition sep s =
  if prefix sep s then Some (EmptyString, str_drop (length sep) s)
  else match s with
       | EmptyString => None
       | String c s' =>
           match str_partition sep s' with
           | Some (b, a) => Some (String c b, a)
           | None => None
           end
       end.
Proof. destruct s; reflexivity. Qed.

Lemma str_contains_iff (sub s : string) :
  str_contains sub s = true <-> exists a b, s = a ++ sub ++ b.
Proof.
  induction s as [|c s IH]; rewrite str_contains_eq.
  - destruct (prefix sub "") eqn:P.
    + split; [intros _ | reflexivity].
      apply prefix_iff in P as [r P]. exists "", r. exact P.
    + split; [discriminate|]. intros [a [b H]].
      destruct a; [|discriminate]. simpl in H.
      rewrite H, prefix_append in P. discriminate.
  - destruct (prefix sub (String c s)) eqn:P.
    + split; [intros _ | reflexivity].
      apply prefix_iff in P as [r P]. exists "", r. exact P.
    + rewrite IH. split; intros [a [b H]].
      * exists (String c a), b. simpl. now rewrite H.
      * destruct a as [|d a]; simpl in H.
        -- rewrite H, prefix_append in P. discriminate.
        -- injection H as _ H. eauto.
Qed.

Lemma str_contains_append (a sub b : string) : str_contains sub (a ++ sub ++ b) = true.
Proof. apply str_contains_iff; eauto. Qed.

Lemma prefix_drop (sep s : string) :
  prefix sep s = true -> s = sep ++ str_drop (length sep) s.
Proof.
  intros P. apply prefix_iff in P as [r ->]. now rewrite str_drop_append.
Qed.

Lemma str_partition_sound (sep s b a : string) :
  str_partition sep s = Some (b, a) ->
  s = b ++ sep ++ a /\ first_occurrence sep b s.
Proof.
  revert b; induction s as [|c s IH]; intros b; rewrite str_partition_eq.
  - destruct (prefix sep "") eqn:P; [|discriminate].
    intros [= <- <-]. split; [exact (prefix_drop _ _ P) | intros p q _; simpl; lia].
  - destruct (prefix sep (String c s)) eqn:P.
    + intros [= <- <-]. split; [exact (prefix_drop _ _ P) | intros p q _; simpl; lia].
    + destruct (str_partition sep s) as [[b' a']|] eqn:E; [|discriminate].
      intros [= <- <-]. destruct (IH b' eq_refl) as [H F].
      split; [simpl; now rewrite <- H|].
      intros p q Hs. destruct p as [|d p]; simpl in Hs.
      * rewrite Hs, prefix_append in P. discriminate.
      * injection Hs as _ Hs. apply F in Hs. simpl. lia.
Qed.

Lemma str_partition_none (sep s : string) :
  str_partition sep s = None <-> str_contains sep s = false.
Proof.
  induction s as [|c s IH]; rewrite str_partition_eq, str_contains_eq.
  - destruct (prefix sep ""); split; congruence.
  - destruct (prefix sep (String c s)); [split; congruence|].
    rewrite <- IH. destruct (str_partition sep s) as [[b a]|]; split; congruence.
Qed.

Lemma str_partition_complete (sep s p q : string) :
  s = p ++ sep ++ q -> first_occurrence sep p s ->
  str_partition sep s = Some (p, q).
Proof.
  intros Hs F.
  destruct (str_partition sep s) as [[b a]|] eqn:E.
  - destruct (str_partition_sound _ _ _ _ E) as [Hb Fb].
    assert (L : length b = length p).
    { apply Nat.le_antisymm; [apply (Fb p q Hs) | apply (F b a Hb)]. }
    rewrite Hb in Hs. destruct (append_inj_length _ _ _ _ Hs L) as [-> Hr].
    destruct (append_inj_length sep sep a q Hr eq_refl) as [_ ->]. reflexivity.
  - apply str_partition_none in E.
    rewrite Hs, str_contains_append in E. discriminate.
Qed.

(** * Facts on [split] *)

Lemma prefix_slash (c : ascii) (s : string) :
  prefix "/" (String c s) = Ascii.eqb c "/".
Proof.
  cbn [prefix]. destruct (ascii_dec "/"%char c) as [<-|N].
  - now destruct s.
  - symmetry. apply Ascii.eqb_neq. congruence.
Qed.

Lemma partition_slash (s : string) :
  match str_partition "/" s with Some (b, _) => b | None => s end = first_segment s.
Proof.
  induction s as [|c s IH]; [reflexivity|].
  rewrite str_partition_eq, prefix_slash. cbn [first_segment].
  destruct (Ascii.eqb c "/"); [reflexivity|].
  destruct (str_partition "/" s) as [[b a]|]; now rewrite <- IH.
Qed.

Lemma split_slash_head (s : string) :
  getitem (str_split "/" s) 0 = Ok (first_segment s).
Proof.
  rewrite <- partition_slash. unfold str_split.
  destruct s as [|c s]; [reflexivity|]. cbn [length split_fuel].
  now destruct (str_partition "/" (String c s)) as [[b a]|].
Qed.

Lemma split_second (sep s : string) :
  sep <> "" ->
  getitem (str_split sep s) 1 =
  match str_partition sep s with
  | None => Raise IndexError
  | Some (_, a) =>
      Ok (match str_partition sep a with Some (b', _) => b' | None => a end)
  end.
Proof.
  intros Hsep. unfold str_split.
  destruct (str_partition sep s) as [[b a]|] eqn:E.
  - destruct (str_partition_sound _ _ _ _ E) as [Hs _].
    assert (L : length s = (length b + length sep + length a)%nat).
    { rewrite Hs at 1. rewrite !length_append. lia. }
    destruct sep as [|x sep]; [contradiction|]. simpl in L.
    destruct (length s) as [|f] eqn:Lf; [lia|].
    cbn [split_fuel]. rewrite E. unfold getitem. cbn [nth_error].
    destruct f as [|f].
    + destruct a; [|simpl in L; lia]. reflexivity.
    + cbn [split_fuel]. destruct (str_partition (String x sep) a) as [[b' a']|]; reflexivity.
  - destruct (length s); cbn [split_fuel]; [|rewrite E]; reflexivity.
Qed.

Lemma first_segment_slash (x y : string) :
  first_segment (x ++ "/" ++ y) = first_segment x.
Proof.
  induction x as [|c x IH]; [reflexivity|].
  cbn [append first_segment]. destruct (Ascii.eqb c "/"); [reflexivity | now f_equal].
Qed.

Lemma first_segment_decomp (s : string) :
  exists rest, s = first_segment s ++ rest /\
               (rest = "" \/ exists r, rest = "/" ++ r) /\
               str_contains "/" (first_segment s) = false.
Proof.
  induction s as [|c s (rest & H & R & C)]; cbn [first_segment].
  - exists "". repeat split; auto.
  - destruct (Ascii.eqb_spec c "/") as [->|N].
    + exists (String "/"%char s). split; [reflexivity|].
      split; [right; now exists s | reflexivity].
    + exists rest. repeat split; auto.
      * cbn [append]. now rewrite <- H.
      * rewrite str_contains_eq, prefix_slash.
        destruct (Ascii.eqb_spec c "/"); [contradiction | exact C].
Qed.

Lemma first_segment_id (id rest : string) :
  str_contains "/" id = false ->
  rest = "" \/ (exists r, rest = "/" ++ r) ->
  first_segment (id ++ rest) = id.
Proof.
  intros C R. induction id as [|c id IH].
  - destruct R as [->|[r ->]]; reflexivity.
  - rewrite str_contains_eq, prefix_slash in C. cbn [append first_segment].
    destruct (Ascii.eqb c "/"); [discriminate|].
    now rewrite (IH C).
Qed.

(** * The image URL normaliser *)

(** What [split('/id/')[1].split('/')[0]] computes. *)
Lemma asset_id_lookup (url : string) :
  (after <- getitem (str_split "/id/" url) 1 ;; getitem (str_split "/" after) 0) =
  match str_partition "/id/" url with
  | None => Raise IndexError
  | Some (_, a) => Ok (first_segment a)
  end.
Proof.
  rewrite split_second by discriminate.
  destruct (str_partition "/id/" url) as [[b a]|]; [|reflexivity].
  cbn [bind]. rewrite split_slash_head. f_equal.
  destruct (str_partition "/id/" a) as [[b' a']|] eqn:E; [|reflexivity].
  apply str_partition_sound in E as [-> _].
  change ("/id/" ++ a') with ("/" ++ ("id/" ++ a')).
  now rewrite first_segment_slash.
Qed.

Lemma legacy_segment_iff (url id : string) :
  legacy_segment url id <->
  exists pre a, str_partition "/id/" url = Some (pre, a) /\ first_segment a = id.
Proof.
  split.
  - intros (pre & rest & Hu & F & C & R).
    exists pre, (id ++ rest). split.
    + now apply str_partition_complete.
    + now apply first_segment_id.
  - intros (pre & a & E & <-).
    destruct (str_partition_sound _ _ _ _ E) as [Hu F].
    destruct (first_segment_decomp a) as (rest & Ha & R & C).
    exists pre, rest. repeat split; auto. now rewrite <- Ha.
Qed.

Lemma truthy_iff (s : string) : truthy s = true <-> s <> "".
Proof. destruct s; simpl; split; congruence. Qed.

(** The normaliser in closed form, for a non-empty URL off the canonical
    domain. *)
Lemma get_optimized_image_url_eq (url : string) :
  url <> "" -> str_contains canonical_domain url = false ->
  get_optimized_image_url (Some url) =
  Ok (if str_contains "dam.dsg.dk" url then
        match str_partition "/id/" url with
        | Some (_, a) =>
            if truthy (first_segment a) then optimized_prefix ++ first_segment a else url
        | None => url
        end
      else url).
Proof.
  intros N C. unfold get_optimized_image_url.
  apply truthy_iff in N. rewrite N, C. cbn [negb].
  destruct (str_contains "dam.dsg.dk" url); [|reflexivity].
  rewrite asset_id_lookup.
  destruct (str_partition "/id/" url) as [[b a]|]; [|reflexivity].
  unfold finish_url. now destruct (truthy (first_segment a)).
Qed.

Lemma optimized_prefix_canonical (id : string) :
  get_optimized_image_url (Some (optimized_prefix ++ id)) = Ok (optimized_prefix ++ id).
Proof.
  assert (C : str_contains canonical_domain (optimized_prefix ++ id) = true).
  { apply str_contains_iff.
    exists "https://", ("/image/upload/e_trim/c_limit,e_sharpen:80,f_auto,q_auto,w_400,h_400/" ++ id).
    reflexivity. }
  unfold get_optimized_image_url. rewrite C. reflexivity.
Qed.

Lemma legacy_pattern_functional (url id : string) :
  legacy_pattern url id ->
  exists pre a, str_partition "/id/" url = Some (pre, a) /\ first_segment a = id /\
                truthy id = true /\ str_contains "dam.dsg.dk" url = true.
Proof.
  intros (D & L & N). apply legacy_segment_iff in L as (pre & a & E & F).
  exists pre, a. repeat split; auto. now apply truthy_iff.
Qed.


Example normalize_legacy_example :
  get_optimized_image_url (Some "https://dam.dsg.dk/services/assets.img/id/ABC123/foo")
  = Ok "https://digitalassets.sallinggroup.com/image/upload/e_trim/c_limit,e_sharpen:80,f_auto,q_auto,w_400,h_400/ABC123".
Proof. reflexivity. Qed.

Example normalize_no_trailing_segment :
  get_optimized_image_url (Some "https://dam.dsg.dk/services/assets.img/id/ABC123")
  = Ok (optimized_prefix ++ "ABC123").
Proof. reflexivity. Qed.

Example normalize_no_id_example :
  get_optimized_image_url (Some "https://dam.dsg.dk/services/assets.img/ABC123/foo")
  = Ok "https://dam.dsg.dk/services/assets.img/ABC123/foo".
Proof. reflexivity. Qed.

Example normalize_empty_segment_example :
  get_optimized_image_url (Some "https://dam.dsg.dk/id//foo") = Ok "https://dam.dsg.dk/id//foo".
Proof. reflexivity. Qed.

Example normalize_other_host_example :
  get_optimized_image_url (Some "https://example.org/id/ABC123/foo")
  = Ok "https://example.org/id/ABC123/foo".
Proof. reflexivity. Qed.

Example legacy_pattern_example :
  legacy_pattern "https://dam.dsg.dk/services/assets.img/id/ABC123/foo" "ABC123".
Proof.
  split; [reflexivity|]. split; [|discriminate].
  apply legacy_segment_iff. eexists _, _. split; reflexivity.
Qed.

(** C7. The normaliser is idempotent, and a URL that is canonical already
    comes back unchanged. *)
Theorem get_optimized_image_url_idempotent :
  (forall x : option string,
     (r <- get_optimized_image_url x ;; get_optimized_image_url (Some r))
     = get_optimized_image_url x) /\
  (forall url : string,
     str_contains canonical_domain url = true ->
     get_optimized_image_url (Some url) = Ok url).
Proof.
  assert (K : forall url, str_contains canonical_domain url = true ->
                          get_optimized_image_url (Some url) = Ok url).
  { intros url C. unfold get_optimized_image_url. rewrite C.
    destruct url; [discriminate | reflexivity]. }
  split; [|exact K].
  intros [url|]; [|reflexivity].
  destruct (string_dec url "") as [->|N]; [reflexivity|].
  destruct (str_contains canonical_domain url) eqn:C.
  { rewrite (K url C). cbn [bind]. exact (K url C). }
  rewrite (get_optimized_image_url_eq url N C). cbn [bind].
  assert (U : get_optimized_image_url (Some url) =
              Ok (if str_contains "dam.dsg.dk" url then
                    match str_partition "/id/" url with
                    | Some (_, a) =>
                        if truthy (first_segment a)
                        then optimized_prefix ++ first_segment a else url
                    | None => url
                    end
                  else url))
    by exact (get_optimized_image_url_eq url N C).
  destruct (str_contains "dam.dsg.dk" url); [|rewrite U; reflexivity].
  destruct (str_partition "/id/" url) as [[pre a]|]; [|rewrite U; reflexivity].
  destruct (truthy (first_segment a)); [|rewrite U; reflexivity].
  apply optimized_prefix_canonical.
Qed.

(** C10. The result of the normaliser is the input itself, or the fixed
    optimized prefix followed by a non-empty asset id that occurs in the
    input right after an ["/id/"]. *)
Theorem get_optimized_image_url_range (url : string) :
  exists r, get_optimized_image_url (Some url) = Ok r /\
    (r = url \/
     exists id, id <> "" /\
                (exists pre post, url = pre ++ "/id/" ++ id ++ post) /\
                r = optimized_prefix ++ id).
Proof.
  destruct (string_dec url "") as [->|N]; [exists ""; split; auto|].
  destruct (str_contains canonical_domain url) eqn:C.
  { exists url. split; [|now left].
    unfold get_optimized_image_url. apply truthy_iff in N. now rewrite N, C. }
  eexists. split; [apply (get_optimized_image_url_eq url N C)|].
  destruct (str_contains "dam.dsg.dk" url); [|now left].
  destruct (str_partition "/id/" url) as [[pre a]|] eqn:E; [|now left].
  destruct (truthy (first_segment a)) eqn:T; [|now left].
  right. exists (first_segment a). split; [now apply truthy_iff|]. split; [|reflexivity].
  apply str_partition_sound in E as [Hu _].
  destruct (first_segment_decomp a) as (rest & Ha & _).
  exists pre, rest. now rewrite <- Ha.
Qed.

(** * The unit formatter: stock *)

Lemma digit_cases (d : Z) :
  (0 <= d < 10)%Z ->
  (d = 0 \/ d = 1 \/ d = 2 \/ d = 3 \/ d = 4 \/ d = 5 \/ d = 6 \/ d = 7 \/ d = 8 \/ d = 9)%Z.
Proof. lia. Qed.

Lemma is_digit_digit_char (d : Z) : (0 <= d < 10)%Z -> is_digit (digit_char d) = true.
Proof.
  intros H. apply digit_cases in H.
  repeat (destruct H as [->|H]; [reflexivity|]). now subst.
Qed.

Lemma string_of_uint_no_dot (d : Decimal.uint) :
  str_contains "." (NilEmpty.string_of_uint d) = false.
Proof. induction d; cbn [NilEmpty.string_of_uint]; [reflexivity | exact IHd ..]. Qed.

Lemma nilzero_no_dot (d : Decimal.uint) :
  str_contains "." (NilZero.string_of_uint d) = false.
Proof.
  destruct d; try reflexivity;
    exact (string_of_uint_no_dot (Decimal.D0 d)) ||
    exact (string_of_uint_no_dot (Decimal.D1 d)) ||
    exact (string_of_uint_no_dot (Decimal.D2 d)) ||
    exact (string_of_uint_no_dot (Decimal.D3 d)) ||
    exact (string_of_uint_no_dot (Decimal.D4 d)) ||
    exact (string_of_uint_no_dot (Decimal.D5 d)) ||
    exact (string_of_uint_no_dot (Decimal.D6 d)) ||
    exact (string_of_uint_no_dot (Decimal.D7 d)) ||
    exact (string_of_uint_no_dot (Decimal.D8 d)) ||
    exact (string_of_uint_no_dot (Decimal.D9 d)).
Qed.

Lemma Z_to_string_no_dot (z : Z) : str_contains "." (Z_to_string z) = false.
Proof.
  unfold Z_to_string, NilZero.string_of_int.
  destruct (Z.to_int z) as [d|d]; [apply nilzero_no_dot|].
  rewrite str_contains_eq. cbn [prefix]. 
  destruct (ascii_dec "."%char "-"%char); [discriminate | apply nilzero_no_dot].
Qed.

Lemma str_contains_dot_append (a b : string) :
  str_contains "." a = false -> str_contains "." b = false ->
  str_contains "." (a ++ b) = false.
Proof.
  intros A B. induction a as [|c a IH]; [exact B|].
  rewrite str_contains_eq in A. cbn [append]. rewrite str_contains_eq.
  destruct (prefix "." (String c a)) eqn:P; [discriminate|].
  assert (P' : prefix "." (String c (a ++ b)) = false).
  { cbn [prefix] in *. destruct (ascii_dec "."%char c); [now destruct a|reflexivity]. }
  rewrite P'. now apply IH.
Qed.

Lemma format_fixed_two_decimals (q : Q) : two_decimals (format_fixed 2 q).
Proof.
  unfold format_fixed.
  set (n := round_half_even _ _). set (scale := (10 ^ Z.of_nat 2)%Z).
  assert (B : (0 <= n mod scale < 100)%Z) by (apply Z.mod_pos_bound; reflexivity).
  exists ((if (Qnum q <? 0)%Z then "-" else "") ++ Z_to_string (n / scale)),
         (digit_char (n mod scale / 10 mod 10)), (digit_char (n mod scale mod 10)).
  split; [|split; [|split]].
  - rewrite append_assoc. reflexivity.
  - apply str_contains_dot_append; [now destruct (Qnum q <? 0)%Z | apply Z_to_string_no_dot].
  - apply is_digit_digit_char, Z.mod_pos_bound. lia.
  - apply is_digit_digit_char, Z.mod_pos_bound. lia.
Qed.

Lemma round_half_even_bound (num : Z) (den : positive) :
  (0 <= num)%Z ->
  (2 * Z.abs (num - round_half_even num den * Z.pos den) <= Z.pos den)%Z.
Proof.
  intros H. unfold round_half_even.
  pose proof (Z.div_mod num (Z.pos den) ltac:(lia)) as E.
  pose proof (Z.mod_pos_bound num (Z.pos den) ltac:(lia)) as B.
  destruct (Z.compare_spec (2 * (num mod Z.pos den)) (Z.pos den));
    [destruct (Z.even (num / Z.pos den))|..]; nia.
Qed.

Lemma py_int_truncation (q : Q) : truncation_of q (py_int q).
Proof.
  destruct q as [a b]. unfold truncation_of, py_int, Qle, Qlt. cbn.
  pose proof (Z.quot_rem' a (Z.pos b)) as E.
  set (t := (a ÷ Z.pos b)%Z) in *. set (r := Z.rem a (Z.pos b)) in *.
  split; intros H.
  - pose proof (Z.rem_bound_pos a (Z.pos b) ltac:(lia) ltac:(lia)) as R.
    fold r in R. nia.
  - pose proof (Z.rem_bound_pos_neg a (Z.pos b) ltac:(lia) ltac:(lia)) as R.
    fold r in R. nia.
Qed.

Lemma str_lower_resolved_kg (unit : string) :
  String.eqb (str_lower (dict_get unit_translations (str_lower unit) unit)) "kg"
  = String.eqb (resolved_unit unit) "kg".
Proof.
  unfold resolved_unit, unit_translations, dict_get.
  rewrite (String.eqb_sym "each"), (String.eqb_sym "kg" (str_lower unit)),
          (String.eqb_sym "g").
  destruct (String.eqb (str_lower unit) "each"); [reflexivity|].
  destruct (String.eqb (str_lower unit) "kg") eqn:K; [reflexivity|].
  destruct (String.eqb (str_lower unit) "g"); [reflexivity|].
  rewrite K. symmetry. apply String.eqb_neq. intros ->. discriminate.
Qed.

Lemma dict_get_resolved (unit : string) :
  dict_get unit_translations (str_lower unit) unit = resolved_unit unit.
Proof.
  unfold resolved_unit, unit_translations, dict_get.
  rewrite (String.eqb_sym "each"), (String.eqb_sym "kg" (str_lower unit)),
          (String.eqb_sym "g").
  reflexivity.
Qed.


(** * The unit formatter: timestamps *)

Local Open Scope Z_scope.

(** ** The calendar *)

Lemma year_decode (yoe doy : Z) :
  0 <= yoe < 400 -> 0 <= doy <= 365 -> (doy = 365 -> era_leap yoe) ->
  let doe := yoe * 365 + yoe / 4 - yoe / 100 + doy in
  0 <= doe < 146097 /\
  (doe - doe / 1460 + doe / 36524 - doe / 146096) / 365 = yoe.
Proof.
  unfold era_leap. intros H1 H2 H3. cbv zeta. Z.div_mod_to_equations; lia.
Qed.

Lemma year_encode (doe : Z) :
  0 <= doe < 146097 ->
  let yoe := (doe - doe / 1460 + doe / 36524 - doe / 146096) / 365 in
  let doy := doe - (365 * yoe + yoe / 4 - yoe / 100) in
  0 <= yoe < 400 /\ 0 <= doy <= 365 /\ (doy = 365 -> era_leap yoe).
Proof.
  unfold era_leap. intros H. cbv zeta. Z.div_mod_to_equations; lia.
Qed.

Lemma month_decode (mp d : Z) :
  0 <= mp <= 11 -> 1 <= d <= 31 ->
  (mp = 1 \/ mp = 3 \/ mp = 6 \/ mp = 8 -> d <= 30) -> (mp = 11 -> d <= 29) ->
  let doy := (153 * mp + 2) / 5 + d - 1 in
  0 <= doy <= 365 /\ (doy = 365 -> mp = 11 /\ d = 29) /\
  (5 * doy + 2) / 153 = mp /\ doy - (153 * mp + 2) / 5 + 1 = d.
Proof.
  intros H1 H2 H3 H4. cbv zeta. Z.div_mod_to_equations; lia.
Qed.

Lemma month_encode (doy : Z) :
  0 <= doy <= 365 ->
  let mp := (5 * doy + 2) / 153 in
  let d := doy - (153 * mp + 2) / 5 + 1 in
  0 <= mp <= 11 /\ 1 <= d <= 31 /\
  (mp = 1 \/ mp = 3 \/ mp = 6 \/ mp = 8 -> d <= 30) /\ (mp = 11 -> d <= 29) /\
  (mp = 11 -> d = 29 -> doy = 365) /\
  (153 * mp + 2) / 5 + d - 1 = doy.
Proof.
  intros H. cbv zeta. Z.div_mod_to_equations; lia.
Qed.

(** [civil_from_days] splits a day number into an era, and a date of the
    era that exists. *)
Lemma civil_from_days_era (z : Z) :
  exists era yoe mp d,
    era_date yoe mp d /\
    z + 719468 = era * 146097 + doe_of yoe mp d /\
    civil_from_days z
    = (if month_of mp <=? 2 then yoe + era * 400 + 1 else yoe + era * 400,
       month_of mp, d).
Proof.
  set (z' := z + 719468). set (era := z' / 146097). set (doe := z' - era * 146097).
  assert (Hdoe : 0 <= doe < 146097) by (subst doe era; Z.div_mod_to_equations; lia).
  pose proof (year_encode doe Hdoe) as Y. cbv zeta in Y.
  set (yoe := (doe - doe / 1460 + doe / 36524 - doe / 146096) / 365) in *.
  set (doy := doe - (365 * yoe + yoe / 4 - yoe / 100)) in *.
  destruct Y as (Hyoe & Hdoy & Hleap).
  pose proof (month_encode doy Hdoy) as M. cbv zeta in M.
  set (mp := (5 * doy + 2) / 153) in *.
  set (d := doy - (153 * mp + 2) / 5 + 1) in *.
  destruct M as (Hmp & Hd & H30 & H29 & H365 & Hback).
  exists era, yoe, mp, d. split; [|split].
  - unfold era_date. split; [lia|]. split; [lia|]. split; [lia|].
    split; [exact H30|]. split; [exact H29|]. intros A B. apply Hleap. auto.
  - unfold doe_of. rewrite Hback. subst doy doe. lia.
  - reflexivity.
Qed.

(** [days_from_civil] on a date of an era. *)
Lemma days_from_civil_era (era yoe mp d : Z) :
  era_date yoe mp d ->
  days_from_civil (if month_of mp <=? 2 then yoe + era * 400 + 1 else yoe + era * 400)
                  (month_of mp) d
  = era * 146097 + doe_of yoe mp d - 719468.
Proof.
  intros (Hyoe & Hmp & _).
  unfold days_from_civil.
  set (m := month_of mp).
  assert (Hy : (if m <=? 2 then (if m <=? 2 then yoe + era * 400 + 1 else yoe + era * 400) - 1
                else (if m <=? 2 then yoe + era * 400 + 1 else yoe + era * 400))
               = yoe + era * 400) by (destruct (m <=? 2); lia).
  cbv zeta. rewrite Hy.
  assert (He : (yoe + era * 400) / 400 = era) by (Z.div_mod_to_equations; lia).
  assert (Hm : (m + 9) mod 12 = mp).
  { subst m. unfold month_of. destruct (Z.ltb_spec mp 10); Z.div_mod_to_equations; lia. }
  rewrite He, Hm. unfold doe_of.
  replace (yoe + era * 400 - era * 400) with yoe by lia. reflexivity.
Qed.

Lemma era_leap_is_leap (era yoe : Z) :
  is_leap (yoe + era * 400 + 1) = true <-> era_leap yoe.
Proof.
  unfold is_leap, era_leap.
  rewrite andb_true_iff, orb_true_iff, negb_true_iff, !Z.eqb_eq, Z.eqb_neq.
  assert ((yoe + era * 400 + 1) mod 4 = (yoe + 1) mod 4) as -> by (Z.div_mod_to_equations; lia).
  assert ((yoe + era * 400 + 1) mod 100 = (yoe + 1) mod 100) as -> by (Z.div_mod_to_equations; lia).
  assert ((yoe + era * 400 + 1) mod 400 = (yoe + 1) mod 400) as -> by (Z.div_mod_to_equations; lia).
  reflexivity.
Qed.

(** The dates of an era that exist are the dates of the calendar. *)
Lemma era_date_days_in_month (era yoe mp d : Z) :
  0 <= yoe < 400 -> 0 <= mp <= 11 ->
  era_date yoe mp d <->
  1 <= d <= days_in_month
              (if month_of mp <=? 2 then yoe + era * 400 + 1 else yoe + era * 400)
              (month_of mp).
Proof.
  intros Hyoe Hmp. unfold era_date.
  pose proof (era_leap_is_leap era yoe) as L.
  assert (M : mp = 0 \/ mp = 1 \/ mp = 2 \/ mp = 3 \/ mp = 4 \/ mp = 5 \/ mp = 6
              \/ mp = 7 \/ mp = 8 \/ mp = 9 \/ mp = 10 \/ mp = 11) by lia.
  assert (K : mp <> 11 ->
              days_in_month
                (if month_of mp <=? 2 then yoe + era * 400 + 1 else yoe + era * 400)
                (month_of mp)
              = if (mp =? 1) || (mp =? 3) || (mp =? 6) || (mp =? 8) then 30 else 31).
  { intros N. repeat (destruct M as [->|M]); try reflexivity. lia. }
  destruct (Z.eq_dec mp 11) as [->|N].
  - change (month_of 11) with 2. change (2 <=? 2) with true. cbv iota.
    unfold days_in_month. change (2 =? 2) with true. cbv iota.
    destruct (is_leap (yoe + era * 400 + 1)).
    + split.
      * intros (_ & _ & H1 & _ & H2 & _). specialize (H2 eq_refl). lia.
      * intros H. split; [exact Hyoe|]. split; [lia|]. split; [lia|].
        split; [lia|]. split; [lia|]. intros _ _. now apply L.
    + split.
      * intros (_ & _ & H1 & _ & H2 & H3). specialize (H2 eq_refl).
        destruct (Z.eq_dec d 29) as [E|E]; [|lia].
        specialize (H3 eq_refl E). apply L in H3. discriminate.
      * intros H. split; [exact Hyoe|]. split; [lia|]. split; [lia|].
        split; [lia|]. split; [lia|]. intros _ E. lia.
  - rewrite (K N).
    assert (B : (mp =? 1) || (mp =? 3) || (mp =? 6) || (mp =? 8) = true
                <-> (mp = 1 \/ mp = 3 \/ mp = 6 \/ mp = 8)).
    { rewrite !orb_true_iff, !Z.eqb_eq. tauto. }
    destruct ((mp =? 1) || (mp =? 3) || (mp =? 6) || (mp =? 8)).
    + split.
      * intros (_ & _ & H1 & H2 & _). specialize (H2 (proj1 B eq_refl)). lia.
      * intros H. split; [exact Hyoe|]. split; [lia|]. split; [lia|].
        split; [lia|]. split; [intros E; lia|]. intros E; lia.
    + split.
      * intros (_ & _ & H1 & _). lia.
      * intros H. split; [exact Hyoe|]. split; [lia|]. split; [lia|].
        split; [intros E; apply B in E; discriminate|]. split; [intros E; lia|].
        intros E; lia.
Qed.

Lemma days_from_civil_from_days (z : Z) :
  let '(y, m, d) := civil_from_days z in
  days_from_civil y m d = z /\ 1 <= m <= 12 /\ 1 <= d <= days_in_month y m.
Proof.
  destruct (civil_from_days_era z) as (era & yoe & mp & d & E & Hz & ->).
  pose proof E as (Hyoe & Hmp & _).
  split; [|split].
  - rewrite (days_from_civil_era era yoe mp d E). lia.
  - unfold month_of. destruct (Z.ltb_spec mp 10); lia.
  - now apply (era_date_days_in_month era yoe mp d Hyoe Hmp).
Qed.

Lemma civil_from_days_from_civil (y m d : Z) :
  1 <= m <= 12 -> 1 <= d <= days_in_month y m ->
  civil_from_days (days_from_civil y m d) = (y, m, d).
Proof.
  intros Hm Hd.
  set (y' := if m <=? 2 then y - 1 else y).
  set (era := y' / 400). set (yoe := y' - era * 400). set (mp := (m + 9) mod 12).
  assert (Hyoe : 0 <= yoe < 400) by (subst yoe era; Z.div_mod_to_equations; lia).
  assert (Hmp : 0 <= mp <= 11) by (subst mp; Z.div_mod_to_equations; lia).
  assert (Em : month_of mp = m).
  { subst mp. unfold month_of.
    destruct (Z.ltb_spec ((m + 9) mod 12) 10); Z.div_mod_to_equations; lia. }
  assert (Ey : (if month_of mp <=? 2 then yoe + era * 400 + 1 else yoe + era * 400) = y).
  { rewrite Em. subst yoe y'. destruct (m <=? 2); lia. }
  assert (E : era_date yoe mp d).
  { apply (era_date_days_in_month era yoe mp d Hyoe Hmp). now rewrite Ey, Em. }
  pose proof (days_from_civil_era era yoe mp d E) as D. rewrite Ey, Em in D.
  destruct (civil_from_days_era (days_from_civil y m d))
    as (era' & yoe' & mp' & d' & E' & Hz & ->).
  rewrite D in Hz.
  assert (U : era' = era /\ yoe' = yoe /\ mp' = mp /\ d' = d); [|destruct U as (-> & -> & -> & ->); now rewrite Ey, Em].
  clear - E E' Hz.
  destruct E as (Hy & Hm & Hd & H30 & H29 & HL).
  destruct E' as (Hy' & Hm' & Hd' & H30' & H29' & HL').
  unfold doe_of in Hz.
  pose proof (month_decode mp d Hm Hd H30 H29) as M. cbv zeta in M.
  pose proof (month_decode mp' d' Hm' Hd' H30' H29') as M'. cbv zeta in M'.
  remember ((153 * mp + 2) / 5 + d - 1) as doy eqn:Qdoy.
  remember ((153 * mp' + 2) / 5 + d' - 1) as doy' eqn:Qdoy'.
  destruct M as (Hdoy & H365 & Hmp & Hdd). destruct M' as (Hdoy' & H365' & Hmp' & Hdd').
  assert (L : doy = 365 -> era_leap yoe) by (intros X; apply H365 in X as [? ?]; auto).
  assert (L' : doy' = 365 -> era_leap yoe') by (intros X; apply H365' in X as [? ?]; auto).
  pose proof (year_decode yoe doy Hy Hdoy L) as Y. cbv zeta in Y.
  pose proof (year_decode yoe' doy' Hy' Hdoy' L') as Y'. cbv zeta in Y'.
  remember (yoe * 365 + yoe / 4 - yoe / 100 + doy) as doe eqn:Qdoe.
  remember (yoe' * 365 + yoe' / 4 - yoe' / 100 + doy') as doe' eqn:Qdoe'.
  destruct Y as (Hdoe & Hyy). destruct Y' as (Hdoe' & Hyy').
  assert (Ee : era' = era) by lia. subst era'.
  assert (Ed : doe' = doe) by lia.
  assert (Eyo : yoe' = yoe) by (rewrite <- Hyy, <- Hyy', Ed; reflexivity).
  assert (Edoy : doy' = doy) by (rewrite Eyo in Qdoe'; lia).
  assert (Emp : mp' = mp) by (rewrite <- Hmp, <- Hmp', Edoy; reflexivity).
  repeat split; auto. rewrite <- Hdd, <- Hdd', Edoy, Emp. reflexivity.
Qed.

(** The civil time [offset] seconds after [dt] is a date and a time of day
    that exist, at that many seconds from [dt]. *)
Lemma shift_seconds_spec (dt : datetime) (offset : Z) :
  let local := shift_seconds dt offset in
  utc_seconds local = utc_seconds dt + offset /\
  1 <= month local <= 12 /\
  1 <= day local <= days_in_month (year local) (month local) /\
  0 <= hour local < 24 /\ 0 <= minute local < 60 /\ 0 <= second local < 60 /\
  microsecond local = microsecond dt.
Proof.
  unfold shift_seconds. set (t := utc_seconds dt + offset).
  pose proof (days_from_civil_from_days (t / 86400)) as C.
  destruct (civil_from_days (t / 86400)) as [[y m] d]. destruct C as (C & Hm & Hd).
  cbv zeta. unfold utc_seconds. cbn [year month day hour minute second microsecond].
  rewrite C. repeat split; try lia; Z.div_mod_to_equations; lia.
Qed.

(** A date and a time of day that exist are determined by their distance
    from the epoch. *)
Lemma shift_seconds_zero (dt : datetime) :
  1 <= month dt <= 12 -> 1 <= day dt <= days_in_month (year dt) (month dt) ->
  0 <= hour dt < 24 -> 0 <= minute dt < 60 -> 0 <= second dt < 60 ->
  shift_seconds dt 0 = dt.
Proof.
  intros Hm Hd Hh Hmi Hs. unfold shift_seconds.
  assert (D : (utc_seconds dt + 0) / 86400 = days_from_civil (year dt) (month dt) (day dt))
    by (unfold utc_seconds; Z.div_mod_to_equations; lia).
  assert (S : (utc_seconds dt + 0) mod 86400 = hour dt * 3600 + minute dt * 60 + second dt)
    by (unfold utc_seconds; Z.div_mod_to_equations; lia).
  rewrite D, S, (civil_from_days_from_civil _ _ _ Hm Hd). cbv zeta.
  destruct dt as [Y M D' h mi s us]. cbn [year month day hour minute second microsecond] in *.
  f_equal; Z.div_mod_to_equations; lia.
Qed.

Lemma shift_seconds_unique (dt local : datetime) (offset : Z) :
  1 <= month local <= 12 ->
  1 <= day local <= days_in_month (year local) (month local) ->
  0 <= hour local < 24 -> 0 <= minute local < 60 -> 0 <= second local < 60 ->
  utc_seconds local = utc_seconds dt + offset ->
  microsecond local = microsecond dt ->
  local = shift_seconds dt offset.
Proof.
  intros Hm Hd Hh Hmi Hs U us.
  rewrite <- (shift_seconds_zero local Hm Hd Hh Hmi Hs).
  unfold shift_seconds. rewrite Z.add_0_r, U, us. reflexivity.
Qed.

(** ** Reading a timestamp *)

Lemma then_head {A B : Type} (p : list (A * string))
      (k : A -> string -> list (B * string)) (a : A) (r : string) (x : B * string) :
  head_is p (a, r) -> head_is (k a r) x -> head_is (then_ p k) x.
Proof.
  intros [tl ->] [tl' E]. unfold then_. cbn [flat_map fst snd]. rewrite E.
  now exists (tl' ++ flat_map (fun ar => k (fst ar) (snd ar)) tl)%list.
Qed.

Lemma digit_val_digit_char (d : Z) : 0 <= d < 10 -> digit_val (digit_char d) = d.
Proof.
  intros H. apply digit_cases in H.
  repeat (destruct H as [->|H]; [reflexivity|]). now subst.
Qed.

Lemma fixed_digits_length (w : nat) (n : Z) : length (fixed_digits w n) = w.
Proof.
  revert n; induction w as [|w IH]; intros n; [reflexivity|].
  cbn [fixed_digits]. rewrite length_append, IH. simpl. lia.
Qed.

Lemma all_digits_append (a b : string) :
  all_digits (a ++ b) = all_digits a && all_digits b.
Proof.
  induction a as [|c a IH]; [reflexivity|].
  cbn [append all_digits]. now rewrite IH, andb_assoc.
Qed.

Lemma fixed_digits_all_digits (w : nat) (n : Z) : all_digits (fixed_digits w n) = true.
Proof.
  revert n; induction w as [|w IH]; intros n; [reflexivity|].
  cbn [fixed_digits]. rewrite all_digits_append, IH. cbn [all_digits andb].
  rewrite is_digit_digit_char; [reflexivity | apply Z.mod_pos_bound; lia].
Qed.

Lemma int_of_digits_append (acc : Z) (a b : string) :
  int_of_digits acc (a ++ b) = int_of_digits (int_of_digits acc a) b.
Proof. revert acc; induction a as [|c a IH]; intros acc; [reflexivity | apply IH]. Qed.

Lemma int_of_fixed_digits (w : nat) (acc n : Z) :
  int_of_digits acc (fixed_digits w n) = acc * 10 ^ Z.of_nat w + n mod 10 ^ Z.of_nat w.
Proof.
  revert acc n; induction w as [|w IH]; intros acc n.
  - cbn [fixed_digits int_of_digits]. change (10 ^ Z.of_nat 0) with 1.
    rewrite Z.mod_1_r. lia.
  - cbn [fixed_digits]. rewrite int_of_digits_append, IH. cbn [int_of_digits].
    rewrite digit_val_digit_char by (apply Z.mod_pos_bound; lia).
    rewrite Nat2Z.inj_succ, Z.pow_succ_r by lia.
    rewrite (Z.rem_mul_r n 10 (10 ^ Z.of_nat w)) by lia. lia.
Qed.

Lemma digit_prefixes_head (n : nat) (ds rest : string) :
  all_digits ds = true -> length ds = n -> (0 < n)%nat ->
  head_is (digit_prefixes n (ds ++ rest)) (ds, rest).
Proof.
  revert ds; induction n as [|n IH]; intros ds D L P; [lia|].
  destruct ds as [|c ds]; [discriminate|].
  cbn [all_digits] in D. apply andb_prop in D as [Dc D].
  cbn [append digit_prefixes]. rewrite Dc.
  destruct n as [|n].
  - destruct ds; [|discriminate]. now exists [].
  - destruct (IH ds D ltac:(simpl in L; lia) ltac:(lia)) as [tl ->].
    cbn [map fst snd app]. eexists. reflexivity.
Qed.

Tactic Notation "enumerate_nat" ident(k) integer(bound) :=
  do bound (destruct k as [|k]; [eexists; reflexivity|]); lia.

Lemma re_Y_exact (n : Z) (rest : string) :
  0 <= n <= 9999 -> head_is (re_Y (fixed_digits 4 n ++ rest)) (n, rest).
Proof.
  intros H. exists []. cbn [fixed_digits append re_Y].
  rewrite !is_digit_digit_char by (apply Z.mod_pos_bound; lia).
  rewrite !digit_val_digit_char by (apply Z.mod_pos_bound; lia).
  cbn [andb]. do 2 f_equal. Z.div_mod_to_equations. lia.
Qed.

Lemma re_m_exact (n : Z) (rest : string) :
  1 <= n <= 12 -> head_is (re_m (fixed_digits 2 n ++ rest)) (n, rest).
Proof.
  intros H. rewrite <- (Z2Nat.id n) by lia.
  assert (L : (Z.to_nat n < 13)%nat) by lia.
  assert (P : (0 < Z.to_nat n)%nat) by lia.
  revert L P. generalize (Z.to_nat n). intros k L P.
  destruct k as [|k]; [lia|]. enumerate_nat k 12.
Qed.

Lemma re_d_exact (n : Z) (rest : string) :
  1 <= n <= 31 -> head_is (re_d (fixed_digits 2 n ++ rest)) (n, rest).
Proof.
  intros H. rewrite <- (Z2Nat.id n) by lia.
  assert (L : (Z.to_nat n < 32)%nat) by lia.
  assert (P : (0 < Z.to_nat n)%nat) by lia.
  revert L P. generalize (Z.to_nat n). intros k L P.
  destruct k as [|k]; [lia|]. enumerate_nat k 31.
Qed.

Lemma re_H_exact (n : Z) (rest : string) :
  0 <= n < 24 -> head_is (re_H (fixed_digits 2 n ++ rest)) (n, rest).
Proof.
  intros H. rewrite <- (Z2Nat.id n) by lia.
  assert (L : (Z.to_nat n < 24)%nat) by lia.
  revert L. generalize (Z.to_nat n). intros k L. enumerate_nat k 24.
Qed.

Lemma re_M_exact (n : Z) (rest : string) :
  0 <= n < 60 -> head_is (re_M (fixed_digits 2 n ++ rest)) (n, rest).
Proof.
  intros H. rewrite <- (Z2Nat.id n) by lia.
  assert (L : (Z.to_nat n < 60)%nat) by lia.
  revert L. generalize (Z.to_nat n). intros k L. enumerate_nat k 60.
Qed.

Lemma re_S_exact (n : Z) (rest : string) :
  0 <= n < 60 -> head_is (re_S (fixed_digits 2 n ++ rest)) (n, rest).
Proof.
  intros H. rewrite <- (Z2Nat.id n) by lia.
  assert (L : (Z.to_nat n < 60)%nat) by lia.
  revert L. generalize (Z.to_nat n). intros k L. enumerate_nat k 60.
Qed.

Lemma re_f_exact (n : Z) (rest : string) :
  0 <= n < 1000000 -> head_is (re_f (fixed_digits 6 n ++ rest)) (n, rest).
Proof.
  intros H. unfold re_f.
  destruct (digit_prefixes_head 6 (fixed_digits 6 n) rest) as [tl E].
  - apply fixed_digits_all_digits.
  - apply fixed_digits_length.
  - lia.
  - rewrite E. cbn [map fst snd]. eexists. f_equal. f_equal.
    rewrite fixed_digits_length. cbn [Nat.sub zeros]. rewrite append_nil_r.
    rewrite int_of_fixed_digits. change (10 ^ Z.of_nat 6) with 1000000.
    rewrite Z.mod_small by lia. lia.
Qed.

Lemma format_matches_exact (dt : datetime) :
  valid_datetime dt -> head_is (format_matches (exact_form_of dt)) (dt, ""%string).
Proof.
  intros (HY & Hm & Hd & HH & HM & HS & Hf).
  assert (Hd' : 1 <= day dt <= 31).
  { split; [lia|]. destruct Hd as [_ Hd]. unfold days_in_month in Hd.
    destruct (month dt =? 2); [destruct (is_leap (year dt)); lia|].
    destruct ((month dt =? 4) || (month dt =? 6) || (month dt =? 9) || (month dt =? 11)); lia. }
  unfold format_matches, exact_form_of.
  eapply then_head; [apply re_Y_exact; lia|].
  eapply then_head; [now exists []|].
  eapply then_head; [apply re_m_exact; lia|].
  eapply then_head; [now exists []|].
  eapply then_head; [apply re_d_exact; lia|].
  eapply then_head; [now exists []|].
  eapply then_head; [apply re_H_exact; lia|].
  eapply then_head; [now exists []|].
  eapply then_head; [apply re_M_exact; lia|].
  eapply then_head; [now exists []|].
  eapply then_head; [apply re_S_exact; lia|].
  eapply then_head; [now exists []|].
  eapply then_head; [apply re_f_exact; lia|].
  eapply then_head; [now exists []|].
  exists []. now destruct dt.
Qed.

(** Every date and time that exists is read back from its exact form. *)
Lemma strptime_exact (dt : datetime) :
  valid_datetime dt -> strptime (exact_form_of dt) = Ok dt.
Proof.
  intros V. destruct (format_matches_exact dt V) as [tl E].
  destruct V as (HY & Hm & Hd & HH & HM & HS & Hf).
  unfold strptime. rewrite E. cbn [truthy].
  destruct (Z.ltb_spec (year dt) 1); [lia|].
  destruct (Z.ltb_spec (days_in_month (year dt) (month dt)) (day dt)); [lia|].
  destruct (Z.ltb_spec 59 (second dt)); [lia | reflexivity].
Qed.

(** What is read is within the bounds of its directive. *)

Lemma in_range_bounds (lo hi c : ascii) :
  in_range lo hi c = true -> digit_val lo <= digit_val c <= digit_val hi.
Proof.
  unfold in_range, digit_val. intros H. apply andb_prop in H as [A B].
  apply Nat.leb_le in A, B. lia.
Qed.

Lemma is_digit_bounds (c : ascii) : is_digit c = true -> 0 <= digit_val c <= 9.
Proof.
  unfold is_digit, digit_val. intros H. apply andb_prop in H as [A B].
  apply Nat.leb_le in A, B. lia.
Qed.

Lemma two_chars_bounds (lo1 hi1 lo2 hi2 : ascii) (s : string) (v : Z) (r : string) :
  In (v, r) (two_chars lo1 hi1 lo2 hi2 s) ->
  10 * digit_val lo1 + digit_val lo2 <= v <= 10 * digit_val hi1 + digit_val hi2.
Proof.
  unfold two_chars. destruct s as [|a [|b s]]; try contradiction.
  destruct (in_range lo1 hi1 a) eqn:A; [|contradiction].
  destruct (in_range lo2 hi2 b) eqn:B; [|contradiction].
  intros [E|[]]. apply (f_equal fst) in E. cbn [fst] in E. subst v.
  apply in_range_bounds in A. apply in_range_bounds in B. lia.
Qed.

Lemma one_char_bounds (lo hi : ascii) (s : string) (v : Z) (r : string) :
  In (v, r) (one_char lo hi s) -> digit_val lo <= v <= digit_val hi.
Proof.
  unfold one_char. destruct s as [|a s]; [contradiction|].
  destruct (in_range lo hi a) eqn:A; [|contradiction].
  intros [E|[]]. apply (f_equal fst) in E. cbn [fst] in E. subst v.
  now apply in_range_bounds.
Qed.

Lemma space_char_bounds (lo hi : ascii) (s : string) (v : Z) (r : string) :
  In (v, r) (space_char lo hi s) -> digit_val lo <= v <= digit_val hi.
Proof.
  unfold space_char. destruct s as [|a s]; [contradiction|].
  destruct (Ascii.eqb a " "); [apply one_char_bounds | contradiction].
Qed.

Ltac field_bounds H :=
  repeat (apply in_app_or in H as [H|H]);
  (apply two_chars_bounds in H || apply one_char_bounds in H
   || apply space_char_bounds in H);
  repeat match type of H with
         | context [digit_val ?c] =>
             let x := eval vm_compute in (digit_val c) in
             change (digit_val c) with x in H
         end;
  lia.

Lemma re_m_bounds (s : string) (v : Z) (r : string) : In (v, r) (re_m s) -> 1 <= v <= 12.
Proof. intros H. unfold re_m in H. field_bounds H. Qed.

Lemma re_d_bounds (s : string) (v : Z) (r : string) : In (v, r) (re_d s) -> 1 <= v <= 31.
Proof. intros H. unfold re_d in H. field_bounds H. Qed.

Lemma re_H_bounds (s : string) (v : Z) (r : string) : In (v, r) (re_H s) -> 0 <= v <= 23.
Proof. intros H. unfold re_H in H. field_bounds H. Qed.

Lemma re_M_bounds (s : string) (v : Z) (r : string) : In (v, r) (re_M s) -> 0 <= v <= 59.
Proof. intros H. unfold re_M in H. field_bounds H. Qed.

Lemma re_S_bounds (s : string) (v : Z) (r : string) : In (v, r) (re_S s) -> 0 <= v <= 61.
Proof. intros H. unfold re_S in H. field_bounds H. Qed.

Lemma re_Y_bounds (s : string) (v : Z) (r : string) : In (v, r) (re_Y s) -> 0 <= v <= 9999.
Proof.
  unfold re_Y. destruct s as [|a [|b [|c [|d s]]]]; try contradiction.
  destruct (is_digit a) eqn:A; [|contradiction].
  destruct (is_digit b) eqn:B; [|contradiction].
  destruct (is_digit c) eqn:C; [|contradiction].
  destruct (is_digit d) eqn:D; [|contradiction].
  intros [E|[]]. apply (f_equal fst) in E. cbn [fst] in E. subst v.
  apply is_digit_bounds in A. apply is_digit_bounds in B.
  apply is_digit_bounds in C. apply is_digit_bounds in D. lia.
Qed.

Lemma int_of_digits_bounds (s : string) (acc : Z) :
  all_digits s = true -> 0 <= acc ->
  0 <= int_of_digits acc s < (acc + 1) * 10 ^ Z.of_nat (length s).
Proof.
  revert acc; induction s as [|c s IH]; intros acc D A.
  - cbn. lia.
  - cbn [all_digits] in D. apply andb_prop in D as [Dc D].
    apply is_digit_bounds in Dc. cbn [int_of_digits length].
    specialize (IH (10 * acc + digit_val c) D ltac:(lia)).
    rewrite Nat2Z.inj_succ, Z.pow_succ_r by lia.
    assert (0 < 10 ^ Z.of_nat (length s)) by (apply Z.pow_pos_nonneg; lia).
    nia.
Qed.

Lemma digit_prefixes_sound (n : nat) (s p r : string) :
  In (p, r) (digit_prefixes n s) ->
  s = (p ++ r)%string /\ all_digits p = true /\ (1 <= length p <= n)%nat.
Proof.
  revert s p r; induction n as [|n IH]; intros s p r H; [contradiction|].
  destruct s as [|c s]; [contradiction|]. cbn [digit_prefixes] in H.
  destruct (is_digit c) eqn:C; [|contradiction].
  apply in_app_or in H as [H|[H|[]]].
  - apply in_map_iff in H as [[p' r'] [E H]]. cbn [fst snd] in E.
    injection E as <- <-. apply IH in H as (-> & D & L).
    cbn [append all_digits length]. rewrite C, D. repeat split; lia.
  - injection H as <- <-. cbn [append all_digits length]. rewrite C.
    repeat split; lia.
Qed.

Lemma zeros_all_digits (n : nat) : all_digits (zeros n) = true /\ length (zeros n) = n.
Proof. induction n as [|n [A L]]; [now split|]. cbn. now rewrite A, L. Qed.

Lemma re_f_bounds (s : string) (v : Z) (r : string) : In (v, r) (re_f s) -> 0 <= v < 1000000.
Proof.
  unfold re_f. intros H. apply in_map_iff in H as [[p r'] [E H]].
  cbn [fst snd] in E. apply (f_equal fst) in E. cbn [fst] in E. subst v.
  apply digit_prefixes_sound in H as (_ & D & L).
  destruct (zeros_all_digits (6 - length p)) as [Z0 LZ].
  pose proof (int_of_digits_bounds (p ++ zeros (6 - length p)) 0) as B.
  rewrite all_digits_append, D, Z0, length_append, LZ in B.
  replace (length p + (6 - length p))%nat with 6%nat in B by lia.
  specialize (B eq_refl ltac:(lia)). change (10 ^ Z.of_nat 6) with 1000000 in B. lia.
Qed.

Lemma in_then {A B : Type} (p : list (A * string))
      (k : A -> string -> list (B * string)) (x : B * string) :
  In x (then_ p k) -> exists a r, In (a, r) p /\ In x (k a r).
Proof.
  unfold then_. intros H. apply in_flat_map in H as [[a r] [H K]]. eauto.
Qed.

Lemma format_matches_bounds (s : string) (dt : datetime) (rest : string) :
  In (dt, rest) (format_matches s) ->
  0 <= year dt <= 9999 /\ 1 <= month dt <= 12 /\ 1 <= day dt <= 31 /\
  0 <= hour dt <= 23 /\ 0 <= minute dt <= 59 /\ 0 <= second dt <= 61 /\
  0 <= microsecond dt < 1000000.
Proof.
  unfold format_matches. intros H.
  apply in_then in H as (Y & s1 & HY & H). apply in_then in H as (? & s2 & _ & H).
  apply in_then in H as (m & s3 & Hm & H). apply in_then in H as (? & s4 & _ & H).
  apply in_then in H as (d & s5 & Hd & H). apply in_then in H as (? & s6 & _ & H).
  apply in_then in H as (h & s7 & Hh & H). apply in_then in H as (? & s8 & _ & H).
  apply in_then in H as (mi & s9 & Hmi & H). apply in_then in H as (? & s10 & _ & H).
  apply in_then in H as (se & s11 & Hse & H). apply in_then in H as (? & s12 & _ & H).
  apply in_then in H as (f & s13 & Hf & H). apply in_then in H as (? & s14 & _ & H).
  destruct H as [E|[]]. apply (f_equal fst) in E. cbn [fst] in E. subst dt.
  cbn [year month day hour minute second microsecond].
  apply re_Y_bounds in HY. apply re_m_bounds in Hm. apply re_d_bounds in Hd.
  apply re_H_bounds in Hh. apply re_M_bounds in Hmi. apply re_S_bounds in Hse.
  apply re_f_bounds in Hf. repeat split; lia.
Qed.

(** What [strptime] returns is a date and a time that exist. *)
Lemma strptime_valid (s : string) (dt : datetime) :
  strptime s = Ok dt -> valid_datetime dt.
Proof.
  unfold strptime. destruct (format_matches s) as [|[dt' rest] tl] eqn:E; [discriminate|].
  assert (B : In (dt', rest) (format_matches s)) by (rewrite E; now left).
  apply format_matches_bounds in B.
  destruct (truthy rest); [discriminate|].
  destruct (Z.ltb_spec (year dt') 1); [discriminate|].
  destruct (Z.ltb_spec (days_in_month (year dt') (month dt')) (day dt')); [discriminate|].
  destruct (Z.ltb_spec 59 (second dt')); [discriminate|].
  intros [= <-]. unfold valid_datetime. repeat split; lia.
Qed.

Lemma strptime_error (s : string) (e : exn) :
  strptime s = Raise e -> exists msg, e = ValueError msg.
Proof.
  unfold strptime. destruct (format_matches s) as [|[dt rest] tl].
  - intros [= <-]. eauto.
  - destruct (truthy rest); [intros [= <-]; eauto|].
    destruct (year dt <? 1); [intros [= <-]; eauto|].
    destruct (days_in_month (year dt) (month dt) <? day dt); [intros [= <-]; eauto|].
    destruct (59 <? second dt); [intros [= <-]; eauto | discriminate].
Qed.

Lemma strftime_danish_form (dt : datetime) : danish_form (strftime_danish dt) = true.
Proof.
  unfold danish_form, strftime_danish.
  cbn [fixed_digits append list_ascii_of_string forallb fst snd].
  rewrite !is_digit_digit_char by (apply Z.mod_pos_bound; lia).
  reflexivity.
Qed.

Lemma exact_form_of_exact (dt : datetime) : exact_form (exact_form_of dt) = true.
Proof.
  unfold exact_form, exact_form_of.
  cbn [fixed_digits append list_ascii_of_string forallb fst snd].
  rewrite !is_digit_digit_char by (apply Z.mod_pos_bound; lia).
  reflexivity.
Qed.

Lemma astimezone_eq (tz : Z -> Z) (dt : datetime) :
  astimezone tz dt =
  if ((year (shift_seconds dt (tz (utc_seconds dt))) <? 1)
      || (9999 <? year (shift_seconds dt (tz (utc_seconds dt)))))%bool
  then Raise OverflowError
  else Ok (shift_seconds dt (tz (utc_seconds dt))).
Proof. reflexivity. Qed.

Lemma format_datetime_eq (tz : Z -> Z) (s : string) :
  format_datetime tz s =
  match strptime s with
  | Raise e => Raise e
  | Ok dt =>
      if ((year (shift_seconds dt (tz (utc_seconds dt))) <? 1)
          || (9999 <? year (shift_seconds dt (tz (utc_seconds dt)))))%bool
      then Raise OverflowError
      else Ok (strftime_danish (shift_seconds dt (tz (utc_seconds dt))))
  end.
Proof.
  unfold format_datetime. destruct (strptime s) as [dt|e]; [|reflexivity].
  cbn [bind]. rewrite astimezone_eq. now destruct (_ || _)%bool.
Qed.



Example format_datetime_lenient_spellings :
  format_datetime central_european "2024-6-1t9:5:7.5z" = Ok "01/06/2024 kl. 11:05"%string.
Proof. vm_compute. reflexivity. Qed.

Example format_datetime_rejects :
  format_datetime central_european "2024-02-30T10:00:00.000000Z"
  = Raise (ValueError "day is out of range for month") /\
  format_datetime central_european "2024-06-01 10:00:00"
  = Raise (ValueError "time data does not match format") /\
  format_datetime central_european "9999-12-31T23:30:00.000000Z" = Raise OverflowError.
Proof. split; [vm_compute; reflexivity|]. split; vm_compute; reflexivity. Qed.

Local Close Scope Z_scope.

(** * The ranker and the order of the clearances *)

Section Sorting.

Context {A : Type}.

Lemma insert_desc_perm (k : Q) (x : A) (l : list (Q * A)) :
  Permutation (insert_desc k x l) ((k, x) :: l).
Proof.
  induction l as [|[k' y] l IH]; cbn [insert_desc]; [reflexivity|].
  destruct (Qle_bool k' k); [reflexivity|].
  rewrite IH. apply perm_swap.
Qed.

Lemma sort_desc_perm (l : list (Q * A)) : Permutation (sort_desc l) l.
Proof.
  induction l as [|[k x] l IH]; cbn [sort_desc]; [reflexivity|].
  rewrite insert_desc_perm. now constructor.
Qed.

Lemma insert_desc_sorted (k : Q) (x : A) (l : list (Q * A)) :
  StronglySorted keys_descend l -> StronglySorted keys_descend (insert_desc k x l).
Proof.
  induction l as [|[k' y] l IH]; intros S; cbn [insert_desc].
  - repeat constructor.
  - inversion S as [|? ? S' F]; subst.
    destruct (Qle_bool k' k) eqn:E.
    + apply Qle_bool_iff in E. constructor; [exact S|].
      constructor; [exact E|].
      eapply Forall_impl; [|exact F]. intros [k2 z] H. unfold keys_descend in *. cbn in *.
      now apply Qle_trans with k'.
    + constructor; [now apply IH|].
      assert (L : (k <= k')%Q).
      { apply Qlt_le_weak, Qnot_le_lt. intros H. apply Qle_bool_iff in H. congruence. }
      eapply Permutation_Forall; [symmetry; apply insert_desc_perm|].
      constructor; [exact L | exact F].
Qed.

Lemma sort_desc_sorted (l : list (Q * A)) : StronglySorted keys_descend (sort_desc l).
Proof.
  induction l as [|[k x] l IH]; cbn [sort_desc]; [constructor|].
  now apply insert_desc_sorted.
Qed.

Lemma insert_desc_filter (k0 k : Q) (x : A) (l : list (Q * A)) :
  filter (fun p => Qeq_bool (fst p) k0) (insert_desc k x l)
  = filter (fun p => Qeq_bool (fst p) k0) ((k, x) :: l).
Proof.
  induction l as [|[k' y] l IH]; cbn [insert_desc]; [reflexivity|].
  destruct (Qle_bool k' k) eqn:E; [reflexivity|].
  cbn [filter fst] in *. rewrite IH.
  destruct (Qeq_bool k' k0) eqn:E1; [|reflexivity].
  destruct (Qeq_bool k k0) eqn:E2; [|reflexivity].
  exfalso. apply Qeq_bool_iff in E1, E2.
  assert (H : Qle_bool k' k = true); [|congruence].
  apply Qle_bool_iff. rewrite E1, E2. apply Qle_refl.
Qed.

Lemma sort_desc_filter (k0 : Q) (l : list (Q * A)) :
  filter (fun p => Qeq_bool (fst p) k0) (sort_desc l)
  = filter (fun p => Qeq_bool (fst p) k0) l.
Proof.
  induction l as [|[k x] l IH]; cbn [sort_desc]; [reflexivity|].
  rewrite insert_desc_filter. cbn [filter fst]. now rewrite IH.
Qed.

Variable key : A -> result Q.

Lemma mapM_ok (l : list A) (ks : list Q) :
  mapM key l = Ok ks -> Forall2 (fun a k => key a = Ok k) l ks.
Proof.
  revert ks; induction l as [|a l IH]; intros ks; cbn [mapM].
  - intros [= <-]. constructor.
  - destruct (key a) as [k|e] eqn:E; [|discriminate]. cbn [bind].
    destruct (mapM key l) as [ks'|e]; [|discriminate]. cbn [bind].
    intros [= <-]. constructor; [exact E | now apply IH].
Qed.

Lemma combine_keys (l : list A) (ks : list Q) :
  Forall2 (fun a k => key a = Ok k) l ks ->
  map snd (combine ks l) = l /\
  Forall (fun p => key (snd p) = Ok (fst p)) (combine ks l).
Proof.
  induction 1 as [|a k l ks E F [M G]]; cbn [combine map]; [now split|].
  split; [now rewrite M | now constructor].
Qed.

Lemma sorted_map_snd (d : list (Q * A)) :
  Forall (fun p => key (snd p) = Ok (fst p)) d ->
  StronglySorted keys_descend d -> descending key (map snd d).
Proof.
  intros G S. induction S as [|p d S IH F]; cbn [map]; [constructor|].
  inversion G as [|? ? Gp Gd]; subst.
  constructor; [now apply IH|].
  apply Forall_map. rewrite Forall_forall in *. intros q Hq.
  exists (fst p), (fst q). split; [exact Gp|]. split; [now apply Gd | now apply F].
Qed.

Lemma filter_map_snd (k0 : Q) (d : list (Q * A)) :
  Forall (fun p => key (snd p) = Ok (fst p)) d ->
  filter (has_key key k0) (map snd d)
  = map snd (filter (fun p => Qeq_bool (fst p) k0) d).
Proof.
  induction 1 as [|p d E F IH]; cbn [map filter]; [reflexivity|].
  unfold has_key at 1. rewrite E.
  destruct (Qeq_bool (fst p) k0); cbn [map]; now rewrite IH.
Qed.

(** [sorted(..., reverse=True)] returns whenever every key is computed;
    its result has the elements of the input, in descending order of keys,
    the elements of equal keys in their input order. *)
Lemma sorted_reverse_spec (l : list A) (ks : list Q) :
  mapM key l = Ok ks ->
  exists out, sorted_reverse key l = Ok out /\
              Permutation l out /\ descending key out /\ stable key l out.
Proof.
  intros H. unfold sorted_reverse. rewrite H. cbn [bind].
  eexists. split; [reflexivity|].
  apply mapM_ok, combine_keys in H as [M G].
  assert (G' : Forall (fun p => key (snd p) = Ok (fst p)) (sort_desc (combine ks l))).
  { eapply Permutation_Forall; [symmetry; apply sort_desc_perm | exact G]. }
  split; [|split].
  - rewrite <- M at 1. apply Permutation_map. symmetry. apply sort_desc_perm.
  - apply sorted_map_snd; [exact G' | apply sort_desc_sorted].
  - intros k0. rewrite (filter_map_snd k0 _ G'), sort_desc_filter.
    rewrite <- (filter_map_snd k0 _ G). now rewrite M.
Qed.

Lemma sorted_reverse_raise (l : list A) (e : exn) :
  mapM key l = Raise e -> sorted_reverse key l = Raise e.
Proof. intros H. unfold sorted_reverse. now rewrite H. Qed.

End Sorting.

(** * The generators *)

Lemma get_optimized_image_url_truthy (url : string) :
  truthy url = true ->
  exists r, get_optimized_image_url (Some url) = Ok r /\ truthy r = true.
Proof.
  intros T. pose proof T as N. apply truthy_iff in N.
  destruct (str_contains canonical_domain url) eqn:C.
  - exists url. split; [|exact T].
    unfold get_optimized_image_url. now rewrite T, C.
  - rewrite (get_optimized_image_url_eq url N C). eexists. split; [reflexivity|].
    destruct (str_contains "dam.dsg.dk" url); [|exact T].
    destruct (str_partition "/id/" url) as [[pre a]|]; [|exact T].
    destruct (truthy (first_segment a)); [reflexivity | exact T].
Qed.

Lemma html_image_url_ok (p : Product) : html_image_url p = Ok (image_src p).
Proof.
  unfold image_src, html_image_url.
  destruct (image p) as [url|]; [|reflexivity].
  destruct (truthy url) eqn:T; [|reflexivity].
  destruct (get_optimized_image_url_truthy url T) as (r & -> & _). reflexivity.
Qed.

(** The picture has a source exactly when the product has an image. *)
Lemma image_src_truthy (p : Product) :
  truthy (image_src p) = match image p with Some url => truthy url | None => false end.
Proof.
  unfold image_src, html_image_url.
  destruct (image p) as [url|]; [|reflexivity].
  destruct (truthy url) eqn:T; [|reflexivity].
  destruct (get_optimized_image_url_truthy url T) as (r & -> & R). exact R.
Qed.

Lemma mapM_match {X Y Z : Type} (f : X -> result Z) (g : X -> result Y) (h : Y -> Z)
      (l : list X) :
  (forall x, f x = match g x with Ok y => Ok (h y) | Raise e => Raise e end) ->
  mapM f l = match mapM g l with Ok ys => Ok (map h ys) | Raise e => Raise e end.
Proof.
  intros E. induction l as [|x l IH]; [reflexivity|].
  cbn [mapM]. rewrite E, IH.
  destruct (g x); [|reflexivity]. cbn [bind].
  destruct (mapM g l); reflexivity.
Qed.

Lemma mapM_Forall2 {X Y : Type} (g : X -> result Y) (l : list X) (ys : list Y) :
  mapM g l = Ok ys -> Forall2 (fun x y => g x = Ok y) l ys.
Proof.
  revert ys; induction l as [|x l IH]; intros ys; cbn [mapM].
  - intros [= <-]. constructor.
  - destruct (g x) as [y|e] eqn:E; [|discriminate]. cbn [bind].
    destruct (mapM g l) as [ys'|e]; [|discriminate]. cbn [bind].
    intros [= <-]. constructor; [exact E | now apply IH].
Qed.

Lemma mapM_raise {X Y : Type} (g : X -> result Y) (l : list X) (e : exn) :
  mapM g l = Raise e -> exists x, In x l /\ g x = Raise e.
Proof.
  induction l as [|x l IH]; cbn [mapM]; [discriminate|].
  destruct (g x) as [y|e'] eqn:E; cbn [bind].
  - destruct (mapM g l) as [ys|e']; [discriminate|]. cbn [bind].
    intros [= <-]. destruct (IH eq_refl) as (x' & I & H). exists x'. split; [now right | exact H].
  - intros [= <-]. exists x. split; [now left | exact E].
Qed.

Lemma mapM_in_raise {X Y : Type} (g : X -> result Y) (l : list X) (x : X) (e : exn) :
  In x l -> g x = Raise e -> exists e', mapM g l = Raise e'.
Proof.
  intros I H. destruct (mapM g l) as [ys|e'] eqn:M; [|eauto].
  exfalso. apply mapM_Forall2 in M.
  induction M as [|x' y l ys E F IH]; [contradiction|].
  destruct I as [->|I]; [congruence | auto].
Qed.

Lemma with_stdout_twice (w : world) (a b : string) :
  with_stdout (with_stdout w a) b = with_stdout w b.
Proof. reflexivity. Qed.

Lemma with_stdout_same (w : world) : with_stdout w (stdout w) = w.
Proof. now destruct w. Qed.

Lemma io_for_print {X Y : Type} (body : X -> io unit) (text : Y -> string)
      (l : list X) (ys : list Y) (ok : X -> Y -> Prop) :
  (forall x y w, ok x y -> body x w = (Ok tt, with_stdout w (stdout w ++ text y))) ->
  Forall2 ok l ys ->
  forall w, io_for l body w = (Ok tt, with_stdout w (stdout w ++ String.concat "" (map text ys))).
Proof.
  intros B F. induction F as [|x y l ys H F IH]; intros w.
  - cbn [io_for map String.concat]. unfold io_ret.
    now rewrite append_nil_r, with_stdout_same.
  - cbn [io_for]. unfold io_bind. rewrite (B x y w H), IH.
    rewrite with_stdout_twice. cbn [stdout with_stdout].
    do 2 f_equal. rewrite append_assoc. f_equal.
    destruct ys as [|y' ys]; cbn [map String.concat]; [now rewrite append_nil_r | reflexivity].
Qed.

Ltac string_norm :=
  unfold nl, dq; repeat (progress cbn [append] || rewrite append_assoc).

Section Generators.

Variable danish_tz : Z -> Z.
Variable str_of_number : Q -> string.
Variable render_template : string -> string -> result string.
Variable write_pdf : string -> result string.

Lemma html_item_eq (c : Clearance) :
  html_item danish_tz str_of_number c =
  match item_texts danish_tz str_of_number c with
  | Ok pf => Ok (html_of_item pf)
  | Raise e => Raise e
  end.
Proof.
  unfold html_item, item_texts.
  destruct (product c) as [p|]; [|reflexivity]. cbn [getkey bind].
  destruct (offer c) as [o|]; [|reflexivity]. cbn [getkey bind].
  rewrite html_image_url_ok. cbn [bind].
  unfold html_of_item, html_picture, html_details.
  destruct (description p) as [title|]; cbn [getkey bind].
  2: { now destruct (truthy (image_src p)). }
  destruct (price_text str_of_number "originalPrice" originalPrice o); cbn [bind].
  2: { now destruct (truthy (image_src p)). }
  destruct (price_text str_of_number "newPrice" newPrice o); cbn [bind].
  2: { now destruct (truthy (image_src p)). }
  destruct (discount_text o); cbn [bind].
  2: { now destruct (truthy (image_src p)). }
  destruct (stock_text o); cbn [bind].
  2: { now destruct (truthy (image_src p)). }
  destruct (valid_until_text danish_tz o); cbn [bind].
  2: { now destruct (truthy (image_src p)). }
  cbn [fst snd it_title it_original it_new it_discount it_stock it_until].
  now destruct (truthy (image_src p)).
Qed.

Lemma markdown_item_eq (c : Clearance) :
  markdown_item danish_tz str_of_number c =
  match item_texts danish_tz str_of_number c with
  | Ok pf => Ok (markdown_of_item pf)
  | Raise e => Raise e
  end.
Proof.
  unfold markdown_item, item_texts.
  destruct (product c) as [p|]; [|reflexivity]. cbn [getkey bind].
  destruct (offer c) as [o|]; [|reflexivity]. cbn [getkey bind].
  destruct (description p) as [title|]; [|reflexivity]. cbn [getkey bind].
  destruct (price_text str_of_number "originalPrice" originalPrice o); [|reflexivity].
  cbn [bind].
  destruct (price_text str_of_number "newPrice" newPrice o); [|reflexivity]. cbn [bind].
  destruct (discount_text o); [|reflexivity]. cbn [bind].
  destruct (stock_text o); [|reflexivity]. cbn [bind].
  destruct (valid_until_text danish_tz o); [|reflexivity]. cbn [bind].
  unfold markdown_of_item, markdown_fields.
  cbn [fst snd it_title it_original it_new it_discount it_stock it_until].
  rewrite !append_assoc. reflexivity.
Qed.

Lemma item_texts_inv (c : Clearance) (p : Product) (f : item_text) :
  item_texts danish_tz str_of_number c = Ok (p, f) ->
  product c = Some p /\
  exists o, offer c = Some o /\
    description p = Some (it_title f) /\
    price_text str_of_number "originalPrice" originalPrice o = Ok (it_original f) /\
    price_text str_of_number "newPrice" newPrice o = Ok (it_new f) /\
    discount_text o = Ok (it_discount f) /\
    stock_text o = Ok (it_stock f) /\
    valid_until_text danish_tz o = Ok (it_until f).
Proof.
  unfold item_texts.
  destruct (product c) as [p'|]; [|discriminate]. cbn [getkey bind].
  destruct (offer c) as [o|]; [|discriminate]. cbn [getkey bind].
  destruct (description p') as [title|] eqn:D; [|discriminate]. cbn [getkey bind].
  destruct (price_text str_of_number "originalPrice" originalPrice o) eqn:E1;
    [|discriminate]. cbn [bind].
  destruct (price_text str_of_number "newPrice" newPrice o) eqn:E2; [|discriminate].
  cbn [bind].
  destruct (discount_text o) eqn:E3; [|discriminate]. cbn [bind].
  destruct (stock_text o) eqn:E4; [|discriminate]. cbn [bind].
  destruct (valid_until_text danish_tz o) eqn:E5; [|discriminate]. cbn [bind].
  intros [= <- <-]. split; [reflexivity|]. exists o. now repeat split.
Qed.

Lemma print_item_ok (c : Clearance) (pf : Product * item_text) (w : world) :
  item_texts danish_tz str_of_number c = Ok pf ->
  print_item danish_tz str_of_number c w
  = (Ok tt, with_stdout w (stdout w ++ text_of_item pf)).
Proof.
  destruct pf as [p f]. intros H.
  apply item_texts_inv in H as (Hp & o & Ho & Hd & H1 & H2 & H3 & H4 & H5).
  unfold print_item, io_bind, lift, print.
  rewrite Hp, Ho. cbn [getkey]. rewrite Hd, H1, H2, H3, H4, H5.
  unfold text_of_item, with_stdout. cbn [getkey clock dirs files stdout fst snd].
  string_norm. reflexivity.
Qed.

Lemma html_store_eq (s : Store) :
  html_store danish_tz str_of_number s =
  match store_texts danish_tz str_of_number s with
  | Ok sf => Ok (html_of_store sf)
  | Raise e => Raise e
  end.
Proof.
  unfold html_store, store_texts.
  destruct (store_name s); [|reflexivity]. cbn [bind].
  destruct (address_line s); [|reflexivity]. cbn [bind].
  destruct (sorted_clearances s) as [sorted|]; [|reflexivity]. cbn [bind].
  rewrite (mapM_match _ _ _ sorted html_item_eq).
  destruct (mapM (item_texts danish_tz str_of_number) sorted); reflexivity.
Qed.

Lemma markdown_store_eq (s : Store) :
  markdown_store danish_tz str_of_number s =
  match store_texts danish_tz str_of_number s with
  | Ok sf => Ok (markdown_of_store sf)
  | Raise e => Raise e
  end.
Proof.
  unfold markdown_store, store_texts.
  destruct (store_name s); [|reflexivity]. cbn [bind].
  destruct (address_line s); [|reflexivity]. cbn [bind].
  destruct (sorted_clearances s) as [sorted|]; [|reflexivity]. cbn [bind].
  rewrite (mapM_match _ _ _ sorted markdown_item_eq).
  destruct (mapM (item_texts danish_tz str_of_number) sorted); reflexivity.
Qed.

Lemma store_texts_inv (s : Store) (sf : string * string * list (Product * item_text)) :
  store_texts danish_tz str_of_number s = Ok sf ->
  store_name s = Ok (fst (fst sf)) /\
  address_line s = Ok (snd (fst sf)) /\
  exists sorted, sorted_clearances s = Ok sorted /\
                 Forall2 (fun c pf => item_texts danish_tz str_of_number c = Ok pf)
                         sorted (snd sf).
Proof.
  unfold store_texts.
  destruct (store_name s); [|discriminate]. cbn [bind].
  destruct (address_line s); [|discriminate]. cbn [bind].
  destruct (sorted_clearances s) as [sorted|]; [|discriminate]. cbn [bind].
  destruct (mapM (item_texts danish_tz str_of_number) sorted) as [items|] eqn:M;
    [|discriminate]. cbn [bind].
  intros [= <-]. cbn [fst snd]. repeat split. exists sorted. split; [reflexivity|].
  now apply mapM_Forall2.
Qed.

Lemma print_store_ok (s : Store) (sf : string * string * list (Product * item_text))
      (w : world) :
  store_texts danish_tz str_of_number s = Ok sf ->
  print_store danish_tz str_of_number s w
  = (Ok tt, with_stdout w (stdout w ++ text_of_store sf)).
Proof.
  intros H. apply store_texts_inv in H as (Hn & Ha & sorted & Hs & F).
  unfold print_store, io_bind, lift, print. rewrite Hn, Ha, Hs.
  rewrite (io_for_print _ text_of_item sorted (snd sf) _
             (fun c pf w' H => print_item_ok c pf w' H) F).
  unfold text_of_store, with_stdout. cbn [clock dirs files stdout].
  string_norm. reflexivity.
Qed.

Lemma html_content_eq (t : datetime) (data : Batch) :
  html_content danish_tz str_of_number t data =
  match batch_texts danish_tz str_of_number data with
  | Ok sfs => Ok (html_header t ++ String.concat "" (map html_of_store sfs))
  | Raise e => Raise e
  end.
Proof.
  unfold html_content, batch_texts.
  rewrite (mapM_match _ _ _ (stores_of data) html_store_eq).
  destruct (mapM (store_texts danish_tz str_of_number) (stores_of data)); reflexivity.
Qed.

Lemma markdown_content_eq (t : datetime) (data : Batch) :
  markdown_content danish_tz str_of_number t data =
  match batch_texts danish_tz str_of_number data with
  | Ok sfs => Ok (markdown_header t ++ String.concat "" (map markdown_of_store sfs))
  | Raise e => Raise e
  end.
Proof.
  unfold markdown_content, batch_texts.
  rewrite (mapM_match _ _ _ (stores_of data) markdown_store_eq).
  destruct (mapM (store_texts danish_tz str_of_number) (stores_of data)); reflexivity.
Qed.

(** [generate_outputs] step by step. *)
Lemma generate_outputs_eq (data : Batch) (w : world) :
  generate_outputs danish_tz str_of_number render_template write_pdf data w =
  let t := clock w in
  let w1 := with_output_dirs w in
  match html_content danish_tz str_of_number t data with
  | Raise e => (Raise e, w1)
  | Ok content =>
      match lookup_file "template.html" (files w) with
      | None => (Raise (FileNotFoundError "template.html"), w1)
      | Some template =>
          match render_template template content with
          | Raise e => (Raise e, w1)
          | Ok page =>
              let w2 := with_file (html_path t) page w1 in
              match write_pdf page with
              | Raise e => (Raise e, w2)
              | Ok pdf => (Ok (html_path t, pdf_path t), with_file (pdf_path t) pdf w2)
              end
          end
      end
  end.
Proof.
  unfold generate_outputs, io_bind, lift, now, read_file, io_ret.
  cbn [mkdir clock files fst snd with_output_dirs].
  destruct (html_content danish_tz str_of_number (clock w) data) as [content|];
    [|reflexivity].
  destruct (lookup_file "template.html" (files w)) as [template|]; [|reflexivity].
  destruct (render_template template content) as [page|]; [|reflexivity].
  cbn [write_file clock files fst snd].
  destruct (write_pdf page); reflexivity.
Qed.

(** [export_to_markdown] without a file name. *)
Lemma export_to_markdown_eq (data : Batch) (w : world) :
  export_to_markdown danish_tz str_of_number data None w =
  match markdown_content danish_tz str_of_number (clock w) data with
  | Raise e => (Raise e, w)
  | Ok content =>
      (Ok (markdown_path (clock w)), with_file (markdown_path (clock w)) content w)
  end.
Proof.
  unfold export_to_markdown, io_bind, lift, now, io_ret.
  destruct (markdown_content danish_tz str_of_number (clock w) data); reflexivity.
Qed.

(** [export_to_markdown] with a file name. *)
Lemma export_to_markdown_named_eq (data : Batch) (filename : string) (w : world) :
  export_to_markdown danish_tz str_of_number data (Some filename) w =
  match markdown_content danish_tz str_of_number (clock w) data with
  | Raise e => (Raise e, w)
  | Ok content => (Ok filename, with_file filename content w)
  end.
Proof.
  unfold export_to_markdown, io_bind, lift, now, io_ret.
  destruct (markdown_content danish_tz str_of_number (clock w) data); reflexivity.
Qed.

Lemma print_stores_ok (stores : list Store)
      (sfs : list (string * string * list (Product * item_text))) (w : world) :
  mapM (store_texts danish_tz str_of_number) stores = Ok sfs ->
  io_for stores (print_store danish_tz str_of_number) w
  = (Ok tt, with_stdout w (stdout w ++ String.concat "" (map text_of_store sfs))).
Proof.
  intros H. apply mapM_Forall2 in H.
  exact (io_for_print _ text_of_store stores sfs _
           (fun s sf w' E => print_store_ok s sf w' E) H w).
Qed.

Lemma print_clearances_raise (data : Batch) (w w1 : world) (e : exn) :
  generate_outputs danish_tz str_of_number render_template write_pdf data w = (Raise e, w1) ->
  print_clearances danish_tz str_of_number render_template write_pdf data w = (Raise e, w1).
Proof. intros H. unfold print_clearances, io_bind. now rewrite H. Qed.

Lemma print_clearances_ok (data : Batch) (w w2 : world) (paths : string * string)
      (sfs : list (string * string * list (Product * item_text))) :
  generate_outputs danish_tz str_of_number render_template write_pdf data w = (Ok paths, w2) ->
  batch_texts danish_tz str_of_number data = Ok sfs ->
  print_clearances danish_tz str_of_number render_template write_pdf data w
  = (Ok tt,
     with_stdout w2
       (stdout w2
        ++ ((nl ++ "Output filer genereret:") ++ nl
            ++ ("- HTML: " ++ fst paths) ++ nl
            ++ ("- PDF: " ++ snd paths) ++ nl)
        ++ String.concat "" (map text_of_store sfs))).
Proof.
  intros G B. unfold print_clearances, io_bind. rewrite G.
  unfold print. rewrite (print_stores_ok _ sfs _ B).
  unfold with_stdout. cbn [clock dirs files stdout].
  string_norm. reflexivity.
Qed.

(** ** Failures *)

Lemma item_texts_lacks (c : Clearance) :
  lacks_read_field c = true ->
  exists k, item_texts danish_tz str_of_number c = Raise (KeyError k).
Proof.
  unfold lacks_read_field, item_texts, price_text, discount_text, stock_text,
    valid_until_text.
  destruct (product c) as [p|]; [|eexists; reflexivity].
  destruct (offer c) as [o|]; [|eexists; reflexivity].
  cbn [getkey bind].
  destruct (description p); [|eexists; reflexivity].
  destruct (originalPrice o); [|eexists; reflexivity].
  destruct (currency o); [|eexists; reflexivity].
  destruct (newPrice o); [|eexists; reflexivity].
  destruct (percentDiscount o); [|eexists; reflexivity].
  destruct (stock o); [|eexists; reflexivity].
  destruct (stockUnit o); [|eexists; reflexivity].
  destruct (endTime o); [discriminate | eexists; reflexivity].
Qed.

(** The ways [item_texts] fails: a key is absent, or the timestamp is not
    converted. *)
Lemma item_texts_raise (c : Clearance) (e : exn) :
  item_texts danish_tz str_of_number c = Raise e ->
  is_KeyError e = true \/
  exists o ts, offer c = Some o /\ endTime o = Some ts /\
               format_datetime danish_tz ts = Raise e.
Proof.
  unfold item_texts, price_text, discount_text, stock_text, valid_until_text.
  destruct (product c) as [p|]; [|intros [= <-]; now left].
  destruct (offer c) as [o|]; [|intros [= <-]; now left].
  cbn [getkey bind].
  destruct (description p); [|intros [= <-]; now left].
  destruct (originalPrice o); [|intros [= <-]; now left].
  destruct (currency o); [|intros [= <-]; now left].
  destruct (newPrice o); [|intros [= <-]; now left].
  destruct (percentDiscount o); [|intros [= <-]; now left].
  destruct (stock o); [|intros [= <-]; now left].
  destruct (stockUnit o); [|intros [= <-]; now left].
  destruct (endTime o) as [ts|] eqn:ET; [|intros [= <-]; now left].
  cbn [getkey bind].
  destruct (format_datetime danish_tz ts) eqn:F; [discriminate|].
  cbn [bind]. intros [= <-]. right. now exists o, ts.
Qed.

End Generators.

Lemma get_sort_key_raise (c : Clearance) (e : exn) :
  get_sort_key c = Raise e -> is_KeyError e = true.
Proof.
  unfold get_sort_key.
  destruct (offer c) as [o|]; cbn [getkey bind]; [|intros [= <-]; reflexivity].
  destruct (stock o); cbn [getkey bind]; [|intros [= <-]; reflexivity].
  destruct (stockUnit o) as [u|]; cbn [getkey bind]; [|intros [= <-]; reflexivity].
  now destruct (String.eqb (str_lower u) "kg").
Qed.

Lemma sorted_reverse_ok_inv {X : Type} (key : X -> result Q) (l out : list X) :
  sorted_reverse key l = Ok out ->
  Permutation l out /\ descending key out /\ stable key l out.
Proof.
  intros H. destruct (mapM key l) as [ks|e] eqn:M.
  - destruct (sorted_reverse_spec key l ks M) as (out' & E & P).
    rewrite E in H. injection H as <-. exact P.
  - rewrite (sorted_reverse_raise key l e M) in H. discriminate.
Qed.

Lemma sorted_reverse_raise_inv {X : Type} (key : X -> result Q) (l : list X) (e : exn) :
  sorted_reverse key l = Raise e -> exists x, In x l /\ key x = Raise e.
Proof.
  intros H. destruct (mapM key l) as [ks|e'] eqn:M.
  - destruct (sorted_reverse_spec key l ks M) as (out' & E & _). congruence.
  - rewrite (sorted_reverse_raise key l e' M) in H. injection H as <-.
    now apply mapM_raise.
Qed.

Lemma store_name_raise (s : Store) (e : exn) :
  store_name s = Raise e -> is_KeyError e = true.
Proof.
  unfold store_name.
  destruct (store s) as [i|]; cbn [getkey bind]; [|intros [= <-]; reflexivity].
  destruct (name i); cbn [getkey]; [discriminate | intros [= <-]; reflexivity].
Qed.

Lemma store_address_raise (key : string) (field : Address -> option string)
      (s : Store) (e : exn) :
  store_address key field s = Raise e -> is_KeyError e = true.
Proof.
  unfold store_address.
  destruct (store s) as [i|]; cbn [getkey bind]; [|intros [= <-]; reflexivity].
  destruct (address i) as [a|]; cbn [getkey bind]; [|intros [= <-]; reflexivity].
  destruct (field a); cbn [getkey]; [discriminate | intros [= <-]; reflexivity].
Qed.

Lemma address_line_raise (s : Store) (e : exn) :
  address_line s = Raise e -> is_KeyError e = true.
Proof.
  unfold address_line.
  destruct (store_address "street" street s) eqn:E1; cbn [bind];
    [|intros [= <-]; now apply store_address_raise in E1].
  destruct (store_address "zip" zip s) eqn:E2; cbn [bind];
    [|intros [= <-]; now apply store_address_raise in E2].
  destruct (store_address "city" city s) eqn:E3; cbn [bind];
    [discriminate | intros [= <-]; now apply store_address_raise in E3].
Qed.

Lemma sorted_clearances_raise (s : Store) (e : exn) :
  sorted_clearances s = Raise e -> is_KeyError e = true.
Proof.
  unfold sorted_clearances.
  destruct (clearances s) as [cs|]; cbn [getkey bind]; [|intros [= <-]; reflexivity].
  intros H. apply sorted_reverse_raise_inv in H as (c & _ & H).
  now apply get_sort_key_raise in H.
Qed.

Lemma sorted_clearances_ok (s : Store) (sorted : list Clearance) :
  sorted_clearances s = Ok sorted ->
  exists cs, clearances s = Some cs /\ Permutation cs sorted /\
             descending get_sort_key sorted /\ stable get_sort_key cs sorted.
Proof.
  unfold sorted_clearances. destruct (clearances s) as [cs|]; [|discriminate].
  cbn [getkey bind]. intros H. exists cs. split; [reflexivity|].
  now apply sorted_reverse_ok_inv.
Qed.

Section Outputs.

Variable danish_tz : Z -> Z.
Variable str_of_number : Q -> string.
Variable render_template : string -> string -> result string.
Variable write_pdf : string -> result string.

Lemma store_texts_fails (s : Store) (cs : list Clearance) (c : Clearance) :
  clearances s = Some cs -> In c cs -> lacks_read_field c = true ->
  exists e, store_texts danish_tz str_of_number s = Raise e.
Proof.
  intros Hc I L. unfold store_texts.
  destruct (store_name s); cbn [bind]; [|eauto].
  destruct (address_line s); cbn [bind]; [|eauto].
  destruct (sorted_clearances s) as [sorted|] eqn:S; cbn [bind]; [|eauto].
  apply sorted_clearances_ok in S as (cs' & Hc' & P & _).
  assert (cs' = cs) by congruence. subst cs'.
  destruct (item_texts_lacks danish_tz str_of_number c L) as [k K].
  destruct (mapM_in_raise _ sorted c _ (Permutation_in _ P I) K) as [e' ->].
  cbn [bind]. eauto.
Qed.

Lemma store_texts_raise (s : Store) (e : exn) :
  store_texts danish_tz str_of_number s = Raise e ->
  is_KeyError e = true \/
  exists cs c o ts, clearances s = Some cs /\ In c cs /\ offer c = Some o /\
                    endTime o = Some ts /\ format_datetime danish_tz ts = Raise e.
Proof.
  unfold store_texts.
  destruct (store_name s) eqn:N; cbn [bind];
    [|intros [= <-]; left; now apply store_name_raise in N].
  destruct (address_line s) eqn:A; cbn [bind];
    [|intros [= <-]; left; now apply address_line_raise in A].
  destruct (sorted_clearances s) as [sorted|] eqn:S; cbn [bind];
    [|intros [= <-]; left; now apply sorted_clearances_raise in S].
  destruct (mapM (item_texts danish_tz str_of_number) sorted) eqn:M; cbn [bind];
    [discriminate|].
  intros [= <-]. apply mapM_raise in M as (c & I & H).
  apply item_texts_raise in H as [H|(o & ts & Ho & Ht & F)]; [now left|].
  right. apply sorted_clearances_ok in S as (cs & Hc & P & _).
  exists cs, c, o, ts. repeat split; auto.
  apply Permutation_in with sorted; [now symmetry | exact I].
Qed.

Lemma in_batch_clearances (data : Batch) (c : Clearance) :
  In c (batch_clearances data) <->
  exists s cs, In s (stores_of data) /\ clearances s = Some cs /\ In c cs.
Proof.
  unfold batch_clearances. rewrite in_flat_map. split.
  - intros (s & I & H). destruct (clearances s) as [cs|] eqn:E; [|contradiction]. eauto.
  - intros (s & cs & I & E & H). exists s. rewrite E. now split.
Qed.

Lemma batch_texts_fails (data : Batch) (c : Clearance) :
  In c (batch_clearances data) -> lacks_read_field c = true ->
  exists e, batch_texts danish_tz str_of_number data = Raise e.
Proof.
  intros I L. apply in_batch_clearances in I as (s & cs & Is & E & Ic).
  destruct (store_texts_fails s cs c E Ic L) as [e He].
  exact (mapM_in_raise _ _ s e Is He).
Qed.

Lemma batch_texts_raise (data : Batch) (e : exn) :
  batch_texts danish_tz str_of_number data = Raise e ->
  is_KeyError e = true \/
  exists c o ts, In c (batch_clearances data) /\ offer c = Some o /\
                 endTime o = Some ts /\ format_datetime danish_tz ts = Raise e.
Proof.
  intros H. apply mapM_raise in H as (s & Is & H).
  apply store_texts_raise in H as [H|(cs & c & o & ts & E & Ic & Ho & Ht & F)]; [now left|].
  right. exists c, o, ts. repeat split; auto.
  apply in_batch_clearances. eauto.
Qed.

(** ** Successes *)

Lemma mapM_all_ok {X Y : Type} (g : X -> result Y) (l : list X) :
  Forall (fun x => exists y, g x = Ok y) l -> exists ys, mapM g l = Ok ys.
Proof.
  induction 1 as [|x l [y E] F [ys IH]]; [now exists []|].
  exists (y :: ys). cbn [mapM]. now rewrite E, IH.
Qed.

Lemma get_sort_key_ok (c : Clearance) :
  lacks_read_field c = false -> exists k, get_sort_key c = Ok k.
Proof.
  unfold lacks_read_field, get_sort_key.
  destruct (product c) as [p|]; [|discriminate].
  destruct (offer c) as [o|]; [|discriminate]. cbn [getkey bind].
  destruct (description p); [|discriminate].
  destruct (originalPrice o); [|discriminate].
  destruct (currency o); [|discriminate].
  destruct (newPrice o); [|discriminate].
  destruct (percentDiscount o); [|discriminate].
  destruct (stock o); [|discriminate].
  destruct (stockUnit o) as [u|]; [|discriminate]. cbn [getkey bind].
  intros _. destruct (String.eqb (str_lower u) "kg"); eauto.
Qed.

Lemma item_texts_ok (c : Clearance) :
  readable_clearance danish_tz c ->
  exists pf, item_texts danish_tz str_of_number c = Ok pf.
Proof.
  intros [L T]. revert L T.
  unfold lacks_read_field, item_texts, price_text, discount_text, stock_text,
    valid_until_text.
  destruct (product c) as [p|]; [|discriminate].
  destruct (offer c) as [o|]; [|discriminate]. cbn [getkey bind].
  destruct (description p); [|discriminate].
  destruct (originalPrice o); [|discriminate].
  destruct (currency o); [|discriminate].
  destruct (newPrice o); [|discriminate].
  destruct (percentDiscount o); [|discriminate].
  destruct (stock o); [|discriminate].
  destruct (stockUnit o); [|discriminate].
  destruct (endTime o) as [ts|] eqn:ET; [|discriminate]. cbn [getkey bind].
  intros _ T. destruct (T o ts eq_refl ET) as [out ->]. cbn [bind]. eauto.
Qed.

Lemma store_texts_ok (s : Store) :
  readable_store danish_tz s ->
  exists sf, store_texts danish_tz str_of_number s = Ok sf.
Proof.
  intros ([n N] & [a A] & cs & C & F). unfold store_texts, sorted_clearances.
  rewrite N, A, C. cbn [getkey bind].
  destruct (mapM_all_ok get_sort_key cs) as [ks K].
  { eapply Forall_impl; [|exact F]. intros c [L _]. now apply get_sort_key_ok. }
  destruct (sorted_reverse_spec get_sort_key cs ks K) as (out & -> & P & _).
  cbn [bind].
  destruct (mapM_all_ok (item_texts danish_tz str_of_number) out) as [items ->].
  { apply Forall_forall. intros c I. apply item_texts_ok.
    rewrite Forall_forall in F. apply F.
    apply Permutation_in with out; [now symmetry | exact I]. }
  cbn [bind]. eauto.
Qed.

Lemma batch_texts_ok (data : Batch) :
  Forall (readable_store danish_tz) (stores_of data) ->
  exists sfs, batch_texts danish_tz str_of_number data = Ok sfs.
Proof.
  intros F. apply mapM_all_ok.
  eapply Forall_impl; [|exact F]. intros s. apply store_texts_ok.
Qed.


Lemma lookup_with_file (path text : string) (w : world) :
  lookup_file path (files (with_file path text w)) = Some text.
Proof.
  unfold lookup_file, with_file, write_file. cbn [snd files find fst].
  now rewrite String.eqb_refl.
Qed.

Lemma lookup_with_file_other (path path' text : string) (w : world) :
  path' <> path ->
  lookup_file path (files (with_file path' text w)) = lookup_file path (files w).
Proof.
  intros N. unfold lookup_file, with_file, write_file. cbn [snd files find fst].
  apply String.eqb_neq in N. rewrite N.
  induction (files w) as [|[p x] fs IH]; [reflexivity|].
  cbn [filter fst]. destruct (String.eqb p path') eqn:E; cbn [negb find fst].
  - apply String.eqb_eq in E. subst p. now rewrite N.
  - destruct (String.eqb p path); [reflexivity | exact IH].
Qed.

Lemma pdf_path_html_path (t : datetime) : pdf_path t <> html_path t.
Proof.
  unfold pdf_path, html_path. intros H.
  apply (append_inj_length "output/tilbud_" "output/tilbud_") in H as [_ H];
    [|reflexivity].
  apply append_inj_length in H as [_ H]; [discriminate | reflexivity].
Qed.

Lemma batch_texts_lengths (data : Batch)
      (sfs : list (string * string * list (Product * item_text))) :
  batch_texts danish_tz str_of_number data = Ok sfs ->
  Forall2 (fun s sf => exists cs, clearances s = Some cs /\
                                  List.length (snd sf) = List.length cs)
          (stores_of data) sfs.
Proof.
  intros H. apply mapM_Forall2 in H.
  eapply Forall2_impl; [|exact H]. intros s sf E. cbn beta in E.
  apply store_texts_inv in E as (_ & _ & sorted & S & F).
  apply sorted_clearances_ok in S as (cs & Hc & P & _).
  exists cs. split; [exact Hc|].
  rewrite <- (Forall2_length F). symmetry. now apply Permutation_length.
Qed.

(** The outputs of the two entry points, from the formatted fields of the
    batch. *)
Lemma outputs_of_formatted_batch
        (data : Batch) (w : world)
        (sfs : list (string * string * list (Product * item_text)))
        (template page pdf : string) :
  batch_texts danish_tz str_of_number data = Ok sfs ->
  lookup_file "template.html" (files w) = Some template ->
  render_template template
    (html_header (clock w) ++ String.concat "" (map html_of_store sfs)) = Ok page ->
  write_pdf page = Ok pdf ->
  let t := clock w in
  let w2 := with_file (pdf_path t) pdf (with_file (html_path t) page (with_output_dirs w)) in
  generate_outputs danish_tz str_of_number render_template write_pdf data w
  = (Ok (html_path t, pdf_path t), w2) /\
  print_clearances danish_tz str_of_number render_template write_pdf data w
  = (Ok tt,
     with_stdout w2
       (stdout w ++ text_listing t ++ String.concat "" (map text_of_store sfs))) /\
  export_to_markdown danish_tz str_of_number data None w
  = (Ok (markdown_path t),
     with_file (markdown_path t)
       (markdown_header t ++ String.concat "" (map markdown_of_store sfs)) w) /\
  lookup_file (html_path t) (files w2) = Some page /\
  lookup_file (pdf_path t) (files w2) = Some pdf /\
  Forall2 (fun s sf => exists cs, clearances s = Some cs /\
                                  List.length (snd sf) = List.length cs)
          (stores_of data) sfs.
Proof.
  intros B T R P t w2.
  assert (G : generate_outputs danish_tz str_of_number render_template write_pdf data w
              = (Ok (html_path t, pdf_path t), w2)).
  { rewrite generate_outputs_eq. cbv zeta.
    rewrite html_content_eq, B, T, R, P. reflexivity. }
  split; [exact G|]. split; [|split; [|split; [|split]]].
  - rewrite (print_clearances_ok _ _ _ _ data w w2 _ sfs G B). reflexivity.
  - rewrite export_to_markdown_eq, markdown_content_eq, B. reflexivity.
  - unfold w2. rewrite lookup_with_file_other by apply pdf_path_html_path.
    apply lookup_with_file.
  - apply lookup_with_file.
  - now apply batch_texts_lengths.
Qed.

(** C2, as the code has it.  On a batch whose stores and clearances are
    readable, with a template that is there and rendered and a page that is
    converted, [print_clearances] writes the HTML file and the PDF file under
    the same time stamp and prints their paths and the text summary, and
    returns nothing; the Markdown document is written by
    [export_to_markdown], a separate entry point, which returns its path.
    Each store has as many clearance sections as it has clearances. *)
Theorem outputs_of_the_entry_points (data : Batch) (w : world) (template : string) :
  Forall (readable_store danish_tz) (stores_of data) ->
  lookup_file "template.html" (files w) = Some template ->
  (forall content, exists page, render_template template content = Ok page) ->
  (forall page, exists pdf, write_pdf page = Ok pdf) ->
  exists sfs page pdf,
    batch_texts danish_tz str_of_number data = Ok sfs /\
    render_template template
      (html_header (clock w) ++ String.concat "" (map html_of_store sfs)) = Ok page /\
    write_pdf page = Ok pdf /\
    let t := clock w in
    let w2 := with_file (pdf_path t) pdf (with_file (html_path t) page (with_output_dirs w)) in
    generate_outputs danish_tz str_of_number render_template write_pdf data w
    = (Ok (html_path t, pdf_path t), w2) /\
    print_clearances danish_tz str_of_number render_template write_pdf data w
    = (Ok tt,
       with_stdout w2
         (stdout w ++ text_listing t ++ String.concat "" (map text_of_store sfs))) /\
    export_to_markdown danish_tz str_of_number data None w
    = (Ok (markdown_path t),
       with_file (markdown_path t)
         (markdown_header t ++ String.concat "" (map markdown_of_store sfs)) w) /\
    lookup_file (html_path t) (files w2) = Some page /\
    lookup_file (pdf_path t) (files w2) = Some pdf /\
    Forall2 (fun s sf => exists cs, clearances s = Some cs /\
                                    List.length (snd sf) = List.length cs)
            (stores_of data) sfs.
Proof.
  intros F T R P.
  destruct (batch_texts_ok data F) as [sfs B].
  destruct (R (html_header (clock w) ++ String.concat "" (map html_of_store sfs)))
    as [page Hpage].
  destruct (P page) as [pdf Hpdf].
  exists sfs, page, pdf. split; [exact B|]. split; [exact Hpage|]. split; [exact Hpdf|].
  exact (outputs_of_formatted_batch data w sfs template page pdf B T Hpage Hpdf).
Qed.


Lemma generators_on_stores (d1 d2 : Batch) (w : world) (filename : option string) :
  stores_of d1 = stores_of d2 ->
  generate_outputs danish_tz str_of_number render_template write_pdf d1 w
  = generate_outputs danish_tz str_of_number render_template write_pdf d2 w /\
  export_to_markdown danish_tz str_of_number d1 filename w
  = export_to_markdown danish_tz str_of_number d2 filename w /\
  print_clearances danish_tz str_of_number render_template write_pdf d1 w
  = print_clearances danish_tz str_of_number render_template write_pdf d2 w.
Proof.
  intros H.
  assert (G : generate_outputs danish_tz str_of_number render_template write_pdf d1 w
              = generate_outputs danish_tz str_of_number render_template write_pdf d2 w).
  { rewrite !generate_outputs_eq. unfold html_content. now rewrite H. }
  split; [exact G|]. split.
  - destruct filename as [f|].
    + rewrite !export_to_markdown_named_eq. unfold markdown_content. now rewrite H.
    + rewrite !export_to_markdown_eq. unfold markdown_content. now rewrite H.
  - unfold print_clearances, io_bind. now rewrite G, H.
Qed.

(** C8. A single store is rendered as the list of that one store: the
    batch is made a list of stores at first, a single store becoming the
    list of one, and each generator does the same on two batches of the
    same stores. *)
Theorem one_store_as_list (s : Store) (w : world) (filename : option string) :
  stores_of (OneStore s) = [s] /\
  stores_of (StoreList [s]) = [s] /\
  generate_outputs danish_tz str_of_number render_template write_pdf (OneStore s) w
  = generate_outputs danish_tz str_of_number render_template write_pdf (StoreList [s]) w /\
  export_to_markdown danish_tz str_of_number (OneStore s) filename w
  = export_to_markdown danish_tz str_of_number (StoreList [s]) filename w /\
  print_clearances danish_tz str_of_number render_template write_pdf (OneStore s) w
  = print_clearances danish_tz str_of_number render_template write_pdf (StoreList [s]) w.
Proof.
  split; [reflexivity|]. split; [reflexivity|].
  apply generators_on_stores. reflexivity.
Qed.

(** C9, as the code has it.  For a clearance whose product has a non-empty
    image, the source of the picture in the HTML is the result of the
    normaliser on that image, and the link in the Markdown is the image of
    the product as it is; for a product without an image the normaliser is
    not applied: the HTML has the placeholder and the Markdown no link. *)
Theorem image_resolution (c : Clearance) (p : Product) (f : item_text) :
  item_texts danish_tz str_of_number c = Ok (p, f) ->
  match image p with
  | Some (String a u) =>
      let url := String a u in
      exists r,
        get_optimized_image_url (Some url) = Ok r /\ truthy r = true /\
        html_image_url p = Ok r /\
        html_item danish_tz str_of_number c
        = Ok ("<div class=" ++ dq ++ "item" ++ dq ++ ">" ++ nl
              ++ ("<img src=" ++ dq ++ r ++ dq ++ " alt=" ++ dq ++ it_title f ++ dq
                  ++ " loading=" ++ dq ++ "lazy" ++ dq ++ ">" ++ nl)
              ++ html_details f) /\
        markdown_item danish_tz str_of_number c
        = Ok (markdown_fields f
              ++ (markdown_image_mark ++ url ++ ")" ++ nl)
              ++ nl ++ "---" ++ nl ++ nl)
  | _ =>
      html_image_url p = Ok "" /\
      html_item danish_tz str_of_number c
      = Ok ("<div class=" ++ dq ++ "item" ++ dq ++ ">" ++ nl
            ++ html_placeholder ++ html_details f) /\
      markdown_item danish_tz str_of_number c
      = Ok (markdown_fields f ++ nl ++ "---" ++ nl ++ nl)
  end.
Proof.
  intros H. rewrite html_item_eq, markdown_item_eq, H.
  unfold html_of_item, markdown_of_item, html_picture, markdown_image_line.
  cbn [fst snd].
  pose proof (html_image_url_ok p) as U. pose proof (image_src_truthy p) as T.
  destruct (image p) as [[|a u]|] eqn:I.
  - unfold image_src, html_image_url in *. rewrite I in *. cbn [truthy] in *.
    repeat split.
  - cbn [truthy] in T. cbv zeta.
    exists (image_src p). rewrite T.
    assert (G : get_optimized_image_url (Some (String a u)) = Ok (image_src p)).
    { rewrite <- U. unfold html_image_url. now rewrite I. }
    repeat split; auto.
  - unfold image_src, html_image_url in *. rewrite I in *. cbn [truthy] in *.
    repeat split.
Qed.

End Outputs.

(** * The program on examples *)


Example missing_description_is_KeyError :
  fst (run_generate_outputs (OneStore (sample_store_of [untitled_clearance])) sample_world)
  = Raise (KeyError "description").
Proof. vm_compute. reflexivity. Qed.


(** [print_clearances] on one store with two clearances: it returns
    nothing, and the files it leaves are the template, the HTML file and
    the PDF file; there is no Markdown document. *)
Lemma print_clearances_writes_no_markdown :
  fst (run_print_clearances (OneStore sample_store) sample_world) = Ok tt /\
  map fst (files (snd (run_print_clearances (OneStore sample_store) sample_world)))
  = ["output/tilbud_20240531_0930.pdf"; "output/tilbud_20240531_0930.html";
     "template.html"] /\
  lookup_file "tilbud_20240531_0930.md"
    (files (snd (run_print_clearances (OneStore sample_store) sample_world))) = None.
Proof.
  split; [vm_compute; reflexivity|]. split; vm_compute; reflexivity.
Qed.

(** An instance of [outputs_of_the_entry_points]: one store with two
    clearances. *)
Lemma outputs_of_the_entry_points_witness :
  fst (run_generate_outputs (OneStore sample_store) sample_world)
  = Ok ("output/tilbud_20240531_0930.html", "output/tilbud_20240531_0930.pdf") /\
  fst (run_print_clearances (OneStore sample_store) sample_world) = Ok tt /\
  fst (run_export_to_markdown (OneStore sample_store) None sample_world)
  = Ok "tilbud_20240531_0930.md".
Proof.
  destruct (outputs_of_the_entry_points central_european sample_str_of_number
              sample_render_template sample_write_pdf
              (OneStore sample_store) sample_world
              "<html><body>{{ content }}</body></html>")
    as (sfs & page & pdf & _ & _ & _ & G & P & M & _).
  - constructor; [|constructor].
    split; [eexists; reflexivity|]. split; [eexists; reflexivity|].
    eexists. split; [reflexivity|].
    repeat constructor; intros o ts [= <-] [= <-]; eexists; vm_compute; reflexivity.
  - reflexivity.
  - intros content. unfold sample_render_template.
    destruct (str_partition "{{ content }}" "<html><body>{{ content }}</body></html>")
      as [[before after]|]; eexists; reflexivity.
  - intros page. eexists. reflexivity.
  - unfold run_generate_outputs, run_print_clearances, run_export_to_markdown.
    rewrite G, P, M. repeat split.
Defined.

(** The three outputs of one store with two clearances: the clearance by
    weight is first, and the Markdown document has two clearance
    sections. *)
Example sample_store_outputs :
  sorted_clearances sample_store = Ok [kg_clearance; each_clearance] /\
  map (fun sf => map (fun pf => it_title (snd pf)) (snd sf))
      (or_nil (batch_texts central_european sample_str_of_number (OneStore sample_store)))
  = [["Hakket oksekod"; "Rugbrod"]] /\
  str_count "### "
    (or_empty (markdown_content central_european sample_str_of_number
                 (clock sample_world) (OneStore sample_store))) = 2%nat.
Proof. split; [vm_compute; reflexivity|]. split; vm_compute; reflexivity. Qed.

Example get_sort_key_examples :
  get_sort_key kg_clearance = Ok ((2 # 1) * inject_Z 1000)%Q /\
  get_sort_key each_clearance = Ok (500 # 1) /\
  get_sort_key (sample_clearance None None (750 # 1) "g" "") = Ok (750 # 1) /\
  get_sort_key (sample_clearance None None (3 # 2) "KG" "") = Ok ((3 # 2) * inject_Z 1000)%Q.
Proof. repeat split. Qed.

(** Equal keys keep their input order, also across units. *)
Example sorted_reverse_stable_example :
  let a := sample_clearance (Some "a") None (1 # 1) "kg" "" in
  let b := sample_clearance (Some "b") None (1000 # 1) "each" "" in
  let c := sample_clearance (Some "c") None (2 # 1) "kg" "" in
  let d := sample_clearance (Some "d") None (1000 # 1) "g" "" in
  sorted_reverse get_sort_key [a; b; c; d] = Ok [c; a; b; d].
Proof. vm_compute. reflexivity. Qed.

(** An instance of [image_resolution]: a clearance with an image of the
    legacy asset service. *)
Lemma image_resolution_witness :
  exists r,
    get_optimized_image_url (Some "https://dam.dsg.dk/services/assets.img/id/ABC123/foo")
    = Ok r /\
    html_image_url {| description := Some "Hakket oksekod";
                      product_ean := Some "5700000000017";
                      image := Some "https://dam.dsg.dk/services/assets.img/id/ABC123/foo" |}
    = Ok r.
Proof.
  pose (pf := match item_texts central_european sample_str_of_number kg_clearance with
              | Ok pf => pf
              | Raise _ => ({| description := None; product_ean := None; image := None |},
                            {| it_title := ""; it_original := ""; it_new := "";
                               it_discount := ""; it_stock := ""; it_until := "" |})
              end).
  assert (H : item_texts central_european sample_str_of_number kg_clearance
              = Ok (fst pf, snd pf)) by (vm_compute; reflexivity).
  pose proof (image_resolution central_european sample_str_of_number kg_clearance
                (fst pf) (snd pf) H) as R.
  change (image (fst pf))
    with (Some "https://dam.dsg.dk/services/assets.img/id/ABC123/foo") in R.
  cbv beta iota zeta in R. destruct R as (r & G & _ & U & _).
  exists r. split; [exact G | exact U].
Defined.

(** The link of the Markdown document is the image of the product as it
    is, which the normaliser would have rewritten. *)
Lemma markdown_link_is_not_normalised :
  get_optimized_image_url (Some "https://dam.dsg.dk/services/assets.img/id/ABC123/foo")
  = Ok (optimized_prefix ++ "ABC123") /\
  exists text,
    markdown_item central_european sample_str_of_number kg_clearance = Ok text /\
    str_contains
      (markdown_image_mark ++ "https://dam.dsg.dk/services/assets.img/id/ABC123/foo" ++ ")")
      text = true /\
    str_contains (optimized_prefix ++ "ABC123") text = false /\
    str_contains canonical_domain text = false.
Proof.
  split; [reflexivity|].
  exists (or_empty (markdown_item central_european sample_str_of_number kg_clearance)).
  split; [vm_compute; reflexivity|].
  split; [vm_compute; reflexivity|].
  split; vm_compute; reflexivity.
Qed.

Example html_picture_is_normalised :
  str_contains
    ("<img src=" ++ dq ++ optimized_prefix ++ "ABC123" ++ dq)
    (or_empty (html_item central_european sample_str_of_number kg_clearance)) = true.
Proof. vm_compute. reflexivity. Qed.

(* ================================================================== *)
(** * More on the generators *)

Lemma concat_cons (x : string) (xs : list string) :
  String.concat "" (x :: xs) = x ++ String.concat "" xs.
Proof. destruct xs; cbn [String.concat]; [now rewrite append_nil_r | reflexivity]. Qed.

Lemma concat_app (a b : list string) :
  String.concat "" (a ++ b) = String.concat "" a ++ String.concat "" b.
Proof.
  induction a as [|x a IH]; [reflexivity|].
  rewrite <- app_comm_cons, !concat_cons, IH. now rewrite append_assoc.
Qed.

Lemma mapM_app {X Y : Type} (f : X -> result Y) (l1 l2 : list X) :
  mapM f (l1 ++ l2) = (a <- mapM f l1 ;; b <- mapM f l2 ;; Ok (a ++ b)%list).
Proof.
  induction l1 as [|x l1 IH]; cbn [app mapM bind].
  - now destruct (mapM f l2).
  - destruct (f x); [|reflexivity]. cbn [bind]. rewrite IH.
    destruct (mapM f l1); [|reflexivity]. cbn [bind].
    now destruct (mapM f l2).
Qed.

Lemma sections_of_app {X : Type} (section : X -> result string) (l1 l2 : list X) :
  sections_of section (l1 ++ l2)
  = (a <- sections_of section l1 ;; b <- sections_of section l2 ;; Ok (a ++ b)).
Proof.
  unfold sections_of. rewrite mapM_app.
  destruct (mapM section l1); [|reflexivity]. cbn [bind].
  destruct (mapM section l2); [|reflexivity]. cbn [bind].
  now rewrite concat_app.
Qed.

Lemma lookup_file_filter (path path' : string) (fs : list (string * string)) :
  path' <> path ->
  lookup_file path (filter (fun f => negb (String.eqb (fst f) path')) fs)
  = lookup_file path fs.
Proof.
  intros N. unfold lookup_file.
  induction fs as [|[p x] fs IH]; [reflexivity|].
  cbn [filter fst]. destruct (String.eqb p path') eqn:E; cbn [negb find fst].
  - apply String.eqb_eq in E. subst p.
    apply String.eqb_neq in N. now rewrite N.
  - destruct (String.eqb p path); [reflexivity | exact IH].
Qed.

Lemma in_paths_filter (path p : string) (fs : list (string * string)) :
  In p (map fst (filter (fun f => negb (String.eqb (fst f) path)) fs)) ->
  In p (map fst fs) /\ p <> path.
Proof.
  induction fs as [|[q x] fs IH]; [contradiction|].
  cbn [filter fst]. destruct (String.eqb q path) eqn:E; cbn [negb map fst In].
  - intros H. destruct (IH H). auto.
  - intros [<-|H]; [split; [now left | now apply String.eqb_neq]|].
    destruct (IH H). auto.
Qed.

Lemma NoDup_paths_filter (path : string) (fs : list (string * string)) :
  NoDup (map fst fs) ->
  NoDup (map fst (filter (fun f => negb (String.eqb (fst f) path)) fs)).
Proof.
  induction fs as [|[q x] fs IH]; [intros _; constructor|].
  cbn [map fst filter]. intros H. inversion H as [|? ? N D]; subst.
  destruct (String.eqb q path); cbn [negb map fst]; [now apply IH|].
  constructor; [|now apply IH]. intros I. apply in_paths_filter in I as [I _]. auto.
Qed.

Lemma with_file_paths_unique (path text : string) (w : world) :
  NoDup (map fst (files w)) -> NoDup (map fst (files (with_file path text w))).
Proof.
  intros H. unfold with_file, write_file. cbn [snd files map fst].
  constructor; [|now apply NoDup_paths_filter].
  intros I. apply in_paths_filter in I as [_ I]. now apply I.
Qed.

Lemma with_output_dirs_unique (w : world) :
  NoDup (dirs w) -> NoDup (dirs (with_output_dirs w)).
Proof.
  intros H. unfold with_output_dirs, mkdir. cbn [snd dirs].
  assert (D1 : NoDup (if existsb (String.eqb "output") (dirs w)
                      then dirs w else "output" :: dirs w)).
  { destruct (existsb (String.eqb "output") (dirs w)) eqn:E; [exact H|].
    constructor; [|exact H]. intros I.
    assert (X : existsb (String.eqb "output") (dirs w) = true);
      [|congruence].
    apply existsb_exists. exists "output". split; [exact I | apply String.eqb_refl]. }
  destruct (existsb (String.eqb "output/images") _) eqn:E; [exact D1|].
  constructor; [|exact D1]. intros I.
  assert (X : existsb (String.eqb "output/images")
                (if existsb (String.eqb "output") (dirs w)
                 then dirs w else "output" :: dirs w) = true); [|congruence].
  apply existsb_exists. exists "output/images". split; [exact I | apply String.eqb_refl].
Qed.

Section MoreOutputs.

Variable danish_tz : Z -> Z.
Variable str_of_number : Q -> string.
Variable render_template : string -> string -> result string.
Variable write_pdf : string -> result string.

Lemma generate_outputs_raise_stdout (data : Batch) (w w' : world) (e : exn) :
  generate_outputs danish_tz str_of_number render_template write_pdf data w
  = (Raise e, w') ->
  stdout w' = stdout w.
Proof.
  rewrite generate_outputs_eq. cbv zeta.
  destruct (html_content danish_tz str_of_number (clock w) data) as [content|];
    [|now intros [= <- <-]].
  destruct (lookup_file "template.html" (files w)) as [template|];
    [|now intros [= <- <-]].
  destruct (render_template template content) as [page|]; [|now intros [= <- <-]].
  destruct (write_pdf page); [discriminate | now intros [= <- <-]].
Qed.

(** X1. When [generate_outputs] raises, the two directories are there and
    nothing is printed; no file has been written, unless it is the
    conversion to PDF that failed: then the HTML file alone has been
    written. *)
Theorem generate_outputs_failure (data : Batch) (w w' : world) (e : exn) :
  generate_outputs danish_tz str_of_number render_template write_pdf data w
  = (Raise e, w') ->
  dirs w' = dirs (with_output_dirs w) /\ stdout w' = stdout w /\ clock w' = clock w /\
  ((w' = with_output_dirs w /\ files w' = files w) \/
   (exists page,
       write_pdf page = Raise e /\
       w' = with_file (html_path (clock w)) page (with_output_dirs w) /\
       lookup_file (html_path (clock w)) (files w') = Some page /\
       lookup_file (pdf_path (clock w)) (files w')
       = lookup_file (pdf_path (clock w)) (files w))).
Proof.
  rewrite generate_outputs_eq. cbv zeta.
  destruct (html_content danish_tz str_of_number (clock w) data) as [content|];
    [|intros [= <- <-]; repeat split; now left].
  destruct (lookup_file "template.html" (files w)) as [template|];
    [|intros [= <- <-]; repeat split; now left].
  destruct (render_template template content) as [page|];
    [|intros [= <- <-]; repeat split; now left].
  destruct (write_pdf page) eqn:P; [discriminate|].
  intros [= <- <-]. repeat split. right. exists page.
  split; [exact P|]. split; [reflexivity|]. split; [apply lookup_with_file|].
  rewrite lookup_with_file_other; [reflexivity|].
  intros H. symmetry in H. now apply pdf_path_html_path in H.
Qed.

(** X2. Whatever its outcome, [generate_outputs] leaves every file other
    than its two outputs as it was; the template is one of them. *)
Theorem generate_outputs_keeps_other_files
        (data : Batch) (w w' : world) (r : result (string * string)) (path : string) :
  generate_outputs danish_tz str_of_number render_template write_pdf data w = (r, w') ->
  path <> html_path (clock w) -> path <> pdf_path (clock w) ->
  lookup_file path (files w') = lookup_file path (files w) /\
  lookup_file "template.html" (files w') = lookup_file "template.html" (files w).
Proof.
  rewrite generate_outputs_eq. cbv zeta. intros H Nh Np.
  assert (T1 : html_path (clock w) <> "template.html") by discriminate.
  assert (T2 : pdf_path (clock w) <> "template.html") by discriminate.
  destruct (html_content danish_tz str_of_number (clock w) data) as [content|];
    [|injection H as <- <-; now split].
  destruct (lookup_file "template.html" (files w)) as [template|] eqn:T;
    [|injection H as <- <-; now split].
  destruct (render_template template content) as [page|];
    [|injection H as <- <-; now split].
  destruct (write_pdf page); injection H as <- <-.
  - rewrite !lookup_with_file_other by congruence. now split.
  - rewrite !lookup_with_file_other by congruence. now split.
Qed.


Lemma html_content_batch_texts (t : datetime) (data : Batch) (content : string) :
  html_content danish_tz str_of_number t data = Ok content ->
  exists sfs, batch_texts danish_tz str_of_number data = Ok sfs.
Proof.
  rewrite html_content_eq.
  destruct (batch_texts danish_tz str_of_number data) as [sfs|]; [eauto | discriminate].
Qed.

(** X4. [print_clearances] fails exactly when [generate_outputs] does, with
    its exception, and then it prints nothing; when [generate_outputs]
    returns, the two files are there before the first line is printed, and
    what is printed starts with their paths. *)
Theorem print_clearances_outcome (data : Batch) (w : world) :
  match generate_outputs danish_tz str_of_number render_template write_pdf data w with
  | (Raise e, w1) =>
      print_clearances danish_tz str_of_number render_template write_pdf data w
      = (Raise e, w1) /\ stdout w1 = stdout w
  | (Ok paths, w2) =>
      paths = (html_path (clock w), pdf_path (clock w)) /\
      (exists page, lookup_file (html_path (clock w)) (files w2) = Some page) /\
      (exists pdf, lookup_file (pdf_path (clock w)) (files w2) = Some pdf) /\
      exists summary,
        print_clearances danish_tz str_of_number render_template write_pdf data w
        = (Ok tt, with_stdout w2 (stdout w ++ text_listing (clock w) ++ summary))
  end.
Proof.
  destruct (generate_outputs danish_tz str_of_number render_template write_pdf data w)
    as [[paths|e] w1] eqn:G.
  - pose proof G as G'. rewrite generate_outputs_eq in G'. cbv zeta in G'.
    destruct (html_content danish_tz str_of_number (clock w) data) as [content|] eqn:C;
      [|discriminate].
    destruct (lookup_file "template.html" (files w)) as [template|]; [|discriminate].
    destruct (render_template template content) as [page|]; [|discriminate].
    destruct (write_pdf page) as [pdf|]; [|discriminate].
    injection G' as <- <-.
    destruct (html_content_batch_texts _ _ _ C) as [sfs B].
    split; [reflexivity|]. split; [|split].
    + exists page. rewrite lookup_with_file_other by apply pdf_path_html_path.
      apply lookup_with_file.
    + exists pdf. apply lookup_with_file.
    + exists (String.concat "" (map text_of_store sfs)).
      rewrite (print_clearances_ok _ _ _ _ data w _ _ sfs G B). reflexivity.
  - split; [now apply print_clearances_raise|].
    now apply generate_outputs_raise_stdout in G.
Qed.


(** X6. The generators accept the same batches: the HTML content and the
    Markdown content of a batch are both made, or both fail with the same
    exception, whatever the clock. *)
Theorem generators_fail_alike (data : Batch) (t t' : datetime) :
  match html_content danish_tz str_of_number t data,
        markdown_content danish_tz str_of_number t' data with
  | Ok _, Ok _ => True
  | Raise e, Raise e' => e = e'
  | _, _ => False
  end.
Proof.
  rewrite html_content_eq, markdown_content_eq.
  now destruct (batch_texts danish_tz str_of_number data).
Qed.

(** X7. Stores are rendered one after the other, in the order of the
    batch: the content of a list of stores is the title followed by the
    sections of its stores, the sections of two lists put together being
    those of the first list followed by those of the second; the first
    store that fails decides the exception. *)
Theorem stores_render_in_order (t : datetime) (l1 l2 : list Store) :
  html_content danish_tz str_of_number t (StoreList (l1 ++ l2))
  = (a <- sections_of (html_store danish_tz str_of_number) l1 ;;
     b <- sections_of (html_store danish_tz str_of_number) l2 ;;
     Ok (html_header t ++ a ++ b)) /\
  markdown_content danish_tz str_of_number t (StoreList (l1 ++ l2))
  = (a <- sections_of (markdown_store danish_tz str_of_number) l1 ;;
     b <- sections_of (markdown_store danish_tz str_of_number) l2 ;;
     Ok (markdown_header t ++ a ++ b)) /\
  (forall l, html_content danish_tz str_of_number t (StoreList l)
             = (a <- sections_of (html_store danish_tz str_of_number) l ;;
                Ok (html_header t ++ a))) /\
  (forall l, markdown_content danish_tz str_of_number t (StoreList l)
             = (a <- sections_of (markdown_store danish_tz str_of_number) l ;;
                Ok (markdown_header t ++ a))).
Proof.
  assert (H : forall l, html_content danish_tz str_of_number t (StoreList l)
                        = (a <- sections_of (html_store danish_tz str_of_number) l ;;
                           Ok (html_header t ++ a))).
  { intros l. unfold html_content, sections_of. cbn [stores_of].
    now destruct (mapM (html_store danish_tz str_of_number) l). }
  assert (M : forall l, markdown_content danish_tz str_of_number t (StoreList l)
                        = (a <- sections_of (markdown_store danish_tz str_of_number) l ;;
                           Ok (markdown_header t ++ a))).
  { intros l. unfold markdown_content, sections_of. cbn [stores_of].
    now destruct (mapM (markdown_store danish_tz str_of_number) l). }
  split; [|split; [|split; [exact H | exact M]]].
  - rewrite H, sections_of_app.
    destruct (sections_of (html_store danish_tz str_of_number) l1); [|reflexivity].
    cbn [bind].
    now destruct (sections_of (html_store danish_tz str_of_number) l2).
  - rewrite M, sections_of_app.
    destruct (sections_of (markdown_store danish_tz str_of_number) l1); [|reflexivity].
    cbn [bind].
    now destruct (sections_of (markdown_store danish_tz str_of_number) l2).
Qed.

End MoreOutputs.

(** An instance of [generate_outputs_failure]: the conversion to PDF
    fails, and the HTML file stays behind without its PDF. *)
Lemma generate_outputs_failure_witness :
  generate_outputs central_european sample_str_of_number sample_render_template
    failing_write_pdf (OneStore sample_store) sample_world
  = (Raise PdfFailure, world_after_failed_pdf) /\
  map fst (files world_after_failed_pdf)
  = ["output/tilbud_20240531_0930.html"; "template.html"] /\
  stdout world_after_failed_pdf = "".
Proof.
  assert (G : generate_outputs central_european sample_str_of_number sample_render_template
                failing_write_pdf (OneStore sample_store) sample_world
              = (Raise PdfFailure, world_after_failed_pdf))
    by (vm_compute; reflexivity).
  destruct (generate_outputs_failure central_european sample_str_of_number
              sample_render_template failing_write_pdf (OneStore sample_store)
              sample_world world_after_failed_pdf PdfFailure G) as (_ & S & _).
  split; [exact G|]. split; [vm_compute; reflexivity | exact S].
Defined.

(** An instance of [generate_outputs_keeps_other_files]: a Markdown
    document written earlier is still there after the HTML and the PDF. *)
Lemma generate_outputs_keeps_other_files_witness :
  lookup_file "tilbud.md"
    (files (snd (run_generate_outputs (OneStore sample_store)
                   (with_file "tilbud.md" "# Tilbud" sample_world))))
  = Some "# Tilbud".
Proof.
  destruct (generate_outputs_keeps_other_files central_european sample_str_of_number
              sample_render_template sample_write_pdf (OneStore sample_store)
              (with_file "tilbud.md" "# Tilbud" sample_world)
              (snd (run_generate_outputs (OneStore sample_store)
                      (with_file "tilbud.md" "# Tilbud" sample_world)))
              (fst (run_generate_outputs (OneStore sample_store)
                      (with_file "tilbud.md" "# Tilbud" sample_world)))
              "tilbud.md") as [K _].
  - unfold run_generate_outputs.
    now destruct (generate_outputs central_european sample_str_of_number
                    sample_render_template sample_write_pdf (OneStore sample_store)
                    (with_file "tilbud.md" "# Tilbud" sample_world)).
  - discriminate.
  - discriminate.
  - rewrite K. reflexivity.
Defined.


(* ================================================================== *)
(** * More on the ranker and the unit formatter *)

Section MoreSorting.

Context {A : Type}.

Lemma sort_desc_sorted_id (d : list (Q * A)) :
  StronglySorted keys_descend d -> sort_desc d = d.
Proof.
  induction d as [|[k x] d IH]; intros S; [reflexivity|].
  inversion S as [|? ? S' F]; subst. cbn [sort_desc]. rewrite (IH S').
  destruct d as [|[k' y] d']; cbn [insert_desc]; [reflexivity|].
  inversion F as [|? ? L _]; subst. unfold keys_descend in L. cbn [fst] in L.
  apply Qle_bool_iff in L. now rewrite L.
Qed.

Variable key : A -> result Q.

Lemma keys_of_pairs (d : list (Q * A)) :
  Forall (fun p => key (snd p) = Ok (fst p)) d ->
  mapM key (map snd d) = Ok (map fst d) /\ combine (map fst d) (map snd d) = d.
Proof.
  induction 1 as [|[k x] d E F [M C]]; cbn [map mapM fst snd combine]; [now split|].
  cbn [fst snd] in E. rewrite E. cbn [bind]. rewrite M. cbn [bind].
  split; [reflexivity | now rewrite C].
Qed.

Lemma descending_pairs (l : list A) (ks : list Q) :
  Forall2 (fun a k => key a = Ok k) l ks ->
  descending key l -> StronglySorted keys_descend (combine ks l).
Proof.
  induction 1 as [|a k l ks E F IH]; intros D; cbn [combine]; [constructor|].
  inversion D as [|? ? D' R]; subst.
  constructor; [now apply IH|].
  clear IH D D'. induction F as [|b kb l ks Eb F IH]; cbn [combine]; [constructor|].
  inversion R as [|? ? Rb R']; subst.
  constructor; [|now apply IH].
  destruct Rb as (ka' & kb' & Ea & Eb' & L).
  unfold keys_descend. cbn [fst]. congruence.
Qed.

(** X8. [sorted(..., reverse=True)] leaves a list that is in descending
    order of keys as it is, and sorting twice is sorting once. *)
Theorem sorted_reverse_idempotent :
  (forall l ks, mapM key l = Ok ks -> descending key l -> sorted_reverse key l = Ok l) /\
  (forall l out, sorted_reverse key l = Ok out -> sorted_reverse key out = Ok out).
Proof.
  assert (K : forall l ks, mapM key l = Ok ks -> descending key l ->
                           sorted_reverse key l = Ok l).
  { intros l ks M D. unfold sorted_reverse. rewrite M. cbn [bind].
    apply mapM_ok in M. pose proof (descending_pairs l ks M D) as S.
    rewrite (sort_desc_sorted_id _ S). apply combine_keys in M as [M' _].
    now rewrite M'. }
  split; [exact K|].
  intros l out H. unfold sorted_reverse in H.
  destruct (mapM key l) as [ks|] eqn:M; [|discriminate]. cbn [bind] in H.
  injection H as <-.
  apply mapM_ok, combine_keys in M as [_ G].
  assert (G' : Forall (fun p => key (snd p) = Ok (fst p)) (sort_desc (combine ks l))).
  { eapply Permutation_Forall; [symmetry; apply sort_desc_perm | exact G]. }
  destruct (keys_of_pairs _ G') as [M' _].
  apply (K _ _ M'). apply sorted_map_snd; [exact G' | apply sort_desc_sorted].
Qed.

End MoreSorting.

(** An instance of [sorted_reverse_idempotent]: the clearances of the
    sample store, sorted and sorted again. *)
Lemma sorted_reverse_idempotent_witness :
  sorted_reverse get_sort_key [each_clearance; kg_clearance]
  = Ok [kg_clearance; each_clearance] /\
  sorted_reverse get_sort_key [kg_clearance; each_clearance]
  = Ok [kg_clearance; each_clearance].
Proof.
  assert (H : sorted_reverse get_sort_key [each_clearance; kg_clearance]
              = Ok [kg_clearance; each_clearance]) by (vm_compute; reflexivity).
  split; [exact H|].
  exact (proj2 (sorted_reverse_idempotent get_sort_key) _ _ H).
Defined.

Lemma str_lower_idempotent (s : string) : str_lower (str_lower s) = str_lower s.
Proof.
  induction s as [|c s IH]; [reflexivity|]. cbn [str_lower]. rewrite IH. f_equal.
  unfold lower_ascii.
  destruct ((65 <=? nat_of_ascii c)%nat && (nat_of_ascii c <=? 90)%nat) eqn:E.
  - apply andb_true_iff in E as [E1 E2].
    apply Nat.leb_le in E1, E2.
    rewrite nat_ascii_embedding by lia.
    replace ((65 <=? nat_of_ascii c + 32)%nat && (nat_of_ascii c + 32 <=? 90)%nat)
      with false; [reflexivity|].
    symmetry. apply andb_false_iff. right. apply Nat.leb_gt. lia.
  - now rewrite E.
Qed.

Lemma known_unit_resolved (unit : string) :
  known_unit unit -> resolved_unit unit = resolved_unit (str_lower unit).
Proof.
  unfold known_unit, resolved_unit. rewrite str_lower_idempotent.
  intros [H|[H|[H|[]]]]; rewrite <- H; reflexivity.
Qed.

Lemma unknown_unit_resolved (unit : string) :
  ~ known_unit unit -> resolved_unit unit = unit /\ String.eqb unit "kg" = false.
Proof.
  unfold known_unit, resolved_unit. cbn [In]. intros N.
  destruct (String.eqb_spec (str_lower unit) "each") as [E|_]; [exfalso; auto|].
  destruct (String.eqb_spec (str_lower unit) "kg") as [E|K]; [exfalso; auto|].
  destruct (String.eqb_spec (str_lower unit) "g") as [E|_]; [exfalso; auto|].
  split; [reflexivity|]. apply String.eqb_neq. intros ->. now apply K.
Qed.

(** X9. The unit codes of the table are read in any case: two spellings
    of a code of the table give the same text, for a number and for anything
    else; a code that is not in the table is printed as it is spelled, after
    the integer part of the number. *)
Theorem format_stock_any_case (stock : stock_value) (q : Q) (unit unit' : string) :
  (known_unit unit -> str_lower unit' = str_lower unit ->
   format_stock stock unit' = format_stock stock unit) /\
  (~ known_unit unit ->
   format_stock (Number q) unit = Z_to_string (py_int q) ++ " " ++ unit).
Proof.
  split.
  - intros K E.
    assert (K' : known_unit unit') by (unfold known_unit in *; now rewrite E).
    unfold format_stock. rewrite !dict_get_resolved.
    rewrite (known_unit_resolved unit K), (known_unit_resolved unit' K'), E.
    reflexivity.
  - intros N. destruct (unknown_unit_resolved unit N) as [R K].
    unfold format_stock. rewrite str_lower_resolved_kg, dict_get_resolved, R, K.
    reflexivity.
Qed.

(** An instance of [format_stock_any_case]: kilograms in capitals, and
    litres, which the table does not know. *)
Lemma format_stock_any_case_witness :
  format_stock (Number (5 # 2)) "KG" = format_stock (Number (5 # 2)) "kg" /\
  format_stock (Number (5 # 2)) "kg" = "2.50 kg" /\
  format_stock (Number (5 # 2)) "L" = "2 L".
Proof.
  destruct (format_stock_any_case (Number (5 # 2)) (5 # 2) "kg" "KG") as [K _].
  destruct (format_stock_any_case (Number (5 # 2)) (5 # 2) "L" "L") as [_ U].
  split; [|split].
  - apply K; [right; left; reflexivity | reflexivity].
  - reflexivity.
  - rewrite U; [reflexivity|].
    intros [H|[H|[H|[]]]]; discriminate.
Defined.

(* ================================================================== *)
(** * The shape of the timestamps that are read *)

Lemma consumes_app {V : Type} (lo hi : nat) (p q : string -> list (V * string)) :
  consumes lo hi p -> consumes lo hi q -> consumes lo hi (fun s => p s ++ q s)%list.
Proof.
  intros P Q s v r H. apply in_app_or in H as [H|H]; [now apply P in H | now apply Q in H].
Qed.

Lemma consumes_weaken {V : Type} (lo hi lo' hi' : nat) (p : string -> list (V * string)) :
  (lo' <= lo)%nat -> (hi <= hi')%nat -> consumes lo hi p -> consumes lo' hi' p.
Proof.
  intros L H P s v r I. destruct (P s v r I) as (pre & E & B). exists pre. split; [exact E | lia].
Qed.

Lemma two_chars_consumes (lo1 hi1 lo2 hi2 : ascii) :
  consumes 2 2 (two_chars lo1 hi1 lo2 hi2).
Proof.
  intros s v r. unfold two_chars. destruct s as [|a [|b s]]; try contradiction.
  destruct (in_range lo1 hi1 a && in_range lo2 hi2 b); [|contradiction].
  intros [E|[]]. apply (f_equal snd) in E. cbn [snd] in E. subst r.
  exists (String a (String b "")). split; [reflexivity | cbn; lia].
Qed.

Lemma one_char_consumes (lo hi : ascii) : consumes 1 1 (one_char lo hi).
Proof.
  intros s v r. unfold one_char. destruct s as [|a s]; [contradiction|].
  destruct (in_range lo hi a); [|contradiction].
  intros [E|[]]. apply (f_equal snd) in E. cbn [snd] in E. subst r.
  exists (String a ""). split; [reflexivity | cbn; lia].
Qed.

Lemma space_char_consumes (lo hi : ascii) : consumes 2 2 (space_char lo hi).
Proof.
  intros s v r. unfold space_char. destruct s as [|a s]; [contradiction|].
  destruct (Ascii.eqb a " "); [|contradiction].
  intros H. apply one_char_consumes in H as (pre & -> & B).
  exists (String a pre). split; [reflexivity | cbn [length]; lia].
Qed.

Lemma re_Y_consumes : consumes 4 4 re_Y.
Proof.
  intros s v r. unfold re_Y. destruct s as [|a [|b [|c [|d s]]]]; try contradiction.
  destruct (is_digit a && is_digit b && is_digit c && is_digit d); [|contradiction].
  intros [E|[]]. apply (f_equal snd) in E. cbn [snd] in E. subst r.
  exists (String a (String b (String c (String d "")))). split; [reflexivity | cbn; lia].
Qed.

Ltac field_consumes :=
  repeat apply consumes_app;
  (eapply consumes_weaken; [| |apply two_chars_consumes]; lia)
  || (eapply consumes_weaken; [| |apply one_char_consumes]; lia)
  || (eapply consumes_weaken; [| |apply space_char_consumes]; lia).

Lemma re_m_consumes : consumes 1 2 re_m.
Proof. unfold re_m. field_consumes. Qed.

Lemma re_d_consumes : consumes 1 2 re_d.
Proof. unfold re_d. field_consumes. Qed.

Lemma re_H_consumes : consumes 1 2 re_H.
Proof. unfold re_H. field_consumes. Qed.

Lemma re_M_consumes : consumes 1 2 re_M.
Proof. unfold re_M. field_consumes. Qed.

Lemma re_S_consumes : consumes 1 2 re_S.
Proof. unfold re_S. field_consumes. Qed.

Lemma re_f_consumes : consumes 1 6 re_f.
Proof.
  intros s v r. unfold re_f. intros H. apply in_map_iff in H as [[p r'] [E H]].
  cbn [fst snd] in E. apply (f_equal snd) in E. cbn [snd] in E. subst r'.
  apply digit_prefixes_sound in H as (-> & _ & L). now exists p.
Qed.

Lemma lit_consumes (c : ascii) : consumes 1 1 (lit c).
Proof.
  intros s v r. unfold lit. destruct s as [|a s]; [contradiction|].
  destruct (Ascii.eqb a c); [|contradiction].
  intros [E|[]]. apply (f_equal snd) in E. cbn [snd] in E. subst r.
  exists (String a ""). split; [reflexivity | cbn; lia].
Qed.

Lemma lit_nocase_last (c : ascii) (s : string) (v : unit) (r : string) :
  In (v, r) (lit_nocase c s) ->
  exists a, s = String a r /\ lower_ascii a = lower_ascii c.
Proof.
  unfold lit_nocase. destruct s as [|a s]; [contradiction|].
  destruct (Ascii.eqb_spec (lower_ascii a) (lower_ascii c)) as [L|_]; [|contradiction].
  intros [E|[]]. apply (f_equal snd) in E. cbn [snd] in E. subst r. now exists a.
Qed.

Lemma lit_nocase_consumes (c : ascii) : consumes 1 1 (lit_nocase c).
Proof.
  intros s v r H. apply lit_nocase_last in H as (a & -> & _).
  exists (String a ""). split; [reflexivity | cbn; lia].
Qed.

Lemma ends_in_append (z : ascii) (p s : string) : ends_in z s -> ends_in z (p ++ s).
Proof. intros [body ->]. exists (p ++ body). now rewrite append_assoc. Qed.

(** What the expression of the format matches: 17 to 27 characters, the
    last of them a [Z] in either case. *)
Lemma format_matches_shape (s : string) (dt : datetime) (rest : string) :
  In (dt, rest) (format_matches s) ->
  exists pre z, s = pre ++ String z rest /\ lower_ascii z = "z"%char /\
                (16 <= length pre <= 26)%nat.
Proof.
  unfold format_matches. intros H.
  apply in_then in H as (Y & s1 & HY & H). apply in_then in H as (? & s2 & L1 & H).
  apply in_then in H as (m & s3 & Hm & H). apply in_then in H as (? & s4 & L2 & H).
  apply in_then in H as (d & s5 & Hd & H). apply in_then in H as (? & s6 & L3 & H).
  apply in_then in H as (h & s7 & Hh & H). apply in_then in H as (? & s8 & L4 & H).
  apply in_then in H as (mi & s9 & Hmi & H). apply in_then in H as (? & s10 & L5 & H).
  apply in_then in H as (se & s11 & Hse & H). apply in_then in H as (? & s12 & L6 & H).
  apply in_then in H as (f & s13 & Hf & H). apply in_then in H as (? & s14 & L7 & H).
  destruct H as [E|[]]. apply (f_equal snd) in E. cbn [snd] in E. subst s14.
  apply re_Y_consumes in HY as (p1 & -> & B1). apply lit_consumes in L1 as (q1 & -> & C1).
  apply re_m_consumes in Hm as (p2 & -> & B2). apply lit_consumes in L2 as (q2 & -> & C2).
  apply re_d_consumes in Hd as (p3 & -> & B3).
  apply lit_nocase_consumes in L3 as (q3 & -> & C3).
  apply re_H_consumes in Hh as (p4 & -> & B4). apply lit_consumes in L4 as (q4 & -> & C4).
  apply re_M_consumes in Hmi as (p5 & -> & B5). apply lit_consumes in L5 as (q5 & -> & C5).
  apply re_S_consumes in Hse as (p6 & -> & B6). apply lit_consumes in L6 as (q6 & -> & C6).
  apply re_f_consumes in Hf as (p7 & -> & B7).
  apply lit_nocase_last in L7 as (z & -> & Z).
  exists (p1 ++ q1 ++ p2 ++ q2 ++ p3 ++ q3 ++ p4 ++ q4 ++ p5 ++ q5 ++ p6 ++ q6 ++ p7), z.
  split; [now rewrite !append_assoc|]. split; [exact Z|].
  rewrite !length_append. lia.
Qed.



Example format_datetime_refuses_other_shapes :
  format_datetime central_european "2024-06-01T10:00:00+02:00"
  = Raise (ValueError "time data does not match format") /\
  format_datetime central_european "2024-06-01T10:00:00Z"
  = Raise (ValueError "time data does not match format") /\
  format_datetime central_european "2024-06-01T10:00:00.000000"
  = Raise (ValueError "time data does not match format").
Proof. split; [vm_compute; reflexivity|]. split; vm_compute; reflexivity. Qed.

(* ================================================================== *)
(** * The ranker against the formatter, and what the generators raise *)



Section Exceptions.

Variable danish_tz : Z -> Z.
Variable str_of_number : Q -> string.
Variable render_template : string -> string -> result string.
Variable write_pdf : string -> result string.

(** What the content of a batch raises: the [KeyError] of an absent key,
    or what [format_datetime] raises on a timestamp. *)
Lemma batch_texts_exceptions (data : Batch) (e : exn) :
  batch_texts danish_tz str_of_number data = Raise e ->
  is_KeyError e = true \/ (exists msg, e = ValueError msg) \/ e = OverflowError.
Proof.
  intros H. apply batch_texts_raise in H as [H|(c & o & ts & _ & _ & _ & F)];
    [now left | right].
  rewrite format_datetime_eq in F.
  destruct (strptime ts) as [dt|e'] eqn:P.
  - destruct (_ || _)%bool; [|discriminate]. injection F as <-. now right.
  - injection F as <-. left. now apply strptime_error with (s := ts).
Qed.


(** X13. A search without results still makes the outputs: on an empty
    list of stores the page has the title alone, the two files are written,
    and [print_clearances] prints their paths and nothing else; the
    Markdown document has the title alone. *)
Theorem empty_batch_outputs (w : world) (template page pdf : string) :
  lookup_file "template.html" (files w) = Some template ->
  render_template template (html_header (clock w)) = Ok page ->
  write_pdf page = Ok pdf ->
  let t := clock w in
  let w2 := with_file (pdf_path t) pdf (with_file (html_path t) page (with_output_dirs w)) in
  html_content danish_tz str_of_number t (StoreList []) = Ok (html_header t) /\
  generate_outputs danish_tz str_of_number render_template write_pdf (StoreList []) w
  = (Ok (html_path t, pdf_path t), w2) /\
  print_clearances danish_tz str_of_number render_template write_pdf (StoreList []) w
  = (Ok tt, with_stdout w2 (stdout w ++ text_listing t)) /\
  export_to_markdown danish_tz str_of_number (StoreList []) None w
  = (Ok (markdown_path t), with_file (markdown_path t) (markdown_header t) w).
Proof.
  intros T R P. cbv zeta.
  assert (C : html_content danish_tz str_of_number (clock w) (StoreList [])
              = Ok (html_header (clock w))).
  { unfold html_content. cbn [stores_of mapM bind String.concat].
    now rewrite append_nil_r. }
  assert (G : generate_outputs danish_tz str_of_number render_template write_pdf
                (StoreList []) w
              = (Ok (html_path (clock w), pdf_path (clock w)),
                 with_file (pdf_path (clock w)) pdf
                   (with_file (html_path (clock w)) page (with_output_dirs w)))).
  { rewrite generate_outputs_eq. cbv zeta. rewrite C, T, R, P. reflexivity. }
  split; [exact C|]. split; [exact G|]. split.
  - rewrite (print_clearances_ok _ _ _ _ (StoreList []) w _ _ [] G eq_refl).
    cbn [map String.concat]. now rewrite append_nil_r.
  - rewrite export_to_markdown_eq. unfold markdown_content.
    cbn [stores_of mapM bind String.concat]. now rewrite append_nil_r.
Qed.

End Exceptions.


(** An instance of [empty_batch_outputs]. *)
Lemma empty_batch_outputs_witness :
  run_print_clearances (StoreList []) sample_world
  = (Ok tt,
     with_stdout (snd (run_generate_outputs (StoreList []) sample_world))
       (text_listing (clock sample_world))) /\
  map fst (files (snd (run_print_clearances (StoreList []) sample_world)))
  = ["output/tilbud_20240531_0930.pdf"; "output/tilbud_20240531_0930.html";
     "template.html"].
Proof.
  destruct (empty_batch_outputs central_european sample_str_of_number
              sample_render_template sample_write_pdf sample_world
              "<html><body>{{ content }}</body></html>"
              ("<html><body>" ++ html_header (clock sample_world) ++ "</body></html>")
              ("%PDF-1.7 " ++ "<html><body>" ++ html_header (clock sample_world)
                           ++ "</body></html>"))
    as (_ & G & P & _).
  - reflexivity.
  - vm_compute. reflexivity.
  - vm_compute. reflexivity.
  - unfold run_print_clearances, run_generate_outputs. rewrite P, G. cbn [snd].
    split; [reflexivity | vm_compute; reflexivity].
Defined.

(* ================================================================== *)
(** * The client of the API and the menu *)

Lemma cli_bind_returned {A B : Type} (m : cli A) (k : A -> cli B)
      (s s' : session) (b : B) :
  cli_bind m k s = (Returned b, s') ->
  exists a s1, m s = (Returned a, s1) /\ k a s1 = (Returned b, s').
Proof.
  unfold cli_bind. destruct (m s) as [[a|r] s1]; [eauto | discriminate].
Qed.

Lemma cli_bind_raised {A B : Type} (m : cli A) (k : A -> cli B)
      (s s' : session) (r : raised) :
  cli_bind m k s = (Raised r, s') ->
  m s = (Raised r, s') \/ exists a s1, m s = (Returned a, s1) /\ k a s1 = (Raised r, s').
Proof.
  unfold cli_bind. destruct (m s) as [[a|r'] s1]; [eauto | intros [= <- <-]; now left].
Qed.

Lemma try_except_raised {A : Type} (body : cli A) (caught : raised -> bool)
      (handler : raised -> cli A) (s s' : session) (r : raised) :
  try_except body caught handler s = (Raised r, s') ->
  (body s = (Raised r, s') /\ caught r = false) \/
  exists r0 s1, body s = (Raised r0, s1) /\ caught r0 = true /\
                handler r0 s1 = (Raised r, s').
Proof.
  unfold try_except. destruct (body s) as [[a|r0] s1]; [discriminate|].
  destruct (caught r0) eqn:C; [eauto 6|].
  intros [= <- <-]. now left.
Qed.

(** ** What holds from a session to the next *)

Section Steps.

Variable R : session -> session -> Prop.
Hypothesis R_refl : forall s, R s s.
Hypothesis R_trans : forall a b c, R a b -> R b c -> R a c.

Lemma leads_ret {A : Type} (a : A) : leads R (cli_ret a).
Proof. intros s. apply R_refl. Qed.

Lemma leads_of_outcome {A : Type} (o : outcome A) : leads R (of_outcome o).
Proof. intros s. apply R_refl. Qed.

Lemma leads_bind {A B : Type} (m : cli A) (k : A -> cli B) :
  leads R m -> (forall a, leads R (k a)) -> leads R (cli_bind m k).
Proof.
  intros M K s. specialize (M s). unfold cli_bind.
  destruct (m s) as [[a|r] s1]; cbn [snd] in *; [|exact M].
  apply R_trans with s1; [exact M | apply K].
Qed.

Lemma leads_try_except {A : Type} (body : cli A) (caught : raised -> bool)
      (handler : raised -> cli A) :
  leads R body -> (forall r, leads R (handler r)) -> leads R (try_except body caught handler).
Proof.
  intros M K s. specialize (M s). unfold try_except.
  destruct (body s) as [[a|r] s1]; cbn [snd] in *; [exact M|].
  destruct (caught r); [|exact M].
  apply R_trans with s1; [exact M | apply K].
Qed.

Lemma leads_lift {A : Type} (r : result A) : leads R (run_io (lift r)).
Proof.
  intros [w i c]. unfold run_io, lift. cbn [os stdin calls].
  destruct r; apply R_refl.
Qed.

Lemma leads_while_true (body : cli bool) (fuel : nat) (s s' : session)
      (o : outcome unit) :
  leads R body -> while_true fuel body s = Some (o, s') -> R s s'.
Proof.
  intros B. revert s. induction fuel as [|fuel IH]; intros s; [discriminate|].
  cbn [while_true]. specialize (B s).
  destruct (body s) as [[[|]|r] s1]; cbn [snd] in B.
  - intros H. apply R_trans with s1; [exact B | now apply IH].
  - now intros [= <- <-].
  - now intros [= <- <-].
Qed.

(** The round in which a loop raises. *)
Lemma while_true_raised_round (body : cli bool) (fuel : nat) (s s' : session)
      (r : raised) :
  leads R body -> while_true fuel body s = Some (Raised r, s') ->
  exists s0, R s s0 /\ body s0 = (Raised r, s').
Proof.
  intros B. revert s. induction fuel as [|fuel IH]; intros s; [discriminate|].
  cbn [while_true]. pose proof (B s) as Bs.
  destruct (body s) as [[[|]|r0] s1] eqn:E; cbn [snd] in Bs.
  - intros H. apply IH in H as (s0 & H0 & H).
    exists s0. split; [now apply R_trans with s1 | exact H].
  - discriminate.
  - intros [= <- <-]. exists s. split; [apply R_refl | exact E].
Qed.

End Steps.

Section ClientSteps.

Variable danish_tz : Z -> Z.
Variable str_of_number : Q -> string.
Variable render_template : string -> string -> result string.
Variable write_pdf : string -> result string.
Variable http_get : list request -> request -> reply.
Variable float : Type.
Variable float_of_string : string -> result float.
Variable str_of_float : float -> string.
Variable int_of_string : string -> result Z.
Variable str_of_exn : exn -> string.

Variable R : session -> session -> Prop.
Hypothesis R_refl : forall s, R s s.
Hypothesis R_trans : forall a b c, R a b -> R b c -> R a c.
Hypothesis R_print : forall line, leads R (run_io (print line)).
Hypothesis R_input : forall prompt, leads R (input prompt).
Hypothesis R_show :
  forall data,
    leads R (run_io (print_clearances danish_tz str_of_number render_template write_pdf
                       data)).
Variable api : FoodWasteAPI.
Hypothesis R_get : forall r, client_call api r -> leads R (requests_get http_get r).

Lemma leads_make_request (params : list (string * param_value)) :
  client_call api {| req_url := BASE_URL; req_headers := headers api;
                     req_params := params |} ->
  leads R (_make_request http_get api params).
Proof.
  intros C. unfold _make_request.
  apply leads_bind; [exact R_trans | now apply R_get |]. intros resp.
  apply leads_bind; [exact R_trans | now apply leads_of_outcome |]. intros _.
  now apply leads_of_outcome.
Qed.

Lemma leads_search_by_zip (zip_code : string) :
  leads R (search_by_zip http_get api zip_code).
Proof.
  unfold search_by_zip. apply leads_make_request.
  split; [reflexivity|]. left. split; [reflexivity|]. now exists zip_code.
Qed.

Lemma leads_search_by_coordinates (latitude longitude : float) (radius : Z) :
  leads R (search_by_coordinates http_get float str_of_float api latitude longitude radius).
Proof.
  unfold search_by_coordinates. apply leads_make_request.
  split; [reflexivity|]. right. left. split; [reflexivity|].
  do 2 eexists. reflexivity.
Qed.

Lemma leads_get_store_clearances (store_id : string) :
  leads R (get_store_clearances http_get api store_id).
Proof.
  unfold get_store_clearances.
  apply leads_bind; [exact R_trans | |].
  - apply R_get. split; [reflexivity|]. right. right. split; [|reflexivity].
    now exists store_id.
  - intros resp.
    apply leads_bind; [exact R_trans | now apply leads_of_outcome |]. intros _.
    now apply leads_of_outcome.
Qed.

Lemma leads_report (e : raised) : leads R (report str_of_exn e).
Proof. unfold report, say. apply R_print. Qed.

Lemma leads_by_zip :
  leads R (by_zip danish_tz str_of_number render_template write_pdf http_get str_of_exn api).
Proof.
  unfold by_zip. apply leads_bind; [exact R_trans | apply R_input |]. intros zip_code.
  apply leads_try_except; [exact R_trans | | apply leads_report].
  apply leads_bind; [exact R_trans | apply leads_search_by_zip |]. intros results.
  apply R_show.
Qed.

Lemma leads_by_store :
  leads R (by_store danish_tz str_of_number render_template write_pdf http_get
             str_of_exn api).
Proof.
  unfold by_store. apply leads_bind; [exact R_trans | apply R_input |]. intros store_id.
  apply leads_try_except; [exact R_trans | | apply leads_report].
  apply leads_bind; [exact R_trans | apply leads_get_store_clearances |]. intros results.
  apply R_show.
Qed.

Lemma leads_by_coordinates :
  leads R (by_coordinates danish_tz str_of_number render_template write_pdf http_get
             float float_of_string str_of_float int_of_string str_of_exn api).
Proof.
  unfold by_coordinates.
  apply leads_try_except; [exact R_trans | | apply leads_report].
  apply leads_bind; [exact R_trans | apply R_input |]. intros lat_.
  apply leads_bind; [exact R_trans | now apply leads_lift |]. intros lat.
  apply leads_bind; [exact R_trans | apply R_input |]. intros lon_.
  apply leads_bind; [exact R_trans | now apply leads_lift |]. intros lon.
  apply leads_bind; [exact R_trans | apply R_input |]. intros radius_.
  apply leads_bind; [exact R_trans | now apply leads_lift |]. intros radius.
  apply leads_bind; [exact R_trans | apply leads_search_by_coordinates |]. intros results.
  apply R_show.
Qed.

Lemma leads_menu_round :
  leads R (menu_round danish_tz str_of_number render_template write_pdf http_get
             float float_of_string str_of_float int_of_string str_of_exn api).
Proof.
  unfold menu_round, say.
  do 5 (apply leads_bind; [exact R_trans | apply R_print |]; intros _).
  apply leads_bind; [exact R_trans | apply R_input |]. intros choice.
  destruct (String.eqb choice "1");
    [apply leads_bind; [exact R_trans | apply leads_by_zip |]; intros _;
     now apply leads_ret|].
  destruct (String.eqb choice "2");
    [apply leads_bind; [exact R_trans | apply leads_by_coordinates |]; intros _;
     now apply leads_ret|].
  destruct (String.eqb choice "3");
    [apply leads_bind; [exact R_trans | apply leads_by_store |]; intros _;
     now apply leads_ret|].
  destruct (String.eqb choice "4"); [now apply leads_ret|].
  apply leads_bind; [exact R_trans | apply R_print |]. intros _. now apply leads_ret.
Qed.

End ClientSteps.

(** ** What the generators change in the world *)

Lemma output_paths_prefix (t : datetime) :
  prefix "output/tilbud_" (html_path t) = true /\
  prefix "output/tilbud_" (pdf_path t) = true.
Proof. split; apply prefix_append. Qed.

Lemma with_output_dirs_dirs (w : world) (d : string) :
  In d (dirs (with_output_dirs w)) ->
  In d (dirs w) \/ d = "output" \/ d = "output/images".
Proof.
  unfold with_output_dirs, mkdir. cbn [snd dirs].
  destruct (existsb (String.eqb "output/images") _);
    destruct (existsb (String.eqb "output") (dirs w)); cbn [In]; intuition auto.
Qed.

Section Worlds.

Variable danish_tz : Z -> Z.
Variable str_of_number : Q -> string.
Variable render_template : string -> string -> result string.
Variable write_pdf : string -> result string.

Lemma generate_outputs_world (data : Batch) (w : world) :
  let w' := snd (generate_outputs danish_tz str_of_number render_template write_pdf
                   data w) in
  (forall path, path <> html_path (clock w) -> path <> pdf_path (clock w) ->
                lookup_file path (files w') = lookup_file path (files w)) /\
  stdout w' = stdout w /\ dirs w' = dirs (with_output_dirs w) /\ clock w' = clock w.
Proof.
  cbv zeta. rewrite generate_outputs_eq. cbv zeta.
  destruct (html_content danish_tz str_of_number (clock w) data) as [content|];
    [|now repeat split].
  destruct (lookup_file "template.html" (files w)) as [template|]; [|now repeat split].
  destruct (render_template template content) as [page|]; [|now repeat split].
  destruct (write_pdf page); cbn [snd];
    (split; [|now repeat split]); intros path Nh Np;
    rewrite !lookup_with_file_other by congruence; reflexivity.
Qed.

Lemma print_clearances_world (data : Batch) (w : world) :
  let w' := snd (print_clearances danish_tz str_of_number render_template write_pdf
                   data w) in
  (forall path, path <> html_path (clock w) -> path <> pdf_path (clock w) ->
                lookup_file path (files w') = lookup_file path (files w)) /\
  (exists printed, stdout w' = stdout w ++ printed) /\
  dirs w' = dirs (with_output_dirs w) /\ clock w' = clock w.
Proof.
  cbv zeta.
  pose proof (generate_outputs_world data w) as G. cbv zeta in G.
  destruct (generate_outputs danish_tz str_of_number render_template write_pdf data w)
    as [[paths|e] w1] eqn:E; cbn [snd] in G; destruct G as (F & S & D & C).
  - assert (B : exists sfs, batch_texts danish_tz str_of_number data = Ok sfs).
    { rewrite generate_outputs_eq in E. cbv zeta in E.
      rewrite html_content_eq in E.
      destruct (batch_texts danish_tz str_of_number data) as [sfs|]; [eauto|discriminate]. }
    destruct B as [sfs B].
    rewrite (print_clearances_ok _ _ _ _ data w w1 paths sfs E B). cbn [snd].
    unfold with_stdout. cbn [files stdout dirs clock].
    split; [exact F|]. split; [|now split].
    rewrite S. eauto.
  - rewrite (print_clearances_raise _ _ _ _ data w w1 e E). cbn [snd].
    split; [exact F|]. split; [|now split].
    exists "". now rewrite append_nil_r.
Qed.

End Worlds.

(** ** The menu goes forward *)

Section Progress.

Variable danish_tz : Z -> Z.
Variable str_of_number : Q -> string.
Variable render_template : string -> string -> result string.
Variable write_pdf : string -> result string.
Variable http_get : list request -> request -> reply.
Variable float : Type.
Variable float_of_string : string -> result float.
Variable str_of_float : float -> string.
Variable int_of_string : string -> result Z.
Variable str_of_exn : exn -> string.
Variable api : FoodWasteAPI.

Lemma progress_refl (s : session) : progress api s s.
Proof.
  split; [now exists []|]. split; [exists []; now rewrite app_nil_r|].
  split; [exists ""; now rewrite append_nil_r|]. split; [reflexivity | auto].
Qed.

Lemma progress_trans (a b c : session) :
  progress api a b -> progress api b c -> progress api a c.
Proof.
  intros ([r1 L1] & (m1 & C1 & F1) & [p1 P1] & K1 & D1)
         ([r2 L2] & (m2 & C2 & F2) & [p2 P2] & K2 & D2).
  split; [exists (r1 ++ r2)%list; now rewrite L1, L2, app_assoc|].
  split; [exists (m1 ++ m2)%list; split;
          [now rewrite C2, C1, app_assoc | now apply Forall_app]|].
  split; [exists (p1 ++ p2); now rewrite P2, P1, append_assoc|].
  split; [intros path N; now rewrite K2, K1|].
  intros d I. apply D2 in I as [I|I]; [now apply D1 | now right].
Qed.

Lemma progress_print (line : string) : leads (progress api) (run_io (print line)).
Proof.
  intros [w i c]. unfold run_io, print, progress. cbn [os stdin calls snd].
  split; [now exists []|]. split; [exists []; now rewrite app_nil_r|].
  cbn [os stdout files dirs].
  split; [now exists (line ++ nl)|]. split; [reflexivity | auto].
Qed.

Lemma progress_input (prompt : string) : leads (progress api) (input prompt).
Proof.
  intros [w i c]. unfold input, progress. cbn [os stdin calls].
  destruct i as [|[t line] rest]; cbn [snd os stdin calls at_time with_stdout
                                        stdout files dirs].
  - split; [now exists []|]. split; [exists []; now rewrite app_nil_r|].
    split; [now exists prompt|]. split; [reflexivity | auto].
  - split; [now exists [(t, line)]|]. split; [exists []; now rewrite app_nil_r|].
    split; [now exists prompt|]. split; [reflexivity | auto].
Qed.

Lemma progress_show (data : Batch) :
  leads (progress api)
        (run_io (print_clearances danish_tz str_of_number render_template write_pdf data)).
Proof.
  intros [w i c]. unfold run_io. cbn [os stdin calls].
  pose proof (print_clearances_world danish_tz str_of_number render_template write_pdf
                data w) as P. cbv zeta in P.
  destruct (print_clearances danish_tz str_of_number render_template write_pdf data w)
    as [[[]|e] w']; unfold progress; cbn [snd os stdin calls] in *;
    destruct P as (F & S & D & _);
    (split; [now exists []|]); (split; [exists []; now rewrite app_nil_r|]);
    (split; [exact S|]);
    (split; [|intros d I; rewrite D in I; now apply with_output_dirs_dirs]);
    intros path N; destruct (output_paths_prefix (clock w)) as [Ph Pp];
    apply F; intros ->; congruence.
Qed.

Lemma progress_get (r : request) :
  client_call api r -> leads (progress api) (requests_get http_get r).
Proof.
  intros C [w i c]. unfold requests_get, progress.
  cbn [os stdin calls snd at_time stdout files dirs].
  split; [now exists []|]. split; [exists [r]; split; [reflexivity | now constructor]|].
  split; [exists ""; now rewrite append_nil_r|]. split; [reflexivity | auto].
Qed.

Lemma progress_menu_round :
  leads (progress api)
        (menu_round danish_tz str_of_number render_template write_pdf http_get
           float float_of_string str_of_float int_of_string str_of_exn api).
Proof.
  apply leads_menu_round.
  - apply progress_refl.
  - apply progress_trans.
  - apply progress_print.
  - apply progress_input.
  - apply progress_show.
  - apply progress_get.
Qed.

End Progress.

(** ** A round of the menu *)

Lemma input_raised (prompt : string) (s s' : session) (r : raised) :
  input prompt s = (Raised r, s') -> r = EOFError.
Proof.
  unfold input. destruct (stdin s) as [|[t line] rest]; [|discriminate].
  now intros [= <- _].
Qed.

Lemma print_not_raised (line : string) (s s' : session) (r : raised) :
  run_io (print line) s = (Raised r, s') -> False.
Proof. unfold run_io, print. discriminate. Qed.

Section Rounds.

Variable danish_tz : Z -> Z.
Variable str_of_number : Q -> string.
Variable render_template : string -> string -> result string.
Variable write_pdf : string -> result string.
Variable http_get : list request -> request -> reply.
Variable float : Type.
Variable float_of_string : string -> result float.
Variable str_of_float : float -> string.
Variable int_of_string : string -> result Z.
Variable str_of_exn : exn -> string.
Variable api : FoodWasteAPI.

(** A round of the menu, once the menu is printed and the choice is read. *)
Lemma menu_round_eq (s : session) :
  menu_round danish_tz str_of_number render_template write_pdf http_get
    float float_of_string str_of_float int_of_string str_of_exn api s =
  match stdin s with
  | [] =>
      (Raised EOFError,
       {| os := with_stdout (os s) (stdout (os s) ++ menu_text);
          stdin := []; calls := calls s |})
  | (t, choice) :: rest =>
      if String.eqb choice "1"
      then (_ <<= by_zip danish_tz str_of_number render_template write_pdf http_get
                    str_of_exn api ;; cli_ret true) (chosen s t rest)
      else if String.eqb choice "2"
      then (_ <<= by_coordinates danish_tz str_of_number render_template write_pdf
                    http_get float float_of_string str_of_float int_of_string
                    str_of_exn api ;; cli_ret true) (chosen s t rest)
      else if String.eqb choice "3"
      then (_ <<= by_store danish_tz str_of_number render_template write_pdf http_get
                    str_of_exn api ;; cli_ret true) (chosen s t rest)
      else if String.eqb choice "4" then (Returned false, chosen s t rest)
      else (_ <<= say "Invalid choice. Please try again." ;; cli_ret true)
             (chosen s t rest)
  end.
Proof.
  destruct s as [w i c]. unfold menu_round, say, chosen.
  unfold cli_bind at 1 2 3 4 5 6. unfold run_io at 1 2 3 4 5. unfold print at 1 2 3 4 5.
  unfold input. cbn [os stdin calls stdout clock dirs files with_stdout at_time].
  assert (E : ((((((stdout w ++ (nl ++ "Food Waste Search Options:") ++ nl)
                   ++ "1. Search by ZIP code" ++ nl)
                  ++ "2. Search by coordinates" ++ nl)
                 ++ "3. Search by store ID" ++ nl)
                ++ "4. Exit" ++ nl)
               ++ nl ++ "Enter your choice (1-4): ")
              = stdout w ++ menu_text).
  { unfold menu_text. string_norm. reflexivity. }
  rewrite E. destruct i as [|[t choice] rest]; [reflexivity|].
  destruct (String.eqb choice "1"); [reflexivity|].
  destruct (String.eqb choice "2"); [reflexivity|].
  destruct (String.eqb choice "3"); [reflexivity|].
  destruct (String.eqb choice "4"); reflexivity.
Qed.

Lemma report_returns (e : raised) (s : session) :
  exists s', report str_of_exn e s = (Returned tt, s').
Proof. unfold report, say, run_io, print. eauto. Qed.

(** What a search raises, once its lines are read, is what its [except]
    clause does not catch. *)
Lemma by_zip_raised (s s' : session) (r : raised) :
  by_zip danish_tz str_of_number render_template write_pdf http_get str_of_exn api s
  = (Raised r, s') ->
  is_RequestException r = false.
Proof.
  unfold by_zip. intros H.
  apply cli_bind_raised in H as [H|(zip_code & s1 & _ & H)];
    [now apply input_raised in H as ->|].
  apply try_except_raised in H as [[_ C]|(r0 & s2 & _ & _ & H)]; [exact C|].
  destruct (report_returns r0 s2) as [s3 E]. congruence.
Qed.

Lemma by_store_raised (s s' : session) (r : raised) :
  by_store danish_tz str_of_number render_template write_pdf http_get str_of_exn api s
  = (Raised r, s') ->
  is_RequestException r = false.
Proof.
  unfold by_store. intros H.
  apply cli_bind_raised in H as [H|(store_id & s1 & _ & H)];
    [now apply input_raised in H as ->|].
  apply try_except_raised in H as [[_ C]|(r0 & s2 & _ & _ & H)]; [exact C|].
  destruct (report_returns r0 s2) as [s3 E]. congruence.
Qed.

Lemma by_coordinates_raised (s s' : session) (r : raised) :
  by_coordinates danish_tz str_of_number render_template write_pdf http_get
    float float_of_string str_of_float int_of_string str_of_exn api s
  = (Raised r, s') ->
  is_ValueError_or_RequestException r = false.
Proof.
  unfold by_coordinates. intros H.
  apply try_except_raised in H as [[_ C]|(r0 & s2 & _ & _ & H)]; [exact C|].
  destruct (report_returns r0 s2) as [s3 E]. congruence.
Qed.

Lemma caught_either (r : raised) :
  is_ValueError_or_RequestException r = false ->
  is_RequestException r = false /\ forall msg, r <> Builtin (ValueError msg).
Proof. destruct r as [text| |[]]; cbn; intros H; (discriminate || now split). Qed.

Lemma menu_round_raised (s s' : session) (r : raised) :
  menu_round danish_tz str_of_number render_template write_pdf http_get
    float float_of_string str_of_float int_of_string str_of_exn api s = (Raised r, s') ->
  is_RequestException r = false /\
  (forall msg, r = Builtin (ValueError msg) ->
               exists t rest, stdin s = (t, "1") :: rest \/ stdin s = (t, "3") :: rest).
Proof.
  rewrite menu_round_eq. destruct (stdin s) as [|[t choice] rest].
  - intros [= <- _]. split; [reflexivity | discriminate].
  - destruct (String.eqb_spec choice "1") as [->|_].
    { intros H. apply cli_bind_raised in H as [H|(? & ? & _ & H)]; [|discriminate].
      split; [now apply by_zip_raised in H | eauto]. }
    destruct (String.eqb_spec choice "2") as [->|_].
    { intros H. apply cli_bind_raised in H as [H|(? & ? & _ & H)]; [|discriminate].
      apply by_coordinates_raised, caught_either in H as [C N].
      split; [exact C|]. intros msg E. now apply N in E. }
    destruct (String.eqb_spec choice "3") as [->|_].
    { intros H. apply cli_bind_raised in H as [H|(? & ? & _ & H)]; [|discriminate].
      split; [now apply by_store_raised in H | eauto]. }
    destruct (String.eqb choice "4"); [discriminate|].
    intros H. apply cli_bind_raised in H as [H|(? & ? & _ & H)]; [|discriminate].
    now apply print_not_raised in H.
Qed.

Lemma menu_round_returned (s s' : session) (b : bool) :
  menu_round danish_tz str_of_number render_template write_pdf http_get
    float float_of_string str_of_float int_of_string str_of_exn api s = (Returned b, s') ->
  exists t choice read,
    stdin s = ((t, choice) :: read ++ stdin s')%list /\
    (b = false -> choice = "4" /\ read = [] /\ s' = chosen s t (stdin s')).
Proof.
  intros H.
  pose proof (progress_menu_round danish_tz str_of_number render_template write_pdf
                http_get float float_of_string str_of_float int_of_string str_of_exn
                api s) as P.
  rewrite H in P. cbn [snd] in P. revert H.
  rewrite menu_round_eq. destruct (stdin s) as [|[t choice] rest] eqn:I; [discriminate|].
  intros H. exists t, choice.
  assert (B : forall (m : cli unit),
             leads (progress api) m ->
             cli_bind m (fun _ => cli_ret true) (chosen s t rest) = (Returned b, s') ->
             exists read, ((t, choice) :: rest = (t, choice) :: read ++ stdin s')%list /\
                          (b = false -> choice = "4" /\ read = [] /\
                                        s' = chosen s t (stdin s'))).
  { intros m L E. apply cli_bind_returned in E as ([] & s1 & E & [= <- <-]).
    specialize (L (chosen s t rest)). rewrite E in L. cbn [snd] in L.
    destruct L as ([read L] & _). cbn [chosen stdin] in L.
    exists read. split; [now rewrite L | discriminate]. }
  destruct (String.eqb choice "1");
    [apply (B _ (leads_by_zip _ _ _ _ _ _ _ (progress_refl api)
                   (progress_trans api) (progress_print api) (progress_input api)
                   (progress_show _ _ _ _ api) api (progress_get _ api)) H)|].
  destruct (String.eqb choice "2");
    [apply (B _ (leads_by_coordinates _ _ _ _ _ _ _ _ _ _ _ (progress_refl api)
                   (progress_trans api) (progress_print api) (progress_input api)
                   (progress_show _ _ _ _ api) api (progress_get _ api)) H)|].
  destruct (String.eqb choice "3");
    [apply (B _ (leads_by_store _ _ _ _ _ _ _ (progress_refl api)
                   (progress_trans api) (progress_print api) (progress_input api)
                   (progress_show _ _ _ _ api) api (progress_get _ api)) H)|].
  destruct (String.eqb_spec choice "4") as [->|_].
  - injection H as <- <-. exists []. cbn [chosen stdin app]. now repeat split.
  - apply (B _ (progress_print api _) H).
Qed.

End Rounds.

(** ** The loop *)

Lemma while_true_more (body : cli bool) (fuel fuel' : nat) (s : session)
      (x : outcome unit * session) :
  while_true fuel body s = Some x -> (fuel <= fuel')%nat ->
  while_true fuel' body s = Some x.
Proof.
  revert fuel' s. induction fuel as [|fuel IH]; intros fuel' s; [discriminate|].
  intros H L. destruct fuel' as [|fuel']; [lia|]. cbn [while_true] in *.
  destruct (body s) as [[[|]|r] s1]; [|exact H|exact H].
  apply IH; [exact H | lia].
Qed.

Section Loop.

Variable danish_tz : Z -> Z.
Variable str_of_number : Q -> string.
Variable render_template : string -> string -> result string.
Variable write_pdf : string -> result string.
Variable http_get : list request -> request -> reply.
Variable float : Type.
Variable float_of_string : string -> result float.
Variable str_of_float : float -> string.
Variable int_of_string : string -> result Z.
Variable str_of_exn : exn -> string.

(** The loop ends on every input, and not with a [RequestException]. *)
Lemma while_true_menu_ends (api : FoodWasteAPI) (fuel : nat) (s : session) :
  (List.length (stdin s) < fuel)%nat ->
  exists o s',
    while_true fuel
      (menu_round danish_tz str_of_number render_template write_pdf http_get
         float float_of_string str_of_float int_of_string str_of_exn api) s
    = Some (o, s') /\
    forall text, o <> Raised (RequestException text).
Proof.
  revert s. induction fuel as [|fuel IH]; intros s L; [lia|].
  cbn [while_true].
  destruct (menu_round danish_tz str_of_number render_template write_pdf http_get
              float float_of_string str_of_float int_of_string str_of_exn api s)
    as [[[|]|r] s1] eqn:E.
  - apply menu_round_returned in E as (t & choice & read & I & _).
    apply IH. rewrite I in L. cbn [List.length] in L. rewrite length_app in L. lia.
  - exists (Returned tt), s1. split; [reflexivity | discriminate].
  - exists (Raised r), s1. split; [reflexivity|].
    apply menu_round_raised in E as [C _]. intros text [= ->]. discriminate.
Qed.

Lemma while_true_menu_returns (api : FoodWasteAPI) (fuel : nat) (s s' : session) :
  while_true fuel
    (menu_round danish_tz str_of_number render_template write_pdf http_get
       float float_of_string str_of_float int_of_string str_of_exn api) s
  = Some (Returned tt, s') ->
  exists read t, stdin s = (read ++ (t, "4") :: stdin s')%list.
Proof.
  revert s. induction fuel as [|fuel IH]; intros s; [discriminate|].
  cbn [while_true].
  destruct (menu_round danish_tz str_of_number render_template write_pdf http_get
              float float_of_string str_of_float int_of_string str_of_exn api s)
    as [[[|]|r] s1] eqn:E.
  - intros H. apply IH in H as (read' & t' & H).
    apply menu_round_returned in E as (t & choice & read & I & _).
    exists ((t, choice) :: read ++ read')%list, t'.
    rewrite I, H. cbn [app]. now rewrite <- app_assoc.
  - intros [= <-]. apply menu_round_returned in E as (t & choice & read & I & F).
    destruct (F eq_refl) as (-> & -> & _). now exists [], t.
  - discriminate.
Qed.

Lemma main_progress (token : option string) (s s' : session) (o : outcome unit) :
  main danish_tz str_of_number render_template write_pdf http_get
       float float_of_string str_of_float int_of_string str_of_exn token s
  = Some (o, s') ->
  match token with
  | Some (String c tok) => progress (FoodWasteAPI_init (String c tok)) s s'
  | _ => stdin s' = stdin s /\ calls s' = calls s /\ files (os s') = files (os s) /\
         dirs (os s') = dirs (os s) /\
         stdout (os s')
         = stdout (os s) ++ "Error: Please set your API token in the .env file" ++ nl
           ++ "Create a .env file and add: SALLING_API_TOKEN=your_token_here" ++ nl
  end.
Proof.
  assert (N : forall x,
             Some ((_ <<= say "Error: Please set your API token in the .env file" ;;
                    say "Create a .env file and add: SALLING_API_TOKEN=your_token_here") s)
             = Some (o, x) ->
             stdin x = stdin s /\ calls x = calls s /\ files (os x) = files (os s) /\
             dirs (os x) = dirs (os s) /\
             stdout (os x)
             = stdout (os s) ++ "Error: Please set your API token in the .env file" ++ nl
               ++ "Create a .env file and add: SALLING_API_TOKEN=your_token_here" ++ nl).
  { intros x. destruct s as [w i c]. unfold cli_bind, say, run_io, print.
    cbn [os stdin calls stdout files dirs clock]. intros [= _ <-].
    cbn [os stdin calls stdout files dirs]. repeat split.
    string_norm. reflexivity. }
  unfold main. destruct token as [[|c tok]|]; [apply N| |apply N].
  intros H.
  eapply (leads_while_true (progress (FoodWasteAPI_init (String c tok))));
    [apply progress_trans | apply progress_menu_round | exact H].
Qed.

(** X14. [main] ends on every input: with a token it leaves the loop on
    the choice [4], or with an exception, at the latest the [EOFError] of
    the end of the input; one round more than there are lines is enough,
    and what ends it is never a [RequestException]. *)
Theorem main_terminates (token : option string) (s : session) :
  (exists o s',
      main danish_tz str_of_number render_template write_pdf http_get
           float float_of_string str_of_float int_of_string str_of_exn token s
      = Some (o, s') /\
      forall text, o <> Raised (RequestException text)) /\
  (forall api fuel,
      (List.length (stdin s) < fuel)%nat ->
      while_true fuel
        (menu_round danish_tz str_of_number render_template write_pdf http_get
           float float_of_string str_of_float int_of_string str_of_exn api) s
      = while_true (S (List.length (stdin s)))
          (menu_round danish_tz str_of_number render_template write_pdf http_get
             float float_of_string str_of_float int_of_string str_of_exn api) s).
Proof.
  split.
  - unfold main. destruct token as [[|c tok]|].
    + destruct s as [w i c]. unfold cli_bind, say, run_io, print. cbn [os stdin calls].
      do 2 eexists. split; [reflexivity | discriminate].
    + apply while_true_menu_ends. lia.
    + destruct s as [w i c]. unfold cli_bind, say, run_io, print. cbn [os stdin calls].
      do 2 eexists. split; [reflexivity | discriminate].
  - intros api fuel L.
    destruct (while_true_menu_ends api (S (List.length (stdin s))) s) as (o & s' & H & _);
      [lia|].
    rewrite H. apply while_true_more with (S (List.length (stdin s))); [exact H | lia].
Qed.

(** X15. [main] returns only when it has no token, and then it reads no
    line and makes no call, or when the user chooses [4]: the lines typed
    after that choice are left unread. *)
Theorem main_returns_after_exit (token : option string) (s s' : session) :
  main danish_tz str_of_number render_template write_pdf http_get
       float float_of_string str_of_float int_of_string str_of_exn token s
  = Some (Returned tt, s') ->
  match token with
  | Some (String _ _) => exists read t, stdin s = (read ++ (t, "4") :: stdin s')%list
  | _ => stdin s' = stdin s /\ calls s' = calls s /\ files (os s') = files (os s)
  end.
Proof.
  intros H. destruct token as [[|c tok]|].
  - apply main_progress in H as (I & C & F & _). now repeat split.
  - unfold main in H. now apply while_true_menu_returns in H.
  - apply main_progress in H as (I & C & F & _). now repeat split.
Qed.

(** X16. Every call that [main] makes carries the token of the environment
    as a bearer token, and goes to the base address of the service with a
    ZIP code or with coordinates and a radius, or to the address of a store
    below it; without a token, [main] makes no call. *)
Theorem main_calls_carry_the_token (token : option string) (s s' : session)
        (o : outcome unit) :
  main danish_tz str_of_number render_template write_pdf http_get
       float float_of_string str_of_float int_of_string str_of_exn token s
  = Some (o, s') ->
  exists made,
    calls s' = (calls s ++ made)%list /\
    Forall (fun r => exists tok,
                token = Some tok /\ tok <> "" /\
                req_headers r = [("Authorization", "Bearer " ++ tok)] /\
                client_call (FoodWasteAPI_init tok) r /\
                prefix BASE_URL (req_url r) = true) made.
Proof.
  intros H. apply main_progress in H. destruct token as [[|c tok]|].
  - destruct H as (_ & C & _). exists []. rewrite app_nil_r. now split.
  - destruct H as (_ & (made & C & F) & _). exists made. split; [exact C|].
    eapply Forall_impl; [|exact F]. intros r K. exists (String c tok).
    split; [reflexivity|]. split; [discriminate|].
    split; [apply K|]. split; [exact K|].
    destruct K as (_ & [[U _]|[[U _]|[[id U] _]]]); rewrite U;
      [reflexivity | reflexivity | apply prefix_append].
  - destruct H as (_ & C & _). exists []. rewrite app_nil_r. now split.
Qed.

(** X17. [main] writes nothing but its outputs: whatever the user types
    and the service answers, and however it ends, a file whose path does
    not begin with [output/tilbud_] is as it was, the template among them;
    no directory is made but [output] and [output/images]; and what was on
    the console is still there, before what has been printed. *)
Theorem main_writes_its_outputs_only (token : option string) (s s' : session)
        (o : outcome unit) :
  main danish_tz str_of_number render_template write_pdf http_get
       float float_of_string str_of_float int_of_string str_of_exn token s
  = Some (o, s') ->
  (forall path, prefix "output/tilbud_" path = false ->
                lookup_file path (files (os s')) = lookup_file path (files (os s))) /\
  lookup_file "template.html" (files (os s'))
  = lookup_file "template.html" (files (os s)) /\
  (forall d, In d (dirs (os s')) ->
             In d (dirs (os s)) \/ d = "output" \/ d = "output/images") /\
  exists printed, stdout (os s') = stdout (os s) ++ printed.
Proof.
  intros H. apply main_progress in H.
  assert (P : (forall path, prefix "output/tilbud_" path = false ->
                            lookup_file path (files (os s'))
                            = lookup_file path (files (os s))) /\
              (forall d, In d (dirs (os s')) ->
                         In d (dirs (os s)) \/ d = "output" \/ d = "output/images") /\
              exists printed, stdout (os s') = stdout (os s) ++ printed).
  { destruct token as [[|c tok]|].
    - destruct H as (_ & _ & F & D & S). rewrite F, D, S.
      split; [reflexivity|]. split; [auto | eauto].
    - destruct H as (_ & _ & S & F & D). now split.
    - destruct H as (_ & _ & F & D & S). rewrite F, D, S.
      split; [reflexivity|]. split; [auto | eauto]. }
  destruct P as (F & D & S). split; [exact F|]. split; [now apply F | now split].
Qed.

(** X18. When [main] ends with a [ValueError], its last round is a search
    by ZIP code or a search by store: the search by coordinates catches a
    [ValueError], of the numbers that are typed and of the results alike,
    and the two other searches do not. *)
Theorem value_error_ends_main (token : option string) (s s' : session) (msg : string) :
  main danish_tz str_of_number render_template write_pdf http_get
       float float_of_string str_of_float int_of_string str_of_exn token s
  = Some (Raised (Builtin (ValueError msg)), s') ->
  exists tok s0 t rest,
    token = Some tok /\
    progress (FoodWasteAPI_init tok) s s0 /\
    menu_round danish_tz str_of_number render_template write_pdf http_get
      float float_of_string str_of_float int_of_string str_of_exn
      (FoodWasteAPI_init tok) s0
    = (Raised (Builtin (ValueError msg)), s') /\
    (stdin s0 = (t, "1") :: rest \/ stdin s0 = (t, "3") :: rest).
Proof.
  unfold main. destruct token as [[|c tok]|].
  - destruct s as [w i k]. unfold cli_bind, say, run_io, print. discriminate.
  - intros H.
    apply (while_true_raised_round (progress (FoodWasteAPI_init (String c tok)))
             (progress_refl _) (progress_trans _)) in H as (s0 & P & H);
      [|apply progress_menu_round].
    destruct (menu_round_raised _ _ _ _ _ _ _ _ _ _ _ _ _ _ H) as [_ V].
    destruct (V msg eq_refl) as (t & rest & I).
    exists (String c tok), s0, t, rest.
    split; [reflexivity|]. split; [exact P|]. split; [exact H | exact I].
  - destruct s as [w i k]. unfold cli_bind, say, run_io, print. discriminate.
Qed.

End Loop.

(** ** The client *)

Lemma run_io_same {A : Type} (m : io A) (s : session) :
  stdin (snd (run_io m s)) = stdin s /\ calls (snd (run_io m s)) = calls s.
Proof. unfold run_io. destruct (m (os s)) as [[a|e] w]; now split. Qed.

Lemma try_except_bind_returned {A B : Type} (m : cli A) (k : A -> cli B)
      (caught : raised -> bool) (handler : raised -> cli B) (s s1 : session) (a : A) :
  m s = (Returned a, s1) ->
  try_except (cli_bind m k) caught handler s = try_except (k a) caught handler s1.
Proof. intros H. unfold try_except, cli_bind. now rewrite H. Qed.

Section ClientCalls.

Variable danish_tz : Z -> Z.
Variable str_of_number : Q -> string.
Variable render_template : string -> string -> result string.
Variable write_pdf : string -> result string.
Variable http_get : list request -> request -> reply.
Variable float : Type.
Variable float_of_string : string -> result float.
Variable str_of_float : float -> string.
Variable int_of_string : string -> result Z.
Variable str_of_exn : exn -> string.

Lemma checked_call (r : request) :
  one_call http_get
    (response <<= requests_get http_get r ;;
     _ <<= of_outcome (raise_for_status response) ;;
     of_outcome (json response)) r.
Proof.
  intros s. cbv zeta. unfold cli_bind, requests_get, of_outcome, raise_for_status, answered.
  destruct (answer (http_get (calls s) r)) as [resp|x] eqn:E.
  - destruct (Z.leb_spec 400 (status_code resp)) as [L|L];
      destruct (Z.ltb_spec (status_code resp) 600) as [U|U]; cbn [andb fst snd];
      (split; [reflexivity|]); (split; [discriminate|]);
      (split; intros resp' [= <-] S; (reflexivity || lia)).
  - cbn [fst snd]. split; [reflexivity|]. split; [now intros x' [= <-]|].
    split; discriminate.
Qed.

Lemma search_by_zip_call (api : FoodWasteAPI) (zip_code : string) :
  one_call http_get (search_by_zip http_get api zip_code)
           {| req_url := BASE_URL; req_headers := headers api;
              req_params := [("zip", StrValue zip_code)] |}.
Proof. apply checked_call. Qed.

Lemma search_by_coordinates_call (api : FoodWasteAPI) (latitude longitude : float)
      (radius : Z) :
  one_call http_get
           (search_by_coordinates http_get float str_of_float api latitude longitude radius)
           {| req_url := BASE_URL; req_headers := headers api;
              req_params := [("geo", StrValue (str_of_float latitude ++ ","
                                                ++ str_of_float longitude));
                             ("radius", IntValue radius)] |}.
Proof. apply checked_call. Qed.

Lemma get_store_clearances_call (api : FoodWasteAPI) (store_id : string) :
  one_call http_get (get_store_clearances http_get api store_id)
           {| req_url := BASE_URL ++ "/" ++ store_id; req_headers := headers api;
              req_params := [] |}.
Proof. apply checked_call. Qed.

(** X19. Each method of the client makes one call, whatever the answer,
    and touches nothing else: the search by ZIP code and the search by
    coordinates at the base address, with their parameters, and the search
    by store at the base address followed by the store, as it is typed; each
    call carries the token given to the client as a bearer token.  The
    method raises what the call raises; on a status from 400 to 599 it
    raises the error of the status whatever the body; on any other status
    it returns what the body decodes to, or raises what the decoding
    raises. *)
Theorem client_methods (token zip_code store_id : string)
        (latitude longitude : float) (radius : Z) :
  let api := FoodWasteAPI_init token in
  one_call http_get (search_by_zip http_get api zip_code)
           {| req_url := BASE_URL;
              req_headers := [("Authorization", "Bearer " ++ token)];
              req_params := [("zip", StrValue zip_code)] |} /\
  one_call http_get
           (search_by_coordinates http_get float str_of_float api latitude longitude radius)
           {| req_url := BASE_URL;
              req_headers := [("Authorization", "Bearer " ++ token)];
              req_params := [("geo", StrValue (str_of_float latitude ++ ","
                                                ++ str_of_float longitude));
                             ("radius", IntValue radius)] |} /\
  one_call http_get (get_store_clearances http_get api store_id)
           {| req_url := "https://api.sallinggroup.com/v1/food-waste/" ++ store_id;
              req_headers := [("Authorization", "Bearer " ++ token)];
              req_params := [] |}.
Proof.
  cbv zeta. split; [|split].
  - exact (search_by_zip_call (FoodWasteAPI_init token) zip_code).
  - exact (search_by_coordinates_call (FoodWasteAPI_init token) latitude longitude radius).
  - exact (get_store_clearances_call (FoodWasteAPI_init token) store_id).
Qed.

(** ** The search by coordinates *)

Lemma say_eq (line : string) (s : session) :
  say line s
  = (Returned tt,
     {| os := with_stdout (os s) (stdout (os s) ++ line ++ nl);
        stdin := stdin s; calls := calls s |}).
Proof. reflexivity. Qed.

Lemma input_eq (prompt : string) (s : session) (t : datetime) (line : string)
      (rest : list (datetime * string)) :
  stdin s = (t, line) :: rest ->
  input prompt s
  = (Returned line,
     {| os := at_time t (with_stdout (os s) (stdout (os s) ++ prompt));
        stdin := rest; calls := calls s |}).
Proof. intros H. unfold input. now rewrite H. Qed.

Lemma menu_round_coordinates (api : FoodWasteAPI) (s : session) (t : datetime)
      (rest : list (datetime * string)) :
  stdin s = (t, "2") :: rest ->
  menu_round danish_tz str_of_number render_template write_pdf http_get
    float float_of_string str_of_float int_of_string str_of_exn api s
  = (_ <<= by_coordinates danish_tz str_of_number render_template write_pdf
             http_get float float_of_string str_of_float int_of_string
             str_of_exn api ;; cli_ret true) (chosen s t rest).
Proof. intros H. rewrite menu_round_eq, H. reflexivity. Qed.

(** X20. In the search by coordinates, a latitude that is not a number is
    reported and ends the round: the longitude and the radius are not asked
    for, no call is made, and the lines that follow are read as choices of
    the menu. *)
Theorem latitude_not_a_number (api : FoodWasteAPI) (s : session) (t0 t1 : datetime)
        (lat_ msg : string) (rest : list (datetime * string)) :
  stdin s = (t0, "2") :: (t1, lat_) :: rest ->
  float_of_string lat_ = Raise (ValueError msg) ->
  menu_round danish_tz str_of_number render_template write_pdf http_get
    float float_of_string str_of_float int_of_string str_of_exn api s
  = (Returned true,
     {| os := with_stdout (at_time t1 (os s))
                (stdout (os s) ++ menu_text ++ "Enter latitude (e.g., 56.154459): "
                 ++ "Error: " ++ str_of_exn (ValueError msg) ++ nl);
        stdin := rest;
        calls := calls s |}).
Proof.
  intros I F. rewrite (menu_round_coordinates api s t0 _ I).
  unfold cli_bind at 1. unfold by_coordinates.
  rewrite (try_except_bind_returned _ _ _ _ _ _ _
             (input_eq "Enter latitude (e.g., 56.154459): "
                (chosen s t0 ((t1, lat_) :: rest)) t1 lat_ rest eq_refl)).
  unfold try_except, cli_bind at 1, run_io at 1, lift. rewrite F.
  cbn [is_ValueError_or_RequestException]. unfold report. rewrite say_eq.
  unfold cli_ret, chosen, at_time, with_stdout, str_of_raised.
  cbn [os stdin calls clock dirs files stdout].
  f_equal. f_equal. f_equal. string_norm. reflexivity.
Qed.

Lemma run_io_lift_ok {A : Type} (a : A) (s : session) :
  run_io (lift (Ok a)) s = (Returned a, s).
Proof. now destruct s. Qed.

Lemma snd_then_ret {A B : Type} (m : cli A) (b : B) (s : session) :
  snd (cli_bind m (fun _ => cli_ret b) s) = snd (m s).
Proof. unfold cli_bind, cli_ret. now destruct (m s) as [[a|r] s1]. Qed.

(** A search and the listing of its results make the one call of the
    search and read no line, whatever the outcome. *)
Lemma search_then_show (m : cli Batch) (r : request) (caught : raised -> bool)
      (s : session) :
  one_call http_get m r ->
  let s' := snd (try_except
                   (results <<= m ;;
                    show danish_tz str_of_number render_template write_pdf results)
                   caught (report str_of_exn) s) in
  calls s' = (calls s ++ [r])%list /\ stdin s' = stdin s.
Proof.
  intros C. cbv zeta. destruct (C s) as (E & _). cbv zeta in E.
  unfold try_except, cli_bind, report, say, show.
  destruct (m s) as [[data|x] s1]; cbn [snd] in E; subst s1.
  - pose proof (run_io_same
                  (print_clearances danish_tz str_of_number render_template write_pdf data)
                  (answered (http_get (calls s) r) r s)) as [I K].
    destruct (run_io (print_clearances danish_tz str_of_number render_template
                        write_pdf data) (answered (http_get (calls s) r) r s))
      as [[[]|x] s2]; cbn [snd] in *.
    + now rewrite K, I.
    + destruct (caught x); cbn [snd].
      * destruct (run_io_same (print ("Error: " ++ str_of_raised str_of_exn x)) s2)
          as [I2 K2].
        now rewrite K2, I2, K, I.
      * now rewrite K, I.
  - destruct (caught x); cbn [snd]; [|now split].
    destruct (run_io_same (print ("Error: " ++ str_of_raised str_of_exn x))
                (answered (http_get (calls s) r) r s)) as [I2 K2].
    now rewrite K2, I2.
Qed.

(** The search by coordinates, once its three questions are answered with
    numbers. *)
Lemma by_coordinates_asked (api : FoodWasteAPI) (s : session) (t0 t1 t2 t3 : datetime)
      (lat_ lon_ radius_ : string) (lat lon : float) (radius : Z)
      (rest : list (datetime * string)) :
  float_of_string lat_ = Ok lat -> float_of_string lon_ = Ok lon ->
  int_of_string (if truthy radius_ then radius_ else "5") = Ok radius ->
  by_coordinates danish_tz str_of_number render_template write_pdf http_get
    float float_of_string str_of_float int_of_string str_of_exn api
    (chosen s t0 ((t1, lat_) :: (t2, lon_) :: (t3, radius_) :: rest))
  = try_except
      (results <<= search_by_coordinates http_get float str_of_float api lat lon radius ;;
       show danish_tz str_of_number render_template write_pdf results)
      is_ValueError_or_RequestException (report str_of_exn)
      (coordinates_asked s t3 rest).
Proof.
  intros Flat Flon Frad. unfold by_coordinates.
  erewrite try_except_bind_returned; [|apply input_eq; reflexivity].
  rewrite Flat.
  erewrite try_except_bind_returned; [|apply run_io_lift_ok].
  erewrite try_except_bind_returned; [|apply input_eq; reflexivity].
  rewrite Flon.
  erewrite try_except_bind_returned; [|apply run_io_lift_ok].
  erewrite try_except_bind_returned; [|apply input_eq; reflexivity].
  rewrite Frad.
  erewrite try_except_bind_returned; [|apply run_io_lift_ok].
  f_equal. unfold coordinates_asked, chosen, at_time, with_stdout.
  cbn [os stdin calls clock dirs files stdout].
  f_equal. f_equal. string_norm. reflexivity.
Qed.

(** X21. In the search by coordinates, a radius left empty is the radius
    that [int] reads in [5]: the round makes one call, with the
    coordinates as [str] writes them and that radius, and reads the four
    lines. *)
Theorem empty_radius_is_five (api : FoodWasteAPI) (s : session) (t0 t1 t2 t3 : datetime)
        (lat_ lon_ : string) (lat lon : float) (five : Z)
        (rest : list (datetime * string)) :
  stdin s = (t0, "2") :: (t1, lat_) :: (t2, lon_) :: (t3, "") :: rest ->
  float_of_string lat_ = Ok lat -> float_of_string lon_ = Ok lon ->
  int_of_string "5" = Ok five ->
  let s' := snd (menu_round danish_tz str_of_number render_template write_pdf http_get
                   float float_of_string str_of_float int_of_string str_of_exn api s) in
  calls s'
  = (calls s
     ++ [{| req_url := BASE_URL; req_headers := headers api;
            req_params := [("geo", StrValue (str_of_float lat ++ "," ++ str_of_float lon));
                           ("radius", IntValue five)] |}])%list /\
  stdin s' = rest.
Proof.
  intros I Flat Flon Ffive. cbv zeta.
  rewrite (menu_round_coordinates api s t0 _ I), snd_then_ret.
  rewrite (by_coordinates_asked api s t0 t1 t2 t3 lat_ lon_ "" lat lon five rest
             Flat Flon Ffive).
  exact (search_then_show _ _ is_ValueError_or_RequestException (coordinates_asked s t3 rest)
           (search_by_coordinates_call api lat lon five)).
Qed.

End ClientCalls.

(** ** The menu on examples *)

(** An instance of [main_returns_after_exit]: a search, then the choice
    [4]; the line typed after it is not read. *)
Lemma main_returns_after_exit_witness :
  outcome_of (run_main 200 (StoreList [sample_store]) (Some "secret")
                ["1"; "8000"; "4"; "1"])
  = Some (Returned tt) /\
  map snd (stdin (session_after (run_main 200 (StoreList [sample_store]) (Some "secret")
                                   ["1"; "8000"; "4"; "1"])))
  = ["1"] /\
  exists read t,
    stdin (session_of ["1"; "8000"; "4"; "1"])
    = (read ++ (t, "4")
         :: stdin (session_after (run_main 200 (StoreList [sample_store]) (Some "secret")
                                    ["1"; "8000"; "4"; "1"])))%list.
Proof.
  assert (H : main central_european sample_str_of_number sample_render_template
                sample_write_pdf (service_of 200 (StoreList [sample_store])) Z
                sample_float_of_string sample_str_of_float sample_int_of_string
                sample_str_of_exn (Some "secret") (session_of ["1"; "8000"; "4"; "1"])
              = Some (Returned tt,
                      session_after (run_main 200 (StoreList [sample_store])
                                       (Some "secret") ["1"; "8000"; "4"; "1"])))
    by (vm_compute; reflexivity).
  split; [vm_compute; reflexivity|]. split; [vm_compute; reflexivity|].
  apply main_returns_after_exit in H. exact H.
Defined.

(** An instance of [main_calls_carry_the_token]: a search by ZIP code and
    a search by store. *)
Lemma main_calls_carry_the_token_witness :
  map req_url (calls (session_after (run_main 200 (StoreList [sample_store])
                                       (Some "secret") ["1"; "8000"; "3"; "abc"; "4"])))
  = ["https://api.sallinggroup.com/v1/food-waste";
     "https://api.sallinggroup.com/v1/food-waste/abc"] /\
  Forall (fun r => req_headers r = [("Authorization", "Bearer secret")])
         (calls (session_after (run_main 200 (StoreList [sample_store])
                                  (Some "secret") ["1"; "8000"; "3"; "abc"; "4"]))).
Proof.
  assert (H : main central_european sample_str_of_number sample_render_template
                sample_write_pdf (service_of 200 (StoreList [sample_store])) Z
                sample_float_of_string sample_str_of_float sample_int_of_string
                sample_str_of_exn (Some "secret")
                (session_of ["1"; "8000"; "3"; "abc"; "4"])
              = Some (Returned tt,
                      session_after (run_main 200 (StoreList [sample_store])
                                       (Some "secret") ["1"; "8000"; "3"; "abc"; "4"])))
    by (vm_compute; reflexivity).
  apply main_calls_carry_the_token in H as (made & C & F).
  split; [vm_compute; reflexivity|].
  rewrite C. cbn [session_of calls app].
  eapply Forall_impl; [|exact F].
  intros r (tok & [= <-] & _ & K & _). exact K.
Defined.

(** An instance of [main_writes_its_outputs_only]: after a search, the
    template is as it was beside the two outputs. *)
Lemma main_writes_its_outputs_only_witness :
  map fst (files (os (session_after (run_main 200 (StoreList [sample_store])
                                       (Some "secret") ["1"; "8000"; "4"]))))
  = ["output/tilbud_20240531_0930.pdf"; "output/tilbud_20240531_0930.html";
     "template.html"] /\
  lookup_file "template.html"
    (files (os (session_after (run_main 200 (StoreList [sample_store])
                                 (Some "secret") ["1"; "8000"; "4"]))))
  = Some "<html><body>{{ content }}</body></html>".
Proof.
  assert (H : main central_european sample_str_of_number sample_render_template
                sample_write_pdf (service_of 200 (StoreList [sample_store])) Z
                sample_float_of_string sample_str_of_float sample_int_of_string
                sample_str_of_exn (Some "secret") (session_of ["1"; "8000"; "4"])
              = Some (Returned tt,
                      session_after (run_main 200 (StoreList [sample_store])
                                       (Some "secret") ["1"; "8000"; "4"])))
    by (vm_compute; reflexivity).
  apply main_writes_its_outputs_only in H as (_ & T & _).
  split; [vm_compute; reflexivity|]. rewrite T. reflexivity.
Defined.

(** An instance of [value_error_ends_main]: the service answers with a
    timestamp that is not read; the search by coordinates reports it, and
    the search by ZIP code that follows ends the program with it. *)
Lemma value_error_ends_main_witness :
  outcome_of (run_main 200 (StoreList [unreadable_store]) (Some "secret")
                ["2"; "56"; "10"; ""; "1"; "8000"; "4"])
  = Some (Raised (Builtin (ValueError "time data does not match format"))) /\
  map snd (stdin (session_after (run_main 200 (StoreList [unreadable_store])
                                   (Some "secret")
                                   ["2"; "56"; "10"; ""; "1"; "8000"; "4"])))
  = ["4"] /\
  exists s0 t rest,
    progress (FoodWasteAPI_init "secret")
             (session_of ["2"; "56"; "10"; ""; "1"; "8000"; "4"]) s0 /\
    (stdin s0 = (t, "1") :: rest \/ stdin s0 = (t, "3") :: rest).
Proof.
  assert (H : main central_european sample_str_of_number sample_render_template
                sample_write_pdf (service_of 200 (StoreList [unreadable_store])) Z
                sample_float_of_string sample_str_of_float sample_int_of_string
                sample_str_of_exn (Some "secret")
                (session_of ["2"; "56"; "10"; ""; "1"; "8000"; "4"])
              = Some (Raised (Builtin (ValueError "time data does not match format")),
                      session_after (run_main 200 (StoreList [unreadable_store])
                                       (Some "secret")
                                       ["2"; "56"; "10"; ""; "1"; "8000"; "4"])))
    by (vm_compute; reflexivity).
  split; [vm_compute; reflexivity|]. split; [vm_compute; reflexivity|].
  apply value_error_ends_main in H as (tok & s0 & t & rest & [= <-] & P & _ & I).
  exists s0, t, rest. now split.
Defined.

(** The same answer of the service in the search by coordinates: the
    [ValueError] is reported and the loop goes on; an error status is
    reported in every search, and nothing is written. *)
Example value_error_in_the_search_by_coordinates :
  fst (run_menu_round 200 (StoreList [unreadable_store]) ["2"; "56"; "10"; ""])
  = Returned true /\
  str_contains ("Error: time data does not match format" ++ nl)
    (stdout (os (snd (run_menu_round 200 (StoreList [unreadable_store])
                        ["2"; "56"; "10"; ""]))))
  = true /\
  fst (run_menu_round 404 (StoreList [sample_store]) ["1"; "8000"]) = Returned true /\
  str_contains ("Error: error status for url: https://api.sallinggroup.com/v1/food-waste"
                  ++ nl)
    (stdout (os (snd (run_menu_round 404 (StoreList [sample_store]) ["1"; "8000"]))))
  = true /\
  files (os (snd (run_menu_round 404 (StoreList [sample_store]) ["1"; "8000"])))
  = files sample_world.
Proof.
  split; [vm_compute; reflexivity|]. split; [vm_compute; reflexivity|].
  split; [vm_compute; reflexivity|]. split; vm_compute; reflexivity.
Qed.

(** An instance of [latitude_not_a_number]: the line typed after the
    latitude is left to the next round. *)
Lemma latitude_not_a_number_witness :
  exists s',
    menu_round central_european sample_str_of_number sample_render_template
      sample_write_pdf (service_of 200 (StoreList [sample_store])) Z
      sample_float_of_string sample_str_of_float sample_int_of_string
      sample_str_of_exn (FoodWasteAPI_init "secret") (session_of ["2"; "north"; "4"])
    = (Returned true, s') /\
    map snd (stdin s') = ["4"] /\ calls s' = [].
Proof.
  eexists. split; [|split].
  - apply (latitude_not_a_number central_european sample_str_of_number
             sample_render_template sample_write_pdf
             (service_of 200 (StoreList [sample_store])) Z sample_float_of_string
             sample_str_of_float sample_int_of_string sample_str_of_exn
             (FoodWasteAPI_init "secret") (session_of ["2"; "north"; "4"])
             (clock sample_world) (clock sample_world) "north"
             "could not convert string to float"
             [(clock sample_world, "4")] eq_refl eq_refl).
  - reflexivity.
  - reflexivity.
Defined.

(** An instance of [empty_radius_is_five]. *)
Lemma empty_radius_is_five_witness :
  calls (snd (menu_round central_european sample_str_of_number sample_render_template
                sample_write_pdf (service_of 200 (StoreList [sample_store])) Z
                sample_float_of_string sample_str_of_float sample_int_of_string
                sample_str_of_exn (FoodWasteAPI_init "secret")
                (session_of ["2"; "56"; "10"; ""])))
  = [{| req_url := "https://api.sallinggroup.com/v1/food-waste";
        req_headers := [("Authorization", "Bearer secret")];
        req_params := [("geo", StrValue "56.0,10.0"); ("radius", IntValue 5)] |}].
Proof.
  destruct (empty_radius_is_five central_european sample_str_of_number
              sample_render_template sample_write_pdf
              (service_of 200 (StoreList [sample_store])) Z sample_float_of_string
              sample_str_of_float sample_int_of_string sample_str_of_exn
              (FoodWasteAPI_init "secret") (session_of ["2"; "56"; "10"; ""])
              (clock sample_world) (clock sample_world) (clock sample_world)
              (clock sample_world) "56" "10" 56%Z 10%Z 5%Z [] eq_refl eq_refl eq_refl
              eq_refl) as [C _].
  rewrite C. reflexivity.
Defined.
